(** * setup_map_client_from_provenance: the provisioning run, embedded

    A shallow embedding of [src/setup_map_client_from_provenance.py].
    The script is glue: it reads a provenance record, checks the host, and
    drives external tools.  Everything the script does not own (the file
    system, spawned processes, [os.path], [packaging.version], the JSON
    decoder) is an interface ([Host]); the script's own control flow is
    written out in a state-and-exception monad over that interface. *)

From Stdlib Require Import ZArith Lia Bool List Ascii String.
From stdpp Require Import base strings gmap.
Import ListNotations.

Local Open Scope string_scope.
Local Open Scope Z_scope.

(** ** Python values as the JSON decoder builds them *)

(** A [dict] is kept as its items in insertion order: iteration order is
    observable (requirement lines, plugin loop).  Numbers are carried by
    the text [str()] gives them; the script never computes with one. *)
#[local] Set Warnings "-register-all".
Inductive json : Type :=
| JNull
| JBool (b : bool)
| JNumber (text : string)
| JStr (s : string)
| JArr (items : list json)
| JObj (items : list (string * json)).

Inductive exn : Type :=
| KeyError (key : string)
| TypeError
| AttributeError
| ValueError
| JSONDecodeError
| InvalidVersion
| UnicodeDecodeError
| OSError.

(** ** String methods used by the script *)

Module Str.

(** The line feed, ["\n"] in the source. *)
Definition LF : string := String (Ascii.ascii_of_nat 10) EmptyString.


(** [sep.join(parts)] *)
Fixpoint join (sep : string) (parts : list string) : string :=
  match parts with
  | [] => ""
  | [x] => x
  | x :: rest => x +:+ sep +:+ join sep rest
  end.

(** [s.startswith(p)] *)
Fixpoint startswith (p s : string) : bool :=
  match p, s with
  | EmptyString, _ => true
  | String a p', String b s' => Ascii.eqb a b && startswith p' s'
  | String _ _, EmptyString => false
  end.

(** [needle in hay] for two strings *)
Fixpoint contains (needle hay : string) : bool :=
  startswith needle hay ||
  match hay with
  | EmptyString => false
  | String _ hay' => contains needle hay'
  end.

(** [s.endswith(p)] *)
Fixpoint endswith (p s : string) : bool :=
  String.eqb p s ||
  match s with
  | EmptyString => false
  | String _ s' => endswith p s'
  end.

(** [s.split(sep)] for a one-character separator. *)
Fixpoint split_go (sep : Ascii.ascii) (cur : string) (s : string) : list string :=
  match s with
  | EmptyString => [cur]
  | String c s' =>
      if Ascii.eqb c sep then cur :: split_go sep "" s'
      else split_go sep (cur +:+ String c "") s'
  end.

Definition split (sep : Ascii.ascii) (s : string) : list string :=
  split_go sep "" s.

(** [s.replace(old, new, count)]: leftmost non-overlapping occurrences,
    at most [count] of them.  [skip] counts the characters of a matched
    occurrence still to be dropped. *)
Fixpoint replace_go (old new : string) (count skip : nat) (s : string) : string :=
  match s with
  | EmptyString =>
      match skip, count, old with
      | O, S _, EmptyString => new
      | _, _, _ => ""
      end
  | String c s' =>
      match skip with
      | S k => replace_go old new count k s'
      | O =>
          match count with
          | S n =>
              if startswith old s then
                match old with
                | EmptyString => new +:+ String c (replace_go old new n O s')
                | String _ old' => new +:+ replace_go old new n (String.length old') s'
                end
              else String c (replace_go old new count O s')
          | O => String c (replace_go old new count O s')
          end
      end
  end.

(** [s.replace(old, new)]: a string of length [n] holds at most [n + 1]
    occurrences. *)
Definition replace (old new s : string) : string :=
  replace_go old new (S (String.length s)) O s.

Definition replace_n (old new : string) (count : nat) (s : string) : string :=
  replace_go old new count O s.

End Str.

(** ** The host interface

    What the script reads from its process, the pure library functions it
    calls, and the world it acts on.  No law is assumed of any field. *)

(** [subprocess.run(argv, cwd=..., capture_output=...)] *)
Record invocation : Type := Invocation {
  argv : list string;
  cwd : option string;
  capture_output : bool
}.

(** The [CompletedProcess] fields the script reads.  [stderr] is the
    captured stream after [.decode()]: [None] when the bytes are not
    UTF-8 (the script reads it only from capturing runs). *)
Record completed : Type := Completed {
  returncode : Z;
  stderr : option string
}.

(** [open(path)] followed by [json.load(fh)] *)
Inductive load_outcome : Type :=
| LoadOSError
| LoadDecodeError
| Loaded (content : json).

Class Host : Type := {
  (* the running interpreter and its environment *)
  sys_platform : string;
  python_version : string;
  sys_executable : string;
  sys_prefix : string;
  environ_get : string -> option string;
  (* os, os.path and str, as the platform defines them *)
  os_sep : string;
  os_pathsep : Ascii.ascii;
  os_curdir : string;
  os_defpath : string;
  os_path_join : string -> string -> string;
  os_path_dirname : string -> string;
  os_path_normcase : string -> string;
  os_path_commonpath : list string -> option string;
  str_lower : string -> string;
  py_repr : json -> string;
  (* packaging.version: a version parses to a key, and two versions are
     equal when their keys are *)
  version_key : Type;
  version_key_eq_dec :: EqDecision version_key;
  Version : string -> option version_key;
  (* the world: file system and everything spawned tools can reach *)
  world : Type;
  os_path_isdir : string -> world -> bool;
  os_path_isfile : string -> world -> bool;
  os_path_exists : string -> world -> bool;
  os_access_x : string -> world -> bool;
  json_load_file : string -> world -> load_outcome;
  write_text : string -> string -> world -> option world;
  os_makedirs : string -> world -> option world;
  subprocess_run : invocation -> world -> option completed * world
}.

(** ** Runs: state, outcome, monad *)

Inductive event : Type :=
| EPrint (line : string)
| ERun (inv : invocation) (res : option completed)
| EWrite (path : string) (text : string)
| EMakedirs (path : string).

(** How a piece of [main] ends: it falls through with a value, [main]
    returns a code, or an exception propagates. *)
Inductive result (A : Type) : Type :=
| Val (a : A)
| Exit (code : Z)
| Raise (e : exn).

Arguments Val {A} a.
Arguments Exit {A} code.
Arguments Raise {A} e.

Section Embedding.

Context `{host : Host}.

Record state : Type := State {
  st_world : world;
  st_log : list event
}.

Definition M (A : Type) : Type := state -> result A * state.

Definition ret {A} (a : A) : M A := fun s => (Val a, s).

Definition bind {A B} (m : M A) (k : A -> M B) : M B := fun s =>
  match m s with
  | (Val a, s') => k a s'
  | (Exit c, s') => (Exit c, s')
  | (Raise e, s') => (Raise e, s')
  end.

Definition py_return {A} (code : Z) : M A := fun s => (Exit code, s).

Definition raise {A} (e : exn) : M A := fun s => (Raise e, s).

Definition lift {A} (r : result A) : M A := fun s => (r, s).

Definition emit (e : event) (s : state) : state :=
  State (st_world s) (st_log s ++ [e]).

Definition observe {A} (f : world -> A) : M A := fun s => (Val (f (st_world s)), s).

Definition print (line : string) : M unit := fun s => (Val tt, emit (EPrint line) s).

(** [subprocess.run]: a tool that cannot be launched raises. *)
Definition run (inv : invocation) : M completed := fun s =>
  let '(res, w') := subprocess_run inv (st_world s) in
  let s' := State w' (st_log s ++ [ERun inv res]) in
  match res with
  | Some c => (Val c, s')
  | None => (Raise OSError, s')
  end.

(** [with open(path, "w") as fh: fh.write(text)] *)
Definition open_write (path text : string) : M unit := fun s =>
  match write_text path text (st_world s) with
  | Some w' => (Val tt, State w' (st_log s ++ [EWrite path text]))
  | None => (Raise OSError, s)
  end.

(** [os.makedirs(path, exist_ok=True)] *)
Definition makedirs (path : string) : M unit := fun s =>
  match os_makedirs path (st_world s) with
  | Some w' => (Val tt, State w' (st_log s ++ [EMakedirs path]))
  | None => (Raise OSError, s)
  end.

(** [with open(path) as fh: json.load(fh)] *)
Definition json_load (path : string) : M json := fun s =>
  match json_load_file path (st_world s) with
  | Loaded content => (Val content, s)
  | LoadDecodeError => (Raise JSONDecodeError, s)
  | LoadOSError => (Raise OSError, s)
  end.

End Embedding.

Declare Scope run_scope.
Delimit Scope run_scope with run.
Notation "'let*' x ':=' m 'in' k" := (bind m (fun x => k))
  (at level 10, x name, m at level 100, k at level 200) : run_scope.
Notation "'let*' ' p ':=' m 'in' k" := (bind m (fun x => let 'p := x in k))
  (at level 10, p pattern, m at level 100, k at level 200) : run_scope.
Notation "m '>>' k" := (bind m (fun _ => k))
  (at level 100, k at level 200, right associativity) : run_scope.
Local Open Scope run_scope.

(** ** Python operators on decoded values *)

Module Py.

Fixpoint assoc (k : string) (items : list (string * json)) : option json :=
  match items with
  | [] => None
  | (k', v) :: rest => if String.eqb k k' then Some v else assoc k rest
  end.

(** [v == s] for a string literal [s] *)
Definition eq_str (v : json) (s : string) : bool :=
  match v with
  | JStr t => String.eqb t s
  | _ => false
  end.

(** [v[k]] for a string key *)
Definition getitem (v : json) (k : string) : result json :=
  match v with
  | JObj items =>
      match assoc k items with
      | Some x => Val x
      | None => Raise (KeyError k)
      end
  | _ => Raise TypeError
  end.

(** [k in v] for a string [k]: key of a dict, element of a list,
    substring of a string; other values are not iterable. *)
Definition contains (k : string) (v : json) : result bool :=
  match v with
  | JObj items => Val (existsb (fun kv => String.eqb k (fst kv)) items)
  | JArr items => Val (existsb (fun x => eq_str x k) items)
  | JStr s => Val (Str.contains k s)
  | _ => Raise TypeError
  end.

(** [v.items()] *)
Definition items (v : json) : result (list (string * json)) :=
  match v with
  | JObj l => Val l
  | _ => Raise AttributeError
  end.

(** A command-line argument must be a [str]. *)
Definition as_arg (v : json) : result string :=
  match v with
  | JStr s => Val s
  | _ => Raise TypeError
  end.

(** [f"{v}"] *)
Definition format `{Host} (v : json) : string :=
  match v with
  | JStr s => s
  | JNumber text => text
  | JNull => "None"
  | JBool true => "True"
  | JBool false => "False"
  | JArr _ | JObj _ => py_repr v
  end.

(** [Version(v)] *)
Definition version `{Host} (v : json) : result version_key :=
  match v with
  | JStr s =>
      match Version s with
      | Some k => Val k
      | None => Raise InvalidVersion
      end
  | _ => Raise TypeError
  end.

End Py.

(** ** The script *)

Section Script.

Context `{host : Host}.

(** [RETURN_CODES], lines 11-22 *)
Definition RETURN_CODES : list (string * Z) :=
  [ ("SETUP_DIR_INVALID", 1);
    ("PROVENANCE_FILE_INVALID", 2);
    ("DEFAULT_PYTHON_NOT_SET", 3);
    ("PLATFORM_MISMATCH", 4);
    ("GIT_EXECUTABLE_NOT_FOUND", 5);
    ("VIRTUALENV_SETUP_FAILED", 6);
    ("REQUIREMENTS_INSTALL_FAILED", 7);
    ("PLUGIN_CLONE_FAILED", 8);
    ("GIT_SWITCH_FAILED", 9);
    ("MAPCLIENT_USE_FAILED", 10) ].

(** [return RETURN_CODES[name]] *)
Definition return_code {A} (name : string) : M A :=
  match List.find (fun kv => String.eqb name (fst kv)) RETURN_CODES with
  | Some (_, code) => py_return code
  | None => raise (KeyError name)
  end.

(** The parsed command line, lines 35-40. *)
Record Args : Type := {
  setup_dir : string;
  provenance_file : string
}.

(** *** [_which], lines 43-115 (called with the default [mode]) *)

Definition _access_check (fn : string) (w : world) : bool :=
  os_path_exists fn w && os_access_x fn w && negb (os_path_isdir fn w).

(** Lines 66-70 and 91-99: the candidate file names on win32. *)
Definition pathext_files (cmd : string) : list string :=
  let pathext := Str.split os_pathsep (default "" (environ_get "PATHEXT")) in
  if existsb (fun ext => Str.endswith (str_lower ext) (str_lower cmd)) pathext
  then [cmd]
  else map (fun ext => cmd +:+ ext) pathext.

(** [for name in files: if _access_check(name, mode): return name] *)
Fixpoint first_accessible (names : list string) (w : world) : option string :=
  match names with
  | [] => None
  | name :: rest =>
      if _access_check name w then Some name else first_accessible rest w
  end.

(** Lines 105-115: the search over the directories of [path]. *)
Fixpoint search_path (files : list string) (seen : gset string)
    (path : list string) (w : world) : option string :=
  match path with
  | [] => None
  | directory :: rest =>
      let normdir := os_path_normcase directory in
      if decide (normdir ∈ seen) then search_path files seen rest w
      else
        match first_accessible (map (os_path_join directory) files) w with
        | Some name => Some name
        | None => search_path files ({[normdir]} ∪ seen) rest w
        end
  end.

Definition _which (cmd : string) (path : option string) (w : world) : option string :=
  let win32 := String.eqb sys_platform "win32" in
  if negb (String.eqb (os_path_dirname cmd) "") then
    first_accessible (if win32 then pathext_files cmd else [cmd]) w
  else
    let path :=
      match path with
      | None => default os_defpath (environ_get "PATH")
      | Some p => p
      end in
    if String.eqb path "" then None
    else
      let path := Str.split os_pathsep path in
      let path :=
        if win32 && negb (existsb (String.eqb os_curdir) path)
        then os_curdir :: path else path in
      let files := if win32 then pathext_files cmd else [cmd] in
      search_path files ∅ path w.

(** *** The loader, lines 118-125 *)

Definition _is_map_client_provenance_file (provenance_file : string) : M bool :=
  let* is_file := observe (os_path_isfile provenance_file) in
  if negb is_file then ret false
  else
    let* content := json_load provenance_file in
    let* has_id := lift (Py.contains "id" content) in
    if negb has_id then ret false
    else
      let* id := lift (Py.getitem content "id") in
      if negb (Py.eq_str id "map-client-provenance-record-report") then ret false
      else lift (Py.contains "version" content).

(** *** Requirement assembly, lines 128-143 *)

Definition _map_client_requirements (info : json) : M (list string) :=
  let* version := lift (Py.getitem info "version") in
  ret ["mapclient == " +:+ Py.format version].

(** The body of the [for] loop, then the loop over [info.items()]. *)
Definition package_requirement (package : string) (package_data : json) : M string :=
  let* version := lift (Py.getitem package_data "version") in
  let line := package +:+ " == " +:+ Py.format version in
  let* location := lift (Py.getitem package_data "location") in
  (if negb (Py.eq_str location "PyPI")
   then print ("Package: " +:+ package +:+ " is not installed from PyPI!")
   else ret tt) >>
  ret line.

Fixpoint package_requirements_loop (items : list (string * json)) : M (list string) :=
  match items with
  | [] => ret []
  | (package, package_data) :: rest =>
      let* line := package_requirement package package_data in
      let* r := package_requirements_loop rest in
      ret (line :: r)
  end.

Definition _package_requirements (info : json) : M (list string) :=
  let* items := lift (Py.items info) in
  package_requirements_loop items.

Definition _plugin_requirements (info : json) : json := info.

(** *** Executables of the new environment, lines 146-159

    [os.path.join(base_dir, name, exe_part)] joins from the left, one
    component at a time. *)

Definition _get_exe_part (base_dir name app_name : string) : result string :=
  match os_path_commonpath [sys_executable; sys_prefix] with
  | None => Raise ValueError
  | Some common_part =>
      let end_part := Str.replace (common_part +:+ os_sep) "" sys_executable in
      let exe_part := Str.replace_n "python" app_name 1 end_part in
      Val (os_path_join (os_path_join base_dir name) exe_part)
  end.

Definition _get_virtual_environment_pip (base_dir name : string) : result string :=
  _get_exe_part base_dir name "pip".

Definition _get_virtual_environment_map_client_use (base_dir name : string) : result string :=
  _get_exe_part base_dir name "mapclient_use".

(** *** The compatibility check, lines 162-163 *)

Definition _platform_match (info : json) : M bool :=
  let* actual := lift (Py.version (JStr python_version)) in
  let* recorded := lift (Py.getitem info "version") in
  let* expected := lift (Py.version recorded) in
  if bool_decide (actual = expected) then
    let* recorded_platform := lift (Py.getitem info "platform") in
    ret (Py.eq_str recorded_platform sys_platform)
  else ret false.

(** *** [main], lines 166-243, cut at its stages *)

Definition venv_directory_name : string := "venv_map_client".

(** Lines 179-187: the record's software section and the interpreter the
    record expects. *)
Definition select_python_info (content : json) : M (json * json) :=
  let* software_info := lift (Py.getitem content "software_info") in
  let* schema := lift (Py.getitem content "version") in
  let* recorded := lift (Py.version schema) in
  let* legacy := lift (Py.version (JStr "0.1.0")) in
  if bool_decide (recorded = legacy) then
    if String.eqb sys_platform "darwin" then
      ret (software_info,
           JObj [("version", JStr "3.11.11"); ("platform", JStr "darwin")])
    else
      print ("Default Python information not set for this platform ("
             +:+ sys_platform +:+ ").") >>
      return_code "DEFAULT_PYTHON_NOT_SET"
  else
    let* python_info := lift (Py.getitem software_info "python") in
    ret (software_info, python_info).

Definition mismatch_message (recorded_platform recorded_version : json) : string :=
  "Script requires platform " +:+ Py.format recorded_platform
  +:+ " at version " +:+ Py.format recorded_version
  +:+ ", the current system has been detected as " +:+ sys_platform
  +:+ " at version " +:+ python_version +:+ " which is not suitable.".

(** Lines 189-192 *)
Definition check_platform (python_info : json) : M unit :=
  let* matches := _platform_match python_info in
  if negb matches then
    let* recorded_platform := lift (Py.getitem python_info "platform") in
    let* recorded_version := lift (Py.getitem python_info "version") in
    print (mismatch_message recorded_platform recorded_version) >>
    return_code "PLATFORM_MISMATCH"
  else ret tt.

(** Lines 194-196 *)
Definition locate_git : M string :=
  let* git_exe := observe (_which "git" None) in
  match git_exe with
  | None => return_code "GIT_EXECUTABLE_NOT_FOUND"
  | Some exe => ret exe
  end.

(** Lines 198-202 *)
Definition assemble_requirements (software_info : json) : M (list string * json) :=
  let* mapclient := lift (Py.getitem software_info "mapclient") in
  let* map_client_requirement := _map_client_requirements mapclient in
  let* packages := lift (Py.getitem software_info "packages") in
  let* package_requirements := _package_requirements packages in
  let requirements := (map_client_requirement ++ package_requirements)%list in
  let* plugins := lift (Py.getitem software_info "plugins") in
  ret (requirements, _plugin_requirements plugins).

(** Lines 204-206 *)
Definition create_virtualenv (args : Args) : M unit :=
  let* result :=
    run (Invocation [sys_executable; "-m"; "venv"; venv_directory_name]
                    (Some (setup_dir args)) false) in
  if negb (returncode result =? 0) then return_code "VIRTUALENV_SETUP_FAILED"
  else ret tt.

(** Lines 208-209 *)
Definition write_requirements (args : Args) (requirements : list string) : M unit :=
  open_write (os_path_join (setup_dir args) "requirements.txt")
             (Str.join Str.LF requirements).

(** Lines 211-215; the installer's path is kept for line 236. *)
Definition install_requirements (args : Args) : M string :=
  let* virtual_environment_pip_exe :=
    lift (_get_virtual_environment_pip (setup_dir args) venv_directory_name) in
  let* result :=
    run (Invocation [virtual_environment_pip_exe; "install"; "-r"; "requirements.txt"]
                    (Some (setup_dir args)) true) in
  if negb (returncode result =? 0) then return_code "REQUIREMENTS_INSTALL_FAILED"
  else ret virtual_environment_pip_exe.

(** Lines 217-218 *)
Definition ensure_plugin_dir (args : Args) : M string :=
  let plugin_dir := os_path_join (setup_dir args) "plugins" in
  makedirs plugin_dir >>
  ret plugin_dir.

Definition clone_invocation (git_exe plugin_dir p : string) (version : json)
    (location : string) : invocation :=
  Invocation [git_exe; "clone"; "--depth"; "1"; "--branch";
              "v" +:+ Py.format version; location; p]
             (Some plugin_dir) true.

Definition switch_invocation (git_exe plugin_dir p : string) (version : json) : invocation :=
  Invocation [git_exe; "switch"; "-c"; "v" +:+ Py.format version]
             (Some (os_path_join plugin_dir p)) true.

Definition echo_invocation (plugin_dir p : string) : invocation :=
  Invocation ["echo"; os_path_join plugin_dir p] None false.

Definition already_exists_message (version : json) : string :=
  "fatal: a branch named 'v" +:+ Py.format version +:+ "' already exists" +:+ Str.LF.

(** Lines 221-228: clone the plugin, or take the entry that is there. *)
Definition clone_or_reuse (git_exe plugin_dir p : string) (p_data : json) : M unit :=
  let* present := observe (os_path_exists (os_path_join plugin_dir p)) in
  let* result :=
    if present then run (echo_invocation plugin_dir p)
    else
      let* version := lift (Py.getitem p_data "version") in
      let* location := lift (Py.getitem p_data "location") in
      let* location := lift (Py.as_arg location) in
      run (clone_invocation git_exe plugin_dir p version location) in
  if negb (returncode result =? 0) then
    let* version := lift (Py.getitem p_data "version") in
    print ("Failed to clone: " +:+ p +:+ " @ v" +:+ Py.format version +:+ ".") >>
    return_code "PLUGIN_CLONE_FAILED"
  else ret tt.

(** Lines 230-233: create the local branch and switch to it. *)
Definition switch_branch (git_exe plugin_dir p : string) (p_data : json) : M unit :=
  let* version := lift (Py.getitem p_data "version") in
  let* result := run (switch_invocation git_exe plugin_dir p version) in
  if negb (returncode result =? 0) then
    match stderr result with
    | None => raise UnicodeDecodeError
    | Some text =>
        let* version := lift (Py.getitem p_data "version") in
        if negb (String.eqb text (already_exists_message version)) then
          let* version := lift (Py.getitem p_data "version") in
          print ("Failed to switch branch to v" +:+ Py.format version +:+ ".") >>
          return_code "GIT_SWITCH_FAILED"
        else ret tt
    end
  else ret tt.

(** Lines 221-233: the body of the plugin loop. *)
Definition sync_plugin (git_exe plugin_dir p : string) (p_data : json) : M unit :=
  clone_or_reuse git_exe plugin_dir p p_data >>
  switch_branch git_exe plugin_dir p p_data.

(** Line 220: [for p, p_data in plugin_requirements.items()] *)
Fixpoint sync_plugins (git_exe plugin_dir : string) (items : list (string * json)) : M unit :=
  match items with
  | [] => ret tt
  | (p, p_data) :: rest =>
      sync_plugin git_exe plugin_dir p p_data >>
      sync_plugins git_exe plugin_dir rest
  end.

Definition editable_install_invocation (pip_exe : string) : invocation :=
  Invocation [pip_exe; "install"; "-e";
              "/Users/hsor001/Projects/musculoskeletal/mapclient/src"]
             None true.

(** Lines 235-236: the result of this run is not looked at. *)
Definition temporary_install (pip_exe : string) : M unit :=
  run (editable_install_invocation pip_exe) >>
  ret tt.

(** Lines 238-243 *)
Definition activate (args : Args) (plugin_dir : string) : M unit :=
  let* map_client_use_exe :=
    lift (_get_virtual_environment_map_client_use (setup_dir args) venv_directory_name) in
  let* result :=
    run (Invocation [map_client_use_exe; setup_dir args; "-d"; plugin_dir] None false) in
  if negb (returncode result =? 0) then return_code "MAPCLIENT_USE_FAILED"
  else py_return 0.

(** Lines 204-243: what [main] does once the requirement list is
    assembled. *)
Definition provision (args : Args) (git_exe : string)
    (requirements : list string) (plugin_requirements : json) : M unit :=
  create_virtualenv args >>
  write_requirements args requirements >>
  let* virtual_environment_pip_exe := install_requirements args in
  let* plugin_dir := ensure_plugin_dir args in
  let* plugin_items := lift (Py.items plugin_requirements) in
  sync_plugins git_exe plugin_dir plugin_items >>
  temporary_install virtual_environment_pip_exe >>
  activate args plugin_dir.

(** Lines 179-243: what [main] does with the loaded record. *)
Definition reproduce (args : Args) (content : json) : M unit :=
  let* '(software_info, python_info) := select_python_info content in
  check_platform python_info >>
  let* git_exe := locate_git in
  let* '(requirements, plugin_requirements) := assemble_requirements software_info in
  provision args git_exe requirements plugin_requirements.

Definition main (args : Args) : M unit :=
  let* is_dir := observe (os_path_isdir (setup_dir args)) in
  (if negb is_dir then return_code "SETUP_DIR_INVALID" else ret tt) >>
  let* is_provenance := _is_map_client_provenance_file (provenance_file args) in
  (if negb is_provenance then return_code "PROVENANCE_FILE_INVALID" else ret tt) >>
  let* content := json_load (provenance_file args) in
  reproduce args content.

End Script.

(** ** A POSIX host for the examples

    One instance of [Host], small enough to run: files in a finite map,
    spawned tools answered from a table.  It fixes nothing about the
    theorems, which hold for every host; the examples run on it. *)

Module Posix.

(** A text file is one whose text the JSON decoder rejects. *)
Inductive node : Type :=
| Dir
| JsonFile (content : json)
| TextFile (text : string).

(** Tools are looked up by their command line; one that is not in
    [tools] exits 0 with nothing on its error stream. *)
Record posix_world : Type := World {
  files : gmap string node;
  executables : gset string;
  tools : gmap (list string) completed
}.

(** [posixpath.join(a, b)] *)
Definition join (a b : string) : string :=
  if Str.startswith "/" b then b
  else if String.eqb a "" || Str.endswith "/" a then a +:+ b
  else a +:+ "/" +:+ b.

(** The components of a path, without the empty ones. *)
Definition components (p : string) : list string :=
  filter (fun c => c <> "") (Str.split "/"%char p).

(** [s.rstrip("/")] *)
Fixpoint rstrip_slashes (s : string) : string :=
  match s with
  | EmptyString => EmptyString
  | String c s' =>
      match rstrip_slashes s' with
      | EmptyString => if Ascii.eqb c "/" then EmptyString else String c EmptyString
      | r => String c r
      end
  end.

(** The part of [p] up to and including its last slash. *)
Fixpoint through_last_slash (p : string) : string :=
  match p with
  | EmptyString => EmptyString
  | String c p' =>
      match through_last_slash p' with
      | EmptyString => if Ascii.eqb c "/" then String c EmptyString else EmptyString
      | h => String c h
      end
  end.

(** [posixpath.dirname(p)] *)
Definition dirname (p : string) : string :=
  let head := through_last_slash p in
  match rstrip_slashes head with
  | EmptyString => head
  | stripped => stripped
  end.

Fixpoint common_prefix (a b : list string) : list string :=
  match a, b with
  | x :: a', y :: b' => if String.eqb x y then x :: common_prefix a' b' else []
  | _, _ => []
  end.

(** [posixpath.commonpath(paths)], for paths without [.] components *)
Definition commonpath (paths : list string) : option string :=
  match paths with
  | [] => None
  | p :: rest =>
      let absolute := Str.startswith "/" p in
      if forallb (fun q => Bool.eqb (Str.startswith "/" q) absolute) rest then
        let common := fold_left common_prefix (map components rest) (components p) in
        Some ((if absolute then "/" else "") +:+ Str.join "/" common)
      else None
  end.

Definition lower_char (c : Ascii.ascii) : Ascii.ascii :=
  let n := Ascii.nat_of_ascii c in
  if (Nat.leb 65 n && Nat.leb n 90)%bool then Ascii.ascii_of_nat (n + 32) else c.

(** [str.lower], on ASCII text *)
Fixpoint lower (s : string) : string :=
  match s with
  | EmptyString => EmptyString
  | String c s' => String (lower_char c) (lower s')
  end.

Definition digit (c : Ascii.ascii) : option N :=
  let n := Ascii.N_of_ascii c in
  if (N.leb 48 n && N.leb n 57)%bool then Some (n - 48)%N else None.

(** A decimal number; [None] on the empty string or a non-digit. *)
Fixpoint number_go (acc : N) (s : string) : option N :=
  match s with
  | EmptyString => Some acc
  | String c s' =>
      match digit c with
      | Some d => number_go (10 * acc + d)%N s'
      | None => None
      end
  end.

Definition number (s : string) : option N :=
  if String.eqb s "" then None else number_go 0%N s.

Fixpoint all_some {A} (l : list (option A)) : option (list A) :=
  match l with
  | [] => Some []
  | Some x :: rest => option_map (cons x) (all_some rest)
  | None :: _ => None
  end.

(** Trailing zero segments do not count: [3.11] equals [3.11.0]. *)
Fixpoint strip_zeros (release : list N) : list N :=
  match release with
  | [] => []
  | n :: rest =>
      match strip_zeros rest with
      | [] => if N.eqb n 0 then [] else [n]
      | rest' => n :: rest'
      end
  end.

(** Release-only versions, [N(.N)*]; this host rejects every other form. *)
Definition release_version (s : string) : option (list N) :=
  option_map strip_zeros (all_some (map number (Str.split "."%char s))).

Definition lookup_env (env : list (string * string)) (name : string) : option string :=
  option_map snd (List.find (fun kv => String.eqb name (fst kv)) env).

Definition isdir (p : string) (w : posix_world) : bool :=
  match files w !! p with
  | Some Dir => true
  | _ => false
  end.

Definition isfile (p : string) (w : posix_world) : bool :=
  match files w !! p with
  | Some (JsonFile _) | Some (TextFile _) => true
  | _ => false
  end.

Definition exists_ (p : string) (w : posix_world) : bool :=
  match files w !! p with
  | Some _ => true
  | None => false
  end.

Definition load (p : string) (w : posix_world) : load_outcome :=
  match files w !! p with
  | Some (JsonFile content) => Loaded content
  | Some (TextFile _) => LoadDecodeError
  | Some Dir | None => LoadOSError
  end.

Definition write (p text : string) (w : posix_world) : option posix_world :=
  match files w !! p with
  | Some Dir => None
  | _ => Some (World (<[p := TextFile text]> (files w)) (executables w) (tools w))
  end.

Definition mkdirs (p : string) (w : posix_world) : option posix_world :=
  match files w !! p with
  | Some Dir => Some w
  | Some _ => None
  | None => Some (World (<[p := Dir]> (files w)) (executables w) (tools w))
  end.

(** The directory a [git clone --depth 1 --branch b url name] leaves in
    its working directory. *)
Definition checkout (inv : invocation) : option string :=
  match argv inv, cwd inv with
  | [_; verb; _; _; _; _; _; name], Some d =>
      if String.eqb verb "clone" then Some (join d name) else None
  | _, _ => None
  end.

(** [subprocess.run] on this host.  A run whose working directory is
    not a directory is not launched: [Popen] raises an [OSError]
    ([FileNotFoundError], [NotADirectoryError]).  A clone that exits 0
    leaves its checkout; apart from that the tools only report a status.
    The programs named are taken to be installed. *)
Definition spawn (inv : invocation) (w : posix_world) : option completed * posix_world :=
  let launched :=
    match cwd inv with
    | Some d => isdir d w
    | None => true
    end in
  if launched then
    let done := default (Completed 0 (Some "")) (tools w !! argv inv) in
    match checkout inv with
    | Some target =>
        if (returncode done =? 0)%Z
        then (Some done, World (<[target := Dir]> (files w)) (executables w) (tools w))
        else (Some done, w)
    | None => (Some done, w)
    end
  else (None, w).

(** The host: platform tag and interpreter version are the example's
    choice, the rest is a usual POSIX installation.  Lists and dicts
    print as an ellipsis here; no example formats one. *)
Definition host (platform version : string) : Host := {|
  sys_platform := platform;
  python_version := version;
  sys_executable := "/usr/bin/python";
  sys_prefix := "/usr";
  environ_get := lookup_env [("PATH", "/usr/local/bin:/usr/bin")];
  os_sep := "/";
  os_pathsep := ":"%char;
  os_curdir := ".";
  os_defpath := "/bin:/usr/bin";
  os_path_join := join;
  os_path_dirname := dirname;
  os_path_normcase := fun p => p;
  os_path_commonpath := commonpath;
  str_lower := lower;
  py_repr := fun _ => "...";
  version_key := list N;
  Version := release_version;
  world := posix_world;
  os_path_isdir := isdir;
  os_path_isfile := isfile;
  os_path_exists := exists_;
  os_access_x := fun p w => bool_decide (p ∈ executables w);
  json_load_file := load;
  write_text := write;
  os_makedirs := mkdirs;
  subprocess_run := spawn
|}.

End Posix.

(** ** Records and worlds of the examples *)

Module Example.

Import Posix.

Definition args : Args :=
  {| setup_dir := "/work"; provenance_file := "provenance.json" |}.

Definition sentinel : json := JStr "map-client-provenance-record-report".

Definition packages : json :=
  JObj [ ("numpy", JObj [("version", JStr "1.26.4"); ("location", JStr "PyPI")]);
         ("cmlibs.zinc", JObj [("version", JStr "4.1.2"); ("location", JStr "local")]) ].

Definition segmentation : json :=
  JObj [("version", JStr "2.0.0"); ("location", JStr "https://example.org/segmentation.git")].

Definition fitting : json :=
  JObj [("version", JStr "1.3.0"); ("location", JStr "https://example.org/fitting.git")].

Definition plugins : json :=
  JObj [("segmentation", segmentation); ("fitting", fitting)].

(** A complete software section recording the given interpreter. *)
Definition software (version platform : string) : json :=
  JObj [ ("python", JObj [("version", JStr version); ("platform", JStr platform)]);
         ("mapclient", JObj [("version", JStr "0.21.0")]);
         ("packages", packages);
         ("plugins", plugins) ].

Definition record (schema : string) (software_info : json) : json :=
  JObj [("id", sentinel); ("version", JStr schema); ("software_info", software_info)].

(** The setup directory, a git client, and the given entries. *)
Definition disk (entries : list (string * node)) : gmap string node :=
  list_to_map (("/work", Dir) :: ("/usr/bin/git", TextFile "") :: entries).

Definition world_of (entries : list (string * node))
    (tools : list (list string * completed)) : posix_world :=
  World (disk entries) {["/usr/bin/git"]} (list_to_map tools).

(** The provenance file holds the given record. *)
Definition recorded (content : json) : posix_world :=
  world_of [("provenance.json", JsonFile content)] [].

(** The provenance file is there and is not JSON. *)
Definition garbled : posix_world :=
  world_of [("provenance.json", TextFile "mapclient 0.21.0")] [].

(** There is no provenance file. *)
Definition missing : posix_world := world_of [] [].

(** A record of schema 0.2.0 made with Python 3.11.10 on linux. *)
Definition linux_record : json := record "0.2.0" (software "3.11.10" "linux").

(** The same software, recorded with Python 3.11.11. *)
Definition patch_ahead_record : json := record "0.2.0" (software "3.11.11" "linux").

(** A legacy record: schema 0.1.0, no interpreter entry. *)
Definition legacy_record : json :=
  record "0.1.0"
    (JObj [ ("mapclient", JObj [("version", JStr "0.21.0")]);
            ("packages", packages);
            ("plugins", plugins) ]).

(** A software section without the application pin, recorded with an
    interpreter one patch ahead of the host's. *)
Definition software_without_mapclient : json :=
  JObj [ ("python", JObj [("version", JStr "3.11.11"); ("platform", JStr "linux")]);
         ("packages", packages);
         ("plugins", plugins) ].

Definition record_without_mapclient : json := record "0.2.0" software_without_mapclient.

(** A record that has the sentinel and a version and nothing else. *)
Definition bare_record : json := JObj [("id", sentinel); ("version", JStr "0.2.0")].

(** A record with another [id]. *)
Definition foreign_record : json :=
  JObj [("id", JStr "some-other-report"); ("version", JStr "0.2.0");
        ("software_info", software "3.11.10" "linux")].




(** [plugins/segmentation] is a regular file. *)
Definition stray_file : posix_world :=
  world_of [ ("provenance.json", JsonFile linux_record);
             ("/work/plugins", Dir);
             ("/work/plugins/segmentation", TextFile "notes") ]
           [].

Definition pip_exe : string := "/work/venv_map_client/bin/pip".

(** Every tool succeeds but the editable install of line 236. *)
Definition editable_install_fails : posix_world :=
  world_of [("provenance.json", JsonFile linux_record)]
           [ ([pip_exe; "install"; "-e";
               "/Users/hsor001/Projects/musculoskeletal/mapclient/src"],
              Completed 1 (Some "ERROR: not a valid editable requirement")) ].

Definition start (platform version : string) (w : posix_world)
    : @state (Posix.host platform version) :=
  @State (Posix.host platform version) w [].

(** [main] on the given host and world: how it ends and what it logged. *)
Definition outcome (platform version : string) (w : posix_world)
    : result unit * list event :=
  let r := @main (Posix.host platform version) args (start platform version w) in
  (fst r, st_log (snd r)).

End Example.

(** ** Vocabulary of the statements *)

Section Vocabulary.

Context `{host : Host}.

(** A value computed without touching the run never is a return of
    [main]. *)
Definition pure {A} (r : result A) : Prop := forall c, r <> Exit c.

(** Every return code of [m] satisfies [P], every value it falls through
    with satisfies [V]. *)
Definition ends_in {A} (P : Z -> Prop) (V : A -> Prop) (m : M A) : Prop :=
  forall s r s', m s = (r, s') ->
    match r with
    | Val a => V a
    | Exit c => P c
    | Raise _ => True
    end.

Definition anything {A} (a : A) : Prop := True.
Definition nothing {A} (a : A) : Prop := False.

(** Between [s] and [s'] nothing happened but printing: the world is the
    same and the log grew by printed lines only. *)
Definition silent (s s' : state) : Prop :=
  st_world s' = st_world s /\
  exists lines, st_log s' = (st_log s ++ map EPrint lines)%list.

Definition quiet {A} (m : M A) : Prop :=
  forall s r s', m s = (r, s') -> silent s s'.

(** The codes of the stages from environment creation on, and success. *)
Definition late (c : Z) : Prop := c = 0 \/ 6 <= c <= 10.

(** A return with one of the codes 1..5 has only printed. *)
Definition early_silent {A} (m : M A) : Prop :=
  forall s c s', m s = (Exit c, s') -> 1 <= c <= 5 -> silent s s'.

(** The log of [s'] is the log of [s] with events added at its end. *)
Definition extends (s s' : state) : Prop :=
  exists events, st_log s' = (st_log s ++ events)%list.

Definition growing {A} (m : M A) : Prop :=
  forall s r s', m s = (r, s') -> extends s s'.

(** No return code at all. *)
Definition never (c : Z) : Prop := False.

(** [v[k]] raises: [v] has no key [k], or is no dict. *)
Definition lacks (k : string) (v : json) : Prop :=
  forall x, Py.getitem v k <> Val x.

(** The software section cannot be turned into a requirement list: it
    has no [mapclient] or no [packages] entry, or one of its packages has
    no [version] or no [location]. *)
Definition incomplete (software_info : json) : Prop :=
  lacks "mapclient" software_info \/
  lacks "packages" software_info \/
  exists pkgs name package_data,
    Py.getitem software_info "packages" = Val (JObj pkgs) /\
    In (name, package_data) pkgs /\
    (lacks "version" package_data \/ lacks "location" package_data).

(** A requirement line, [name == version]. *)
Definition requirement_line (name : string) (version : json) : string :=
  name +:+ " == " +:+ Py.format version.

(** A package entry of the record read as name, version and location. *)
Definition describes (entry : string * json) (spec : string * json * json) : Prop :=
  let '(name, version, location) := spec in
  fst entry = name /\
  Py.getitem (snd entry) "version" = Val version /\
  Py.getitem (snd entry) "location" = Val location.

Definition package_lines (specs : list (string * json * json)) : list string :=
  map (fun spec => requirement_line (fst (fst spec)) (snd (fst spec))) specs.

(** One printed advisory per package that does not come from PyPI. *)
Definition advisories (specs : list (string * json * json)) : list event :=
  flat_map (fun spec =>
              if Py.eq_str (snd spec) "PyPI" then []
              else [EPrint ("Package: " +:+ fst (fst spec)
                            +:+ " is not installed from PyPI!")]) specs.

End Vocabulary.

(** ** More hosts for the examples *)

Module Hosts.

Import Posix.

(** The POSIX host with the interpreter and the environment of one's
    choice. *)
Definition posix_at (platform version executable prefix : string)
    (env : list (string * string)) : Host := {|
  sys_platform := platform;
  python_version := version;
  sys_executable := executable;
  sys_prefix := prefix;
  environ_get := lookup_env env;
  os_sep := "/";
  os_pathsep := ":"%char;
  os_curdir := ".";
  os_defpath := "/bin:/usr/bin";
  os_path_join := join;
  os_path_dirname := dirname;
  os_path_normcase := fun p => p;
  os_path_commonpath := commonpath;
  str_lower := lower;
  py_repr := fun _ => "...";
  version_key := list N;
  Version := release_version;
  world := posix_world;
  os_path_isdir := isdir;
  os_path_isfile := isfile;
  os_path_exists := exists_;
  os_access_x := fun p w => bool_decide (p ∈ executables w);
  json_load_file := load;
  write_text := write;
  os_makedirs := mkdirs;
  subprocess_run := spawn
|}.

Definition backslash : Ascii.ascii := Ascii.ascii_of_nat 92.

Definition is_separator (c : Ascii.ascii) : bool :=
  Ascii.eqb c "/" || Ascii.eqb c backslash.

(** [ntpath.normcase]: lower case, slashes to backslashes (ASCII). *)
Fixpoint win_normcase (s : string) : string :=
  match s with
  | EmptyString => EmptyString
  | String c s' =>
      String (if Ascii.eqb c "/" then backslash else lower_char c) (win_normcase s')
  end.

Fixpoint ends_with_separator (s : string) : bool :=
  match s with
  | EmptyString => false
  | String c EmptyString => is_separator c || Ascii.eqb c ":"
  | String _ s' => ends_with_separator s'
  end.

(** [ntpath.join(a, b)] for a relative [b] without a drive. *)
Definition win_join (a b : string) : string :=
  if String.eqb a "" || ends_with_separator a then a +:+ b
  else a +:+ String backslash EmptyString +:+ b.

Fixpoint win_rstrip (s : string) : string :=
  match s with
  | EmptyString => EmptyString
  | String c s' =>
      match win_rstrip s' with
      | EmptyString => if is_separator c then EmptyString else String c EmptyString
      | r => String c r
      end
  end.

Fixpoint win_head (p : string) : string :=
  match p with
  | EmptyString => EmptyString
  | String c p' =>
      match win_head p' with
      | EmptyString => if is_separator c then String c EmptyString else EmptyString
      | h => String c h
      end
  end.

(** [ntpath.dirname(p)] for a path without a drive. *)
Definition win_dirname (p : string) : string :=
  let head := win_head p in
  match win_rstrip head with
  | EmptyString => head
  | stripped => stripped
  end.

(** A win32 host for the locator: separators, case folding and the
    environment are those of Windows; the fields the locator does not
    read are those of the POSIX host. *)
Definition win32_at (env : list (string * string)) : Host := {|
  sys_platform := "win32";
  python_version := "3.11.10";
  sys_executable := "/usr/bin/python";
  sys_prefix := "/usr";
  environ_get := lookup_env env;
  os_sep := String backslash EmptyString;
  os_pathsep := ";"%char;
  os_curdir := ".";
  os_defpath := ".;C:" +:+ String backslash EmptyString +:+ "bin";
  os_path_join := win_join;
  os_path_dirname := win_dirname;
  os_path_normcase := win_normcase;
  os_path_commonpath := commonpath;
  str_lower := lower;
  py_repr := fun _ => "...";
  version_key := list N;
  Version := release_version;
  world := posix_world;
  os_path_isdir := isdir;
  os_path_isfile := isfile;
  os_path_exists := exists_;
  os_access_x := fun p w => bool_decide (p ∈ executables w);
  json_load_file := load;
  write_text := write;
  os_makedirs := mkdirs;
  subprocess_run := spawn
|}.

(** Executable files at the given paths, and nothing else. *)
Definition programs (paths : list string) : posix_world :=
  World (list_to_map (map (fun p => (p, TextFile "")) paths))
        (list_to_set paths) ∅.

(** A POSIX host whose search path names [/a] twice. *)
Definition repeated_path : Host :=
  posix_at "linux" "3.11.10" "/usr/bin/python" "/usr" [("PATH", "/a:/b:/a:/c")].

(** [git] is installed in [/b] and in [/c]. *)
Definition two_gits : posix_world := programs ["/c/git"; "/b/git"].

(** A POSIX host whose [PATH] is set and empty. *)
Definition empty_path : Host :=
  posix_at "linux" "3.11.10" "/usr/bin/python" "/usr" [("PATH", "")].

(** A Windows host with the usual extensions. *)
Definition windows : Host :=
  win32_at [("PATH", "C:/Tools;C:/Git/cmd"); ("PATHEXT", ".COM;.EXE;.BAT")].

(** [git.BAT] in the current directory, [git.EXE] in [C:/Git/cmd]. *)
Definition git_here_and_there : posix_world :=
  programs [win_join "." "git.BAT"; win_join "C:/Git/cmd" "git.EXE"].

(** A Windows host whose [PATHEXT] ends with a separator. *)
Definition windows_trailing_separator : Host :=
  win32_at [("PATH", "C:/Tools"); ("PATHEXT", ".COM;.EXE;")].

(** A host whose interpreter is PyPy. *)
Definition pypy : Host :=
  posix_at "linux" "3.10.14" "/opt/pypy/bin/pypy3" "/opt/pypy" [].

(** No setup directory, no provenance file, no git. *)
Definition bare : posix_world := programs [].

(** The provenance file holds a JSON array. *)
Definition array_file : posix_world :=
  Example.recorded (JArr [JStr "map-client-provenance-record-report"; JStr "0.2.0"]).

(** The world of [Example.editable_install_fails] once the requirements
    are written and the plugins directory is made, with the checkouts of
    the two plugins there or not. *)
Definition underway (segmentation_there fitting_there : bool) : posix_world :=
  Example.world_of
    ([ ("provenance.json", JsonFile Example.linux_record);
       ("/work/requirements.txt",
        TextFile (Str.join Str.LF
                    ["mapclient == 0.21.0"; "numpy == 1.26.4"; "cmlibs.zinc == 4.1.2"]));
       ("/work/plugins", Dir) ]
     ++ (if segmentation_there then [("/work/plugins/segmentation", Dir)] else [])
     ++ (if fitting_there then [("/work/plugins/fitting", Dir)] else []))%list
    [ ([Example.pip_exe; "install"; "-e";
        "/Users/hsor001/Projects/musculoskeletal/mapclient/src"],
       Completed 1 (Some "ERROR: not a valid editable requirement")) ].

Definition plugins_underway (w : posix_world) : Prop :=
  exists segmentation_there fitting_there, w = underway segmentation_there fitting_there.

End Hosts.

(** ** Vocabulary of the further properties *)

Section Further.

Context `{host : Host}.

(** The search path [_which] works on: the argument, else [PATH], else
    [os.defpath]. *)
Definition effective_path (path : option string) : string :=
  match path with
  | None => default os_defpath (environ_get "PATH")
  | Some p => p
  end.

(** The directories of [path] whose normalised form is neither in [seen]
    nor that of an earlier directory of [path]. *)
Fixpoint searched (seen : gset string) (path : list string) : list string :=
  match path with
  | [] => []
  | directory :: rest =>
      if decide (os_path_normcase directory ∈ seen) then searched seen rest
      else directory :: searched ({[os_path_normcase directory]} ∪ seen) rest
  end.

(** The candidate files of a search, directory by directory. *)
Definition candidates (files dirs : list string) : list string :=
  flat_map (fun directory => map (os_path_join directory) files) dirs.

(** Every event of [m] satisfies [P], and events are only added. *)
Definition emits {A} (P : event -> Prop) (m : M A) : Prop :=
  forall s r s', m s = (r, s') ->
    exists events, st_log s' = (st_log s ++ events)%list /\ Forall P events.

(** What [main] itself may write and create, apart from what the tools
    it runs do. *)
Definition own_effect (args : Args) (e : event) : Prop :=
  match e with
  | EWrite path _ => path = os_path_join (setup_dir args) "requirements.txt"
  | EMakedirs path => path = os_path_join (setup_dir args) "plugins"
  | EPrint _ | ERun _ _ => True
  end.

(** The log of [s'] ends with a launched tool, followed by printed lines
    at most, and the code is 0 exactly when that tool exited 0. *)
Definition reflects_last_tool (c : Z) (s' : state) : Prop :=
  exists before inv done lines,
    st_log s' = (before ++ ERun inv (Some done) :: map EPrint lines)%list /\
    (c = 0 <-> returncode done = 0).

Definition traced {A} (m : M A) : Prop :=
  forall s c s', m s = (Exit c, s') -> late c -> reflects_last_tool c s'.

(** A plugin entry [git clone] can be given: it has a version and its
    location is a string. *)
Definition clonable (entry : string * json) : Prop :=
  exists version location,
    Py.getitem (snd entry) "version" = Val version /\
    Py.getitem (snd entry) "location" = Val (JStr location).

(** Lines 221-224: the tool the loop body runs first for plugin [p] in
    the world [w], [echo] when [plugins/p] exists and [git clone] of the
    entry's version and location when it does not. *)
Definition first_tool (git_exe plugin_dir p : string) (version : json)
    (location : string) (w : world) : invocation :=
  if os_path_exists (os_path_join plugin_dir p) w
  then echo_invocation plugin_dir p
  else clone_invocation git_exe plugin_dir p version location.

(** Line 231: a switch after which the loop goes on; it exited 0, or
    said that the branch is there already. *)
Definition switched (version : json) (c : completed) : Prop :=
  returncode c = 0 \/ stderr c = Some (already_exists_message version).

(** Any event but the writing of a file. *)
Definition no_write (e : event) : Prop :=
  match e with
  | EWrite _ _ => False
  | EPrint _ | ERun _ _ | EMakedirs _ => True
  end.

(** No character of [s] is [c]. *)
Fixpoint free_of (c : Ascii.ascii) (s : string) : bool :=
  match s with
  | EmptyString => true
  | String b s' => negb (Ascii.eqb b c) && free_of c s'
  end.

End Further.

Definition LF_char : Ascii.ascii := Ascii.ascii_of_nat 10.

(** * Properties *)

(** ** The string methods and the example host on small inputs *)

Example join_lines : Str.join Str.LF ["a"; "b"] = "a" +:+ Str.LF +:+ "b".
Proof. reflexivity. Qed.

Example split_search_path :
  Str.split ":" "/usr/local/bin::/bin" = ["/usr/local/bin"; ""; "/bin"].
Proof. reflexivity. Qed.

Example split_empty : Str.split ":" "" = [""].
Proof. reflexivity. Qed.

Example replace_first_only :
  Str.replace_n "python" "pip" 1 "bin/python3/python" = "bin/pip3/python".
Proof. reflexivity. Qed.

Example replace_every_occurrence : Str.replace "/usr/" "" "/usr/bin/usr/x" = "binx".
Proof. reflexivity. Qed.

Example replace_empty_pattern : Str.replace "" "-" "ab" = "-a-b-".
Proof. reflexivity. Qed.

Example contains_substring :
  Str.contains "id" "valid" = true /\ Str.contains "id" "version" = false.
Proof. split; reflexivity. Qed.

Example posix_dirname :
  Posix.dirname "git" = "" /\ Posix.dirname "/usr/bin/git" = "/usr/bin" /\
  Posix.dirname "/git" = "/" /\ Posix.dirname "a//b" = "a".
Proof. repeat split; reflexivity. Qed.

Example posix_commonpath :
  Posix.commonpath ["/usr/bin/python"; "/usr"] = Some "/usr".
Proof. reflexivity. Qed.

Example release_versions :
  Posix.release_version "3.11.0" = Posix.release_version "3.11" /\
  Posix.release_version "3.11.11" <> Posix.release_version "3.11.10" /\
  Posix.release_version "3.x" = None.
Proof. repeat split; try reflexivity. vm_compute. discriminate. Qed.

Example which_finds_git :
  @_which (Posix.host "linux" "3.11.10") "git" None Example.missing
  = Some "/usr/bin/git".
Proof. vm_compute. reflexivity. Qed.

Example pip_of_the_environment :
  @_get_virtual_environment_pip (Posix.host "linux" "3.11.10") "/work" "venv_map_client"
  = Val "/work/venv_map_client/bin/pip".
Proof. reflexivity. Qed.

Section Logic.

Context `{host : Host}.

(** ** Running a sequence *)

Lemma bind_val {A B} (m : M A) (k : A -> M B) s a s1 :
  m s = (Val a, s1) -> bind m k s = k a s1.
Proof. intros E. unfold bind. now rewrite E. Qed.

Lemma bind_exit {A B} (m : M A) (k : A -> M B) s c s1 :
  m s = (Exit c, s1) -> bind m k s = (Exit c, s1).
Proof. intros E. unfold bind. now rewrite E. Qed.

Lemma bind_raise {A B} (m : M A) (k : A -> M B) s e s1 :
  m s = (Raise e, s1) -> bind m k s = (Raise e, s1).
Proof. intros E. unfold bind. now rewrite E. Qed.

Lemma bind_inv {A B} (m : M A) (k : A -> M B) s r s2 :
  bind m k s = (r, s2) ->
  (exists a s1, m s = (Val a, s1) /\ k a s1 = (r, s2)) \/
  (exists c, m s = (Exit c, s2) /\ r = Exit c) \/
  (exists e, m s = (Raise e, s2) /\ r = Raise e).
Proof.
  unfold bind. destruct (m s) as [[a | c | e] s1]; intros E.
  - left. eauto.
  - right. left. injection E as <- <-. eauto.
  - right. right. injection E as <- <-. eauto.
Qed.

Lemma return_code_find {A} name code :
  List.find (fun kv => String.eqb name (fst kv)) RETURN_CODES = Some (name, code) ->
  @return_code host A name = py_return code.
Proof. intros E. unfold return_code. now rewrite E. Qed.

Lemma getitem_pure v k : pure (Py.getitem v k).
Proof. intros c. destruct v; simpl; try discriminate. destruct (Py.assoc k items); discriminate. Qed.

Lemma contains_pure k v : pure (Py.contains k v).
Proof. intros c. destruct v; discriminate. Qed.

Lemma items_pure v : pure (Py.items v).
Proof. intros c. destruct v; discriminate. Qed.

Lemma as_arg_pure v : pure (Py.as_arg v).
Proof. intros c. destruct v; discriminate. Qed.

Lemma version_pure v : pure (Py.version v).
Proof. intros c. destruct v; simpl; try discriminate. destruct (Version s); discriminate. Qed.

Lemma get_exe_part_pure base name app : pure (_get_exe_part base name app).
Proof. intros c. unfold _get_exe_part. destruct (os_path_commonpath _); discriminate. Qed.

(** ** Where a piece of [main] can end *)

Lemma ends_weaken {A} (P P' : Z -> Prop) (V V' : A -> Prop) m :
  ends_in P V m -> (forall c, P c -> P' c) -> (forall a, V a -> V' a) -> ends_in P' V' m.
Proof.
  intros Hm HP HV s r s' E. specialize (Hm s r s' E). destruct r; auto.
Qed.

Lemma ends_bind {A B} (P : Z -> Prop) (V : A -> Prop) (W : B -> Prop) m k :
  ends_in P V m -> (forall a, V a -> ends_in P W (k a)) -> ends_in P W (bind m k).
Proof.
  intros Hm Hk s r s' E.
  destruct (bind_inv _ _ _ _ _ E) as [(a & s1 & E1 & E2) | [(c & E1 & ->) | (e & E1 & ->)]].
  - apply (Hk a (Hm _ _ _ E1) _ _ _ E2).
  - apply (Hm _ _ _ E1).
  - exact I.
Qed.

Lemma ends_ret {A} P (V : A -> Prop) a : V a -> ends_in P V (ret a).
Proof. intros Ha s r s' E. injection E as <- <-. exact Ha. Qed.

Lemma ends_py_return {A} (P : Z -> Prop) (V : A -> Prop) c : P c -> ends_in P V (py_return c).
Proof. intros Hc s r s' E. injection E as <- <-. exact Hc. Qed.

Lemma ends_raise {A} P (V : A -> Prop) e : ends_in P V (raise e).
Proof. intros s r s' E. injection E as <- <-. exact I. Qed.

Lemma ends_lift {A} P (r : result A) : pure r -> ends_in P anything (lift r).
Proof.
  intros Hr s r' s' E. injection E as <- <-. destruct r; try exact I.
  now destruct (Hr code).
Qed.

Lemma ends_observe {A} P (f : world -> A) : ends_in P anything (observe f).
Proof. intros s r s' E. injection E as <- <-. exact I. Qed.

Lemma ends_print P line : ends_in P anything (print line).
Proof. intros s r s' E. injection E as <- <-. exact I. Qed.

Lemma ends_run P inv : ends_in P anything (run inv).
Proof.
  intros s r s' E. unfold run in E.
  destruct (subprocess_run inv (st_world s)) as [[c |] w']; injection E as <- <-; exact I.
Qed.

Lemma ends_open_write P path text : ends_in P anything (open_write path text).
Proof.
  intros s r s' E. unfold open_write in E.
  destruct (write_text path text (st_world s)); injection E as <- <-; exact I.
Qed.

Lemma ends_makedirs P path : ends_in P anything (makedirs path).
Proof.
  intros s r s' E. unfold makedirs in E.
  destruct (os_makedirs path (st_world s)); injection E as <- <-; exact I.
Qed.

Lemma ends_json_load P path : ends_in P anything (json_load path).
Proof.
  intros s r s' E. unfold json_load in E.
  destruct (json_load_file path (st_world s)); injection E as <- <-; exact I.
Qed.

End Logic.

Create HintDb ends discriminated.

#[export] Hint Resolve ends_ret ends_raise ends_observe ends_print ends_run
  ends_open_write ends_makedirs ends_json_load : ends.
#[export] Hint Resolve getitem_pure contains_pure items_pure as_arg_pure version_pure
  get_exe_part_pure : ends.
#[export] Hint Extern 1 (anything _) => exact I : ends.

(** Walks a piece of [main] statement by statement.  A statement that
    falls through with an arbitrary value is closed by the hints; a
    [return RETURN_CODES[...]] leaves its code to [tac]. *)
Ltac ends_walk tac :=
  repeat match goal with
    | |- ends_in _ _ (ret _) => apply ends_ret; exact I
    | |- ends_in _ _ (raise _) => apply ends_raise
    | |- ends_in _ _ (bind _ _) => eapply (ends_bind _ anything); [ | intros ? _ ]
    | |- ends_in _ _ (lift _) => apply ends_lift; auto with ends
    | |- ends_in _ _ (observe _) => apply ends_observe
    | |- ends_in _ _ (print _) => apply ends_print
    | |- ends_in _ _ (run _) => apply ends_run
    | |- ends_in _ _ (open_write _ _) => apply ends_open_write
    | |- ends_in _ _ (makedirs _) => apply ends_makedirs
    | |- ends_in _ _ (json_load _) => apply ends_json_load
    | |- ends_in _ _ (return_code _) =>
        erewrite return_code_find by reflexivity; apply ends_py_return; tac
    | |- ends_in _ _ (py_return _) => apply ends_py_return; tac
    | |- ends_in _ _ (if ?b then _ else _) => destruct b
    | |- ends_in _ _ (match ?x with _ => _ end) => destruct x
    end.

(** ** What a piece of [main] leaves behind *)

Section Frame.

Context `{host : Host}.

Lemma silent_refl s : silent s s.
Proof. split; [reflexivity | exists []; simpl; now rewrite app_nil_r]. Qed.

Lemma silent_trans s1 s2 s3 : silent s1 s2 -> silent s2 s3 -> silent s1 s3.
Proof.
  intros [W1 [l1 L1]] [W2 [l2 L2]]. split; [congruence |].
  exists (l1 ++ l2)%list. rewrite L2, L1, map_app. now rewrite <- app_assoc.
Qed.

Lemma silent_print s line : silent s (emit (EPrint line) s).
Proof. split; [reflexivity | now exists [line]]. Qed.

Lemma quiet_bind {A B} (m : M A) (k : A -> M B) :
  quiet m -> (forall a, quiet (k a)) -> quiet (bind m k).
Proof.
  intros Hm Hk s r s' E.
  destruct (bind_inv _ _ _ _ _ E) as [(a & s1 & E1 & E2) | [(c & E1 & ->) | (e & E1 & ->)]].
  - eapply silent_trans; [apply (Hm _ _ _ E1) | apply (Hk _ _ _ _ E2)].
  - apply (Hm _ _ _ E1).
  - apply (Hm _ _ _ E1).
Qed.

Lemma quiet_ret {A} (a : A) : quiet (ret a).
Proof. intros s r s' E. injection E as <- <-. apply silent_refl. Qed.

Lemma quiet_py_return {A} c : quiet (@py_return host A c).
Proof. intros s r s' E. injection E as <- <-. apply silent_refl. Qed.

Lemma quiet_raise {A} e : quiet (@raise host A e).
Proof. intros s r s' E. injection E as <- <-. apply silent_refl. Qed.

Lemma quiet_lift {A} (r : result A) : quiet (lift r).
Proof. intros s r' s' E. injection E as <- <-. apply silent_refl. Qed.

Lemma quiet_observe {A} (f : world -> A) : quiet (observe f).
Proof. intros s r s' E. injection E as <- <-. apply silent_refl. Qed.

Lemma quiet_print line : quiet (print line).
Proof. intros s r s' E. injection E as <- <-. apply silent_print. Qed.

Lemma quiet_json_load path : quiet (json_load path).
Proof.
  intros s r s' E. unfold json_load in E.
  destruct (json_load_file path (st_world s)); injection E as <- <-; apply silent_refl.
Qed.

Lemma quiet_return_code {A} name : quiet (@return_code host A name).
Proof.
  unfold return_code.
  destruct (List.find _ RETURN_CODES) as [[? code] |];
    [apply quiet_py_return | apply quiet_raise].
Qed.

End Frame.

Ltac quiet_walk :=
  repeat match goal with
    | |- quiet (ret _) => apply quiet_ret
    | |- quiet (py_return _) => apply quiet_py_return
    | |- quiet (raise _) => apply quiet_raise
    | |- quiet (lift _) => apply quiet_lift
    | |- quiet (observe _) => apply quiet_observe
    | |- quiet (print _) => apply quiet_print
    | |- quiet (json_load _) => apply quiet_json_load
    | |- quiet (return_code _) => apply quiet_return_code
    | |- quiet (bind _ _) => apply quiet_bind; [ | intros ? ]
    | |- quiet (if ?b then _ else _) => destruct b
    | |- quiet (match ?x with _ => _ end) => destruct x
    end.

Section Stages.

Context `{host : Host}.

(** *** The stages before any tool runs only read and print *)

Lemma quiet_is_provenance path : quiet (_is_map_client_provenance_file path).
Proof. unfold _is_map_client_provenance_file. quiet_walk. Qed.

Lemma quiet_platform_match info : quiet (_platform_match info).
Proof. unfold _platform_match. quiet_walk. Qed.

Lemma quiet_select_python_info content : quiet (select_python_info content).
Proof. unfold select_python_info. quiet_walk. Qed.

Lemma quiet_check_platform info : quiet (check_platform info).
Proof. unfold check_platform. quiet_walk. apply quiet_platform_match. Qed.

Lemma quiet_locate_git : quiet locate_git.
Proof. unfold locate_git. quiet_walk. Qed.

Lemma ends_locate_git : ends_in (eq 5) anything locate_git.
Proof. unfold locate_git. ends_walk ltac:(reflexivity). Qed.

(** *** The stages from requirement assembly on end with 0 or 6..10 *)

Lemma ends_package_requirements_loop P items :
  ends_in P anything (package_requirements_loop items).
Proof.
  induction items as [| [package package_data] rest IH]; simpl.
  - apply ends_ret. exact I.
  - unfold package_requirement. ends_walk ltac:(fail). exact IH.
Qed.

Lemma ends_assemble_requirements P software_info :
  ends_in P anything (assemble_requirements software_info).
Proof.
  unfold assemble_requirements, _map_client_requirements, _package_requirements.
  ends_walk ltac:(fail). apply ends_package_requirements_loop.
Qed.

Lemma ends_create_virtualenv args : ends_in (eq 6) anything (create_virtualenv args).
Proof. unfold create_virtualenv. ends_walk ltac:(reflexivity). Qed.

Lemma ends_write_requirements P args requirements :
  ends_in P anything (write_requirements args requirements).
Proof. unfold write_requirements. ends_walk ltac:(fail). Qed.

Lemma ends_install_requirements args : ends_in (eq 7) anything (install_requirements args).
Proof.
  unfold install_requirements, _get_virtual_environment_pip. ends_walk ltac:(reflexivity).
Qed.

Lemma ends_ensure_plugin_dir P args : ends_in P anything (ensure_plugin_dir args).
Proof. unfold ensure_plugin_dir. ends_walk ltac:(fail). Qed.

Lemma ends_clone_or_reuse git_exe plugin_dir p p_data :
  ends_in (eq 8) anything (clone_or_reuse git_exe plugin_dir p p_data).
Proof. unfold clone_or_reuse. ends_walk ltac:(reflexivity). Qed.

Lemma ends_switch_branch git_exe plugin_dir p p_data :
  ends_in (eq 9) anything (switch_branch git_exe plugin_dir p p_data).
Proof. unfold switch_branch. ends_walk ltac:(reflexivity). Qed.

Lemma ends_sync_plugin git_exe plugin_dir p p_data :
  ends_in (fun c => c = 8 \/ c = 9) anything (sync_plugin git_exe plugin_dir p p_data).
Proof.
  unfold sync_plugin. eapply (ends_bind _ anything).
  - eapply ends_weaken; [apply ends_clone_or_reuse | intros c <-; now left | auto].
  - intros _ _. eapply ends_weaken; [apply ends_switch_branch | intros c <-; now right | auto].
Qed.

Lemma ends_sync_plugins git_exe plugin_dir items :
  ends_in (fun c => c = 8 \/ c = 9) anything (sync_plugins git_exe plugin_dir items).
Proof.
  induction items as [| [p p_data] rest IH]; simpl.
  - apply ends_ret. exact I.
  - eapply ends_bind; [apply ends_sync_plugin | intros _ _; exact IH].
Qed.

Lemma ends_temporary_install P pip_exe : ends_in P anything (temporary_install pip_exe).
Proof. unfold temporary_install. ends_walk ltac:(fail). Qed.

Lemma ends_activate args plugin_dir :
  ends_in (fun c => c = 0 \/ c = 10) nothing (activate args plugin_dir).
Proof.
  unfold activate, _get_virtual_environment_map_client_use.
  ends_walk ltac:(first [now left | now right]).
Qed.

End Stages.

Section Provisioning.

Context `{host : Host}.

Lemma late_of_code {A} (V : A -> Prop) (m : M A) (code : Z) :
  6 <= code <= 10 -> ends_in (eq code) V m -> ends_in late V m.
Proof.
  intros Hc Hm. eapply ends_weaken; [exact Hm | | auto].
  intros c <-. right. exact Hc.
Qed.

Lemma late_sync_plugins git_exe plugin_dir items :
  ends_in late anything (sync_plugins git_exe plugin_dir items).
Proof.
  eapply ends_weaken; [apply ends_sync_plugins | | auto].
  intros c [-> | ->]; right; lia.
Qed.

Lemma late_activate args plugin_dir : ends_in late nothing (activate args plugin_dir).
Proof.
  eapply ends_weaken; [apply ends_activate | | auto].
  intros c [-> | ->]; [now left | right; lia].
Qed.

Lemma late_provision args git_exe requirements plugin_requirements :
  ends_in late nothing (provision args git_exe requirements plugin_requirements).
Proof.
  unfold provision.
  eapply (ends_bind _ anything);
    [apply (late_of_code _ _ 6); [lia | apply ends_create_virtualenv] | intros _ _].
  eapply (ends_bind _ anything); [apply ends_write_requirements | intros _ _].
  eapply (ends_bind _ anything);
    [apply (late_of_code _ _ 7); [lia | apply ends_install_requirements] | intros pip _].
  eapply (ends_bind _ anything); [apply ends_ensure_plugin_dir | intros plugin_dir _].
  eapply (ends_bind _ anything); [apply ends_lift; auto with ends | intros items _].
  eapply (ends_bind _ anything); [apply late_sync_plugins | intros _ _].
  eapply (ends_bind _ anything); [apply ends_temporary_install | intros _ _].
  apply late_activate.
Qed.

(** [main] past the git lookup is requirement assembly followed by
    [provision]. *)
Lemma late_after_git args git_exe software_info :
  ends_in late nothing
    (let* '(requirements, plugin_requirements) := assemble_requirements software_info in
     provision args git_exe requirements plugin_requirements).
Proof.
  eapply (ends_bind _ anything); [apply ends_assemble_requirements |].
  intros [requirements plugin_requirements] _. apply late_provision.
Qed.

Lemma early_bind {A B} (m : M A) (k : A -> M B) :
  quiet m -> (forall a, early_silent (k a)) -> early_silent (bind m k).
Proof.
  intros Hm Hk s c s' E Hc.
  destruct (bind_inv _ _ _ _ _ E) as [(a & s1 & E1 & E2) | [(c' & E1 & _) | (e & _ & Habs)]].
  - eapply silent_trans; [apply (Hm _ _ _ E1) | apply (Hk _ _ _ _ E2 Hc)].
  - apply (Hm _ _ _ E1).
  - discriminate.
Qed.

Lemma early_of_late {A} (V : A -> Prop) (m : M A) : ends_in late V m -> early_silent m.
Proof.
  intros Hm s c s' E Hc. specialize (Hm _ _ _ E). simpl in Hm.
  destruct Hm as [-> | Hm]; lia.
Qed.

(** **** C5
    Whenever [main] returns one of the codes 1 to 5, the world (the file
    system included) is the one it started in and the log has grown by
    printed lines only: no file was written, no directory made, no tool
    run. *)
Theorem early_codes_leave_no_trace (args : Args) (s s' : state) (c : Z) :
  main args s = (Exit c, s') ->
  1 <= c <= 5 ->
  st_world s' = st_world s /\
  exists lines, st_log s' = (st_log s ++ map EPrint lines)%list.
Proof.
  revert s c s'. change (early_silent (main args)). unfold main, reproduce.
  apply early_bind; [apply quiet_observe | intros is_dir].
  apply early_bind; [quiet_walk | intros _].
  apply early_bind; [apply quiet_is_provenance | intros is_provenance].
  apply early_bind; [quiet_walk | intros _].
  apply early_bind; [apply quiet_json_load | intros content].
  apply early_bind; [apply quiet_select_python_info | intros [software_info python_info]].
  apply early_bind; [apply quiet_check_platform | intros _].
  apply early_bind; [apply quiet_locate_git | intros git_exe].
  eapply early_of_late. apply late_after_git.
Qed.

End Provisioning.

(** ** The loader and the gates, on a given record *)

Section Loader.

Context `{host : Host}.

Lemma existsb_assoc k fields :
  existsb (fun kv : string * json => String.eqb k (fst kv)) fields =
  match Py.assoc k fields with Some _ => true | None => false end.
Proof.
  induction fields as [| [k' v] rest IH]; simpl; [reflexivity |].
  destruct (String.eqb k k'); [reflexivity | exact IH].
Qed.

Lemma eq_str_iff v t : Py.eq_str v t = true <-> v = JStr t.
Proof.
  destruct v; simpl; try (split; [discriminate | intros E; discriminate E]).
  rewrite String.eqb_eq. split; [now intros -> | now intros [= ->]].
Qed.

Lemma getitem_obj k fields :
  Py.getitem (JObj fields) k =
  match Py.assoc k fields with Some x => Val x | None => Raise (KeyError k) end.
Proof. reflexivity. Qed.

Lemma contains_obj k fields :
  Py.contains k (JObj fields) =
  Val (match Py.assoc k fields with Some _ => true | None => false end).
Proof. simpl. now rewrite existsb_assoc. Qed.

(** The loader's verdict on a dict. *)
Lemma is_provenance_obj path s fields :
  os_path_isfile path (st_world s) = true ->
  json_load_file path (st_world s) = Loaded (JObj fields) ->
  _is_map_client_provenance_file path s =
  (Val (match Py.assoc "id" fields with
        | Some id =>
            Py.eq_str id "map-client-provenance-record-report" &&
            match Py.assoc "version" fields with Some _ => true | None => false end
        | None => false
        end), s).
Proof.
  intros Hfile Hload.
  unfold _is_map_client_provenance_file, bind, observe, json_load, lift, ret.
  cbn -[Py.contains Py.getitem]. rewrite Hfile. cbn -[Py.contains Py.getitem].
  rewrite Hload. rewrite !contains_obj, getitem_obj.
  destruct (Py.assoc "id" fields) as [id |]; cbn; [| reflexivity].
  destruct (Py.eq_str id _); reflexivity.
Qed.

Lemma main_setup_dir_ok args s :
  os_path_isdir (setup_dir args) (st_world s) = true ->
  main args s =
  (let* is_provenance := _is_map_client_provenance_file (provenance_file args) in
   (if negb is_provenance then return_code "PROVENANCE_FILE_INVALID" else ret tt) >>
   let* content := json_load (provenance_file args) in
   reproduce args content) s.
Proof. intros Hdir. unfold main, bind at 1 2, observe. now rewrite Hdir. Qed.

End Loader.

Section Provenance.

Context `{host : Host}.

Variable args : Args.
Variable s : state.

Hypothesis setup_dir_exists : os_path_isdir (setup_dir args) (st_world s) = true.

Lemma main_no_file :
  os_path_isfile (provenance_file args) (st_world s) = false ->
  main args s = (Exit 2, s).
Proof.
  intros Hfile. rewrite main_setup_dir_ok by exact setup_dir_exists.
  unfold bind at 1 2. unfold _is_map_client_provenance_file, bind, observe.
  now rewrite Hfile.
Qed.

Lemma main_rejected fields :
  os_path_isfile (provenance_file args) (st_world s) = true ->
  json_load_file (provenance_file args) (st_world s) = Loaded (JObj fields) ->
  (forall id, Py.assoc "id" fields = Some id ->
              id <> JStr "map-client-provenance-record-report") \/
  Py.assoc "version" fields = None ->
  main args s = (Exit 2, s).
Proof.
  intros Hfile Hload Hbad. rewrite main_setup_dir_ok by exact setup_dir_exists.
  unfold bind at 1 2. rewrite (is_provenance_obj _ _ fields Hfile Hload).
  destruct (Py.assoc "id" fields) as [id |] eqn:Eid; [| reflexivity].
  destruct (Py.eq_str id _) eqn:Eeq.
  - apply eq_str_iff in Eeq. destruct Hbad as [Hbad | ->]; [| reflexivity].
    now destruct (Hbad id eq_refl).
  - reflexivity.
Qed.

Lemma main_undecodable :
  os_path_isfile (provenance_file args) (st_world s) = true ->
  json_load_file (provenance_file args) (st_world s) = LoadDecodeError ->
  main args s = (Raise JSONDecodeError, s).
Proof.
  intros Hfile Hload. rewrite main_setup_dir_ok by exact setup_dir_exists.
  unfold bind at 1 2. unfold _is_map_client_provenance_file, bind, observe, json_load.
  rewrite Hfile. cbn. now rewrite Hload.
Qed.

(** [main] on a record that passes the loader. *)
Lemma main_loaded fields schema :
  os_path_isfile (provenance_file args) (st_world s) = true ->
  json_load_file (provenance_file args) (st_world s) = Loaded (JObj fields) ->
  Py.assoc "id" fields = Some (JStr "map-client-provenance-record-report") ->
  Py.assoc "version" fields = Some schema ->
  main args s = reproduce args (JObj fields) s.
Proof.
  intros Hfile Hload Hid Hversion. rewrite main_setup_dir_ok by exact setup_dir_exists.
  unfold bind at 1 2. rewrite (is_provenance_obj _ _ fields Hfile Hload).
  rewrite Hid, Hversion. cbn -[reproduce]. unfold bind, json_load.
  now rewrite Hload.
Qed.

(** **** C2 (as amended)
    With the setup directory in place, [main] returns 2 when the
    provenance path is not a file, and when the file decodes to a dict
    whose [id] is absent or is not the sentinel, or which has no
    [version].  A file that is there and does not decode makes [main]
    raise the decoder's error: no code is returned. *)
Theorem provenance_file_invalid :
  (os_path_isfile (provenance_file args) (st_world s) = false ->
   main args s = (Exit 2, s)) /\
  (forall fields,
     os_path_isfile (provenance_file args) (st_world s) = true ->
     json_load_file (provenance_file args) (st_world s) = Loaded (JObj fields) ->
     (forall id, Py.assoc "id" fields = Some id ->
                 id <> JStr "map-client-provenance-record-report") \/
     Py.assoc "version" fields = None ->
     main args s = (Exit 2, s)) /\
  (os_path_isfile (provenance_file args) (st_world s) = true ->
   json_load_file (provenance_file args) (st_world s) = LoadDecodeError ->
   main args s = (Raise JSONDecodeError, s)).
Proof.
  split; [exact main_no_file |]. split; [exact main_rejected | exact main_undecodable].
Qed.

End Provenance.

(** ** The compatibility check *)

Section Compatibility.

Context `{host : Host}.

Lemma platform_match_value info v p kh ke s :
  Py.getitem info "version" = Val (JStr v) ->
  Py.getitem info "platform" = Val p ->
  Version python_version = Some kh ->
  Version v = Some ke ->
  _platform_match info s =
  (Val (bool_decide (kh = ke) && Py.eq_str p sys_platform), s).
Proof.
  intros Hv Hp Hh He. unfold _platform_match, bind, lift, ret. cbn -[Py.getitem].
  rewrite Hh, Hv. cbn -[Py.getitem]. rewrite He.
  destruct (bool_decide (kh = ke)); [now rewrite Hp | reflexivity].
Qed.

Lemma check_platform_verdict info recorded_version p b s :
  _platform_match info s = (Val b, s) ->
  Py.getitem info "version" = Val recorded_version ->
  Py.getitem info "platform" = Val p ->
  check_platform info s =
  if b then (Val tt, s)
  else (Exit 4, emit (EPrint (mismatch_message p recorded_version)) s).
Proof.
  intros Hm Hv Hp. unfold check_platform. unfold bind at 1. rewrite Hm.
  destruct b; [reflexivity |]. cbn -[Py.getitem mismatch_message].
  unfold bind, lift. now rewrite Hp, Hv.
Qed.

End Compatibility.

(** ** Runs on a record that passed the loader *)

Section Gates.

Context `{host : Host}.

Variable args : Args.
Variable s : state.
Variable fields : list (string * json).
Variable schema : json.

Hypothesis setup_dir_exists : os_path_isdir (setup_dir args) (st_world s) = true.
Hypothesis is_file : os_path_isfile (provenance_file args) (st_world s) = true.
Hypothesis loads :
  json_load_file (provenance_file args) (st_world s) = Loaded (JObj fields).
Hypothesis has_id :
  Py.assoc "id" fields = Some (JStr "map-client-provenance-record-report").
Hypothesis has_version : Py.assoc "version" fields = Some schema.

Lemma main_record : main args s = reproduce args (JObj fields) s.
Proof. exact (main_loaded args s setup_dir_exists fields schema is_file loads has_id has_version). Qed.

Lemma main_without_software_info :
  Py.assoc "software_info" fields = None ->
  main args s = (Raise (KeyError "software_info"), s).
Proof.
  intros Hsw. rewrite main_record. unfold reproduce, select_python_info, bind, lift.
  rewrite getitem_obj, Hsw. reflexivity.
Qed.

Variable software_info : json.
Hypothesis has_software_info : Py.assoc "software_info" fields = Some software_info.

Variable sv : string.
Variable recorded legacy : version_key.
Hypothesis schema_text : schema = JStr sv.
Hypothesis schema_parses : Version sv = Some recorded.
Hypothesis legacy_parses : Version "0.1.0" = Some legacy.

Lemma select_python_info_value :
  select_python_info (JObj fields) s =
  if bool_decide (recorded = legacy) then
    if String.eqb sys_platform "darwin" then
      (Val (software_info,
            JObj [("version", JStr "3.11.11"); ("platform", JStr "darwin")]), s)
    else
      (Exit 3,
       emit (EPrint ("Default Python information not set for this platform ("
                     +:+ sys_platform +:+ ").")) s)
  else
    match Py.getitem software_info "python" with
    | Val python_info => (Val (software_info, python_info), s)
    | Exit c => (Exit c, s)
    | Raise e => (Raise e, s)
    end.
Proof.
  unfold select_python_info, bind, lift, ret. rewrite !getitem_obj.
  rewrite has_software_info, has_version, schema_text. cbn -[Py.getitem].
  rewrite schema_parses, legacy_parses.
  destruct (bool_decide (recorded = legacy)).
  - destruct (String.eqb sys_platform "darwin"); reflexivity.
  - destruct (Py.getitem software_info "python"); reflexivity.
Qed.

(** **** C4
    For a record whose schema version equals [0.1.0], the expected
    interpreter is the built-in entry for [darwin] (version [3.11.11],
    platform [darwin]); on any other platform [main] returns 3.  For any
    other schema version it is the record's [python] entry. *)
Theorem legacy_schema_uses_default_table :
  (recorded = legacy -> sys_platform = "darwin" ->
   select_python_info (JObj fields) s =
   (Val (software_info,
         JObj [("version", JStr "3.11.11"); ("platform", JStr "darwin")]), s)) /\
  (recorded = legacy -> sys_platform <> "darwin" ->
   main args s =
   (Exit 3,
    emit (EPrint ("Default Python information not set for this platform ("
                  +:+ sys_platform +:+ ").")) s)) /\
  (recorded <> legacy ->
   forall python_info,
     Py.getitem software_info "python" = Val python_info ->
     select_python_info (JObj fields) s = (Val (software_info, python_info), s)).
Proof.
  repeat split.
  - intros Heq Hdarwin. rewrite select_python_info_value.
    rewrite bool_decide_eq_true_2 by exact Heq.
    apply String.eqb_eq in Hdarwin. now rewrite Hdarwin.
  - intros Heq Hother. rewrite main_record. unfold reproduce. unfold bind at 1.
    rewrite select_python_info_value. rewrite bool_decide_eq_true_2 by exact Heq.
    apply String.eqb_neq in Hother. now rewrite Hother.
  - intros Hne python_info Hpy. rewrite select_python_info_value.
    rewrite bool_decide_eq_false_2 by exact Hne. now rewrite Hpy.
Qed.

Variable python_info : json.
Variable v : string.
Variable p : json.
Variable actual expected : version_key.

(** The interpreter the record is held against comes from one of two
    places: the built-in entry for a legacy record on darwin, or the
    record's own [python] entry. *)
Hypothesis expected_interpreter :
  (recorded = legacy /\ sys_platform = "darwin" /\
   python_info = JObj [("version", JStr "3.11.11"); ("platform", JStr "darwin")]) \/
  (recorded <> legacy /\ Py.getitem software_info "python" = Val python_info).
Hypothesis has_python_version : Py.getitem python_info "version" = Val (JStr v).
Hypothesis has_python_platform : Py.getitem python_info "platform" = Val p.
Hypothesis host_parses : Version python_version = Some actual.
Hypothesis expected_parses : Version v = Some expected.

Lemma expected_interpreter_selected :
  select_python_info (JObj fields) s = (Val (software_info, python_info), s).
Proof.
  rewrite select_python_info_value.
  destruct expected_interpreter as [(Heq & Hdarwin & ->) | (Hne & Hpy)].
  - rewrite bool_decide_eq_true_2 by exact Heq.
    apply String.eqb_eq in Hdarwin. now rewrite Hdarwin.
  - rewrite bool_decide_eq_false_2 by exact Hne. now rewrite Hpy.
Qed.

Lemma main_at_the_check :
  main args s =
  (check_platform python_info >>
   let* git_exe := locate_git in
   let* '(requirements, plugin_requirements) := assemble_requirements software_info in
   provision args git_exe requirements plugin_requirements) s.
Proof.
  rewrite main_record. unfold reproduce. unfold bind at 1.
  now rewrite expected_interpreter_selected.
Qed.

(** **** C3
    Whether the expected interpreter is the built-in entry of a legacy
    record or the record's [python] entry, the check succeeds exactly
    when the expected version equals the running one as versions and the
    expected platform is the host's platform string.  On any mismatch
    [main] prints both pairs and returns 4; when the check succeeds
    [main] goes on and does not return 4. *)
Theorem compatibility_needs_equal_version_and_platform :
  exists b,
    _platform_match python_info s = (Val b, s) /\
    (b = true <-> actual = expected /\ p = JStr sys_platform) /\
    (b = true ->
     check_platform python_info s = (Val tt, s) /\
     forall s', main args s <> (Exit 4, s')) /\
    (b = false ->
     main args s = (Exit 4, emit (EPrint (mismatch_message p (JStr v))) s)).
Proof.
  pose proof (platform_match_value python_info v p actual expected s
                has_python_version has_python_platform host_parses expected_parses) as Hm.
  pose proof (check_platform_verdict _ _ _ _ _ Hm has_python_version has_python_platform)
    as Hcheck.
  eexists. split; [exact Hm |]. split; [| split].
  - rewrite andb_true_iff, bool_decide_eq_true, eq_str_iff. reflexivity.
  - intros Hb. rewrite Hb in Hcheck. split; [exact Hcheck |].
    intros s' E. rewrite main_at_the_check in E. unfold bind at 1 in E.
    rewrite Hcheck in E.
    destruct (bind_inv _ _ _ _ _ E)
      as [(git_exe & s1 & _ & E2) | [(c & E1 & [= Hc]) | (e & _ & Habs)]].
    + pose proof (late_after_git args git_exe software_info _ _ _ E2) as Hlate.
      simpl in Hlate. unfold late in Hlate. lia.
    + pose proof (ends_locate_git _ _ _ E1) as H5. simpl in H5. lia.
    + discriminate.
  - intros Hb. rewrite Hb in Hcheck. rewrite main_at_the_check. unfold bind at 1.
    now rewrite Hcheck.
Qed.

End Gates.

(** ** Records with entries missing *)

Section MissingEntries.

Context `{host : Host}.

Lemma ends_lift_val {A} P (r : result A) :
  pure r -> ends_in P (fun a => r = Val a) (lift r).
Proof.
  intros Hr s r' s' E. injection E as <- <-. destruct r; try exact I.
  - reflexivity.
  - now destruct (Hr code).
Qed.

Lemma ends_select_python_info content :
  ends_in (eq 3)
    (fun x => Py.getitem content "software_info" = Val (fst x))
    (select_python_info content).
Proof.
  unfold select_python_info.
  eapply ends_bind; [apply ends_lift_val; auto with ends | intros software_info Hsw].
  eapply (ends_bind _ anything); [apply ends_lift; auto with ends | intros schema _].
  eapply (ends_bind _ anything); [apply ends_lift; auto with ends | intros recorded _].
  eapply (ends_bind _ anything); [apply ends_lift; auto with ends | intros legacy _].
  destruct (bool_decide (recorded = legacy)).
  - destruct (String.eqb sys_platform "darwin").
    + apply ends_ret. exact Hsw.
    + eapply (ends_bind _ anything); [apply ends_print | intros _ _].
      erewrite return_code_find by reflexivity. now apply ends_py_return.
  - eapply (ends_bind _ anything); [apply ends_lift; auto with ends | intros python_info _].
    apply ends_ret. exact Hsw.
Qed.

Lemma ends_check_platform info : ends_in (eq 4) anything (check_platform info).
Proof. unfold check_platform, _platform_match. ends_walk ltac:(reflexivity). Qed.

Lemma package_requirement_raises package package_data :
  lacks "version" package_data \/ lacks "location" package_data ->
  ends_in never nothing (package_requirement package package_data).
Proof.
  intros Hbad. unfold package_requirement.
  eapply ends_bind; [apply ends_lift_val; auto with ends | intros version Hv].
  destruct Hbad as [Hbad | Hbad]; [now destruct (Hbad _ Hv) |].
  eapply ends_bind; [apply ends_lift_val; auto with ends | intros location Hl].
  now destruct (Hbad _ Hl).
Qed.

Lemma package_requirements_loop_raises items name package_data :
  In (name, package_data) items ->
  lacks "version" package_data \/ lacks "location" package_data ->
  ends_in never nothing (package_requirements_loop items).
Proof.
  intros Hin Hbad. induction items as [| [package data] rest IH]; [destruct Hin |].
  simpl. destruct Hin as [[= -> ->] | Hin].
  - eapply ends_bind; [apply package_requirement_raises; exact Hbad | intros ? Hn; exact (False_ind _ Hn)].
  - eapply (ends_bind _ anything).
    + unfold package_requirement. ends_walk ltac:(fail).
    + intros line _. eapply ends_bind; [apply (IH Hin) | intros ? Hn; exact (False_ind _ Hn)].
Qed.

Lemma assemble_requirements_raises software_info :
  incomplete software_info ->
  ends_in never nothing (assemble_requirements software_info).
Proof.
  intros Hinc. unfold assemble_requirements.
  eapply ends_bind; [apply ends_lift_val; auto with ends | intros mapclient Hmc].
  destruct Hinc as [Hno | Hinc]; [now destruct (Hno _ Hmc) |].
  eapply (ends_bind _ anything);
    [unfold _map_client_requirements; ends_walk ltac:(fail) | intros pin _].
  eapply ends_bind; [apply ends_lift_val; auto with ends | intros packages Hpk].
  destruct Hinc as [Hno | (pkgs & name & package_data & Hpkgs & Hin & Hbad)];
    [now destruct (Hno _ Hpk) |].
  rewrite Hpkgs in Hpk. injection Hpk as <-.
  eapply ends_bind; [| intros ? Hn; exact (False_ind _ Hn)].
  unfold _package_requirements.
  eapply ends_bind; [apply ends_lift_val; auto with ends | intros items [= <-]].
  exact (package_requirements_loop_raises _ _ _ Hin Hbad).
Qed.

Lemma reproduce_incomplete args content software_info :
  Py.getitem content "software_info" = Val software_info ->
  incomplete software_info ->
  ends_in (fun c => c = 3 \/ c = 4 \/ c = 5) nothing (reproduce args content).
Proof.
  intros Hsw Hinc. unfold reproduce.
  eapply (ends_bind _ (fun x => Py.getitem content "software_info" = Val (fst x))).
  { eapply ends_weaken; [apply ends_select_python_info | intros c <-; auto | auto]. }
  intros [software_info' python_info] Hsw'. simpl in Hsw'.
  rewrite Hsw in Hsw'. injection Hsw' as <-.
  eapply (ends_bind _ anything).
  { eapply ends_weaken; [apply ends_check_platform | intros c <-; auto | auto]. }
  intros _ _. eapply (ends_bind _ anything).
  { eapply ends_weaken; [apply ends_locate_git | intros c <-; auto | auto]. }
  intros git_exe _. eapply (ends_bind _ nothing).
  { eapply ends_weaken;
      [apply (assemble_requirements_raises _ Hinc) | intros c Hn; exact (False_ind _ Hn) | intros a Ha; exact Ha]. }
  intros ? Hn; exact (False_ind _ Hn).
Qed.

Variable args : Args.
Variable s : state.
Variable fields : list (string * json).
Variable schema : json.

Hypothesis setup_dir_exists : os_path_isdir (setup_dir args) (st_world s) = true.
Hypothesis is_file : os_path_isfile (provenance_file args) (st_world s) = true.
Hypothesis loads :
  json_load_file (provenance_file args) (st_world s) = Loaded (JObj fields).
Hypothesis has_id :
  Py.assoc "id" fields = Some (JStr "map-client-provenance-record-report").
Hypothesis has_version : Py.assoc "version" fields = Some schema.

(** **** C9 (as amended)
    On a record that passed the loader: without [software_info], and on
    a schema other than [0.1.0] without [python], [main] raises.  Without
    [mapclient] or [packages], or with a package that has no [version]
    or no [location], [main] never returns 0 nor any of 6..10: it raises,
    unless one of the gates before requirement assembly has returned its
    code 3, 4 or 5 first. *)
Theorem missing_entries_raise :
  (Py.assoc "software_info" fields = None ->
   main args s = (Raise (KeyError "software_info"), s)) /\
  (forall software_info sv recorded legacy,
     Py.assoc "software_info" fields = Some software_info ->
     schema = JStr sv ->
     Version sv = Some recorded ->
     Version "0.1.0" = Some legacy ->
     recorded <> legacy ->
     lacks "python" software_info ->
     exists e, main args s = (Raise e, s)) /\
  (forall software_info,
     Py.assoc "software_info" fields = Some software_info ->
     incomplete software_info ->
     forall r s', main args s = (r, s') ->
       (exists e, r = Raise e) \/ r = Exit 3 \/ r = Exit 4 \/ r = Exit 5).
Proof.
  pose proof (main_loaded args s setup_dir_exists fields schema
                is_file loads has_id has_version) as Hmain.
  split; [| split].
  - intros Hsw. rewrite Hmain. unfold reproduce, select_python_info, bind, lift.
    rewrite getitem_obj, Hsw. reflexivity.
  - intros software_info sv recorded legacy Hsw -> Hparse Hlegacy Hne Hlacks.
    rewrite Hmain. unfold reproduce. unfold bind at 1.
    rewrite (select_python_info_value s fields (JStr sv) has_version software_info
               Hsw sv recorded legacy eq_refl Hparse Hlegacy).
    rewrite bool_decide_eq_false_2 by exact Hne.
    pose proof (getitem_pure software_info "python") as Hpure.
    destruct (Py.getitem software_info "python") as [x | c | e] eqn:Epy.
    + now destruct (Hlacks x).
    + now destruct (Hpure c).
    + now exists e.
  - intros software_info Hsw Hinc r s' E. rewrite Hmain in E.
    assert (Hget : Py.getitem (JObj fields) "software_info" = Val software_info)
      by (rewrite getitem_obj, Hsw; reflexivity).
    pose proof (reproduce_incomplete args _ _ Hget Hinc _ _ _ E) as Hend.
    destruct r as [[] | c | e]; simpl in Hend.
    + destruct Hend.
    + destruct Hend as [-> | [-> | ->]]; auto.
    + left. now exists e.
Qed.

End MissingEntries.

(** ** A tool's exit status decides its stage *)

Section Status.

Context `{host : Host}.

Lemma create_virtualenv_status args s c w1 :
  let venv :=
    Invocation [sys_executable; "-m"; "venv"; venv_directory_name]
               (Some (setup_dir args)) false in
  subprocess_run venv (st_world s) = (Some c, w1) ->
  create_virtualenv args s =
  (if returncode c =? 0 then Val tt else Exit 6,
   State w1 (st_log s ++ [ERun venv (Some c)])).
Proof.
  intros venv Hrun. unfold create_virtualenv, bind, run. fold venv. rewrite Hrun.
  now destruct (returncode c =? 0).
Qed.

Lemma install_requirements_status args s pip c w1 :
  _get_virtual_environment_pip (setup_dir args) venv_directory_name = Val pip ->
  let install :=
    Invocation [pip; "install"; "-r"; "requirements.txt"] (Some (setup_dir args)) true in
  subprocess_run install (st_world s) = (Some c, w1) ->
  install_requirements args s =
  (if returncode c =? 0 then Val pip else Exit 7,
   State w1 (st_log s ++ [ERun install (Some c)])).
Proof.
  intros Hpip install Hrun. unfold install_requirements, bind, lift, run.
  rewrite Hpip. fold install. rewrite Hrun.
  now destruct (returncode c =? 0).
Qed.

Lemma activate_status args plugin_dir s exe c w1 :
  _get_virtual_environment_map_client_use (setup_dir args) venv_directory_name = Val exe ->
  let use := Invocation [exe; setup_dir args; "-d"; plugin_dir] None false in
  subprocess_run use (st_world s) = (Some c, w1) ->
  activate args plugin_dir s =
  (Exit (if returncode c =? 0 then 0 else 10),
   State w1 (st_log s ++ [ERun use (Some c)])).
Proof.
  intros Hexe use Hrun. unfold activate, bind, lift, run.
  rewrite Hexe. fold use. rewrite Hrun.
  now destruct (returncode c =? 0).
Qed.

(** The editable install of line 236: whatever the status, the run goes
    on. *)
Lemma temporary_install_status pip s c w1 :
  subprocess_run (editable_install_invocation pip) (st_world s) = (Some c, w1) ->
  temporary_install pip s =
  (Val tt, State w1 (st_log s ++ [ERun (editable_install_invocation pip) (Some c)])).
Proof. intros Hrun. unfold temporary_install, bind, run. now rewrite Hrun. Qed.

End Status.

(** ** The log only grows *)

Section Growth.

Context `{host : Host}.

Lemma extends_refl s : extends s s.
Proof. exists []. now rewrite app_nil_r. Qed.

Lemma extends_trans s1 s2 s3 : extends s1 s2 -> extends s2 s3 -> extends s1 s3.
Proof.
  intros [e1 L1] [e2 L2]. exists (e1 ++ e2)%list. rewrite L2, L1. now rewrite <- app_assoc.
Qed.

Lemma extends_emit s w e : extends s (State w (st_log s ++ [e])).
Proof. now exists [e]. Qed.

Lemma growing_bind {A B} (m : M A) (k : A -> M B) :
  growing m -> (forall a, growing (k a)) -> growing (bind m k).
Proof.
  intros Hm Hk s r s' E.
  destruct (bind_inv _ _ _ _ _ E) as [(a & s1 & E1 & E2) | [(c & E1 & ->) | (e & E1 & ->)]].
  - eapply extends_trans; [apply (Hm _ _ _ E1) | apply (Hk _ _ _ _ E2)].
  - apply (Hm _ _ _ E1).
  - apply (Hm _ _ _ E1).
Qed.

Lemma growing_ret {A} (a : A) : growing (ret a).
Proof. intros s r s' E. injection E as <- <-. apply extends_refl. Qed.

Lemma growing_py_return {A} c : growing (@py_return host A c).
Proof. intros s r s' E. injection E as <- <-. apply extends_refl. Qed.

Lemma growing_raise {A} e : growing (@raise host A e).
Proof. intros s r s' E. injection E as <- <-. apply extends_refl. Qed.

Lemma growing_lift {A} (r : result A) : growing (lift r).
Proof. intros s r' s' E. injection E as <- <-. apply extends_refl. Qed.

Lemma growing_observe {A} (f : world -> A) : growing (observe f).
Proof. intros s r s' E. injection E as <- <-. apply extends_refl. Qed.

Lemma growing_print line : growing (print line).
Proof. intros s r s' E. injection E as <- <-. apply extends_emit. Qed.

Lemma growing_run inv : growing (run inv).
Proof.
  intros s r s' E. unfold run in E.
  destruct (subprocess_run inv (st_world s)) as [[c |] w']; injection E as <- <-;
    apply extends_emit.
Qed.

Lemma growing_open_write path text : growing (open_write path text).
Proof.
  intros s r s' E. unfold open_write in E.
  destruct (write_text path text (st_world s)); injection E as <- <-;
    [apply extends_emit | apply extends_refl].
Qed.

Lemma growing_makedirs path : growing (makedirs path).
Proof.
  intros s r s' E. unfold makedirs in E.
  destruct (os_makedirs path (st_world s)); injection E as <- <-;
    [apply extends_emit | apply extends_refl].
Qed.

Lemma growing_return_code {A} name : growing (@return_code host A name).
Proof.
  unfold return_code.
  destruct (List.find _ RETURN_CODES) as [[? code] |];
    [apply growing_py_return | apply growing_raise].
Qed.

End Growth.

Ltac growing_walk :=
  repeat match goal with
    | |- growing (ret _) => apply growing_ret
    | |- growing (py_return _) => apply growing_py_return
    | |- growing (raise _) => apply growing_raise
    | |- growing (lift _) => apply growing_lift
    | |- growing (observe _) => apply growing_observe
    | |- growing (print _) => apply growing_print
    | |- growing (run _) => apply growing_run
    | |- growing (open_write _ _) => apply growing_open_write
    | |- growing (makedirs _) => apply growing_makedirs
    | |- growing (return_code _) => apply growing_return_code
    | |- growing (bind _ _) => apply growing_bind; [ | intros ? ]
    | |- growing (if ?b then _ else _) => destruct b
    | |- growing (match ?x with _ => _ end) => destruct x
    end.

Section GrowingStages.

Context `{host : Host}.

Lemma growing_sync_plugins git_exe plugin_dir items :
  growing (sync_plugins git_exe plugin_dir items).
Proof.
  induction items as [| [p p_data] rest IH]; simpl.
  - apply growing_ret.
  - apply growing_bind; [| intros _; exact IH].
    unfold sync_plugin, clone_or_reuse, switch_branch. growing_walk.
Qed.

(** Lines 211-243: [provision] past the write of the requirements file. *)
Lemma growing_after_write args git_exe plugin_requirements :
  growing
    (let* virtual_environment_pip_exe := install_requirements args in
     let* plugin_dir := ensure_plugin_dir args in
     let* plugin_items := lift (Py.items plugin_requirements) in
     sync_plugins git_exe plugin_dir plugin_items >>
     temporary_install virtual_environment_pip_exe >>
     activate args plugin_dir).
Proof.
  apply growing_bind; [unfold install_requirements; growing_walk | intros pip].
  apply growing_bind; [unfold ensure_plugin_dir; growing_walk | intros plugin_dir].
  apply growing_bind; [apply growing_lift | intros items].
  apply growing_bind; [apply growing_sync_plugins | intros _].
  apply growing_bind; [unfold temporary_install; growing_walk | intros _].
  unfold activate. growing_walk.
Qed.

End GrowingStages.

(** ** The requirements file *)

Section Requirements.

Context `{host : Host}.

Lemma state_eta (s : state) : State (st_world s) (st_log s) = s.
Proof. now destruct s. Qed.

Lemma package_requirement_value package package_data version location s :
  Py.getitem package_data "version" = Val version ->
  Py.getitem package_data "location" = Val location ->
  package_requirement package package_data s =
  (Val (requirement_line package version),
   State (st_world s) (st_log s ++ advisories [(package, version, location)])).
Proof.
  intros Hv Hl. unfold package_requirement, bind, lift. rewrite Hv, Hl.
  unfold advisories. simpl. destruct (Py.eq_str location "PyPI"); simpl.
  - now rewrite app_nil_r, state_eta.
  - reflexivity.
Qed.

Lemma package_requirements_loop_value items specs :
  Forall2 describes items specs ->
  forall s,
    package_requirements_loop items s =
    (Val (package_lines specs),
     State (st_world s) (st_log s ++ advisories specs)).
Proof.
  induction 1 as [| [package package_data] [[name version] location] items specs Hd _ IH];
    intros s.
  - simpl. now rewrite app_nil_r, state_eta.
  - destruct Hd as (Hname & Hv & Hl). simpl in Hname, Hv, Hl. subst name.
    simpl. unfold bind at 1.
    rewrite (package_requirement_value _ _ _ _ _ Hv Hl).
    unfold bind at 1. rewrite IH. simpl.
    unfold ret. now rewrite app_nil_r, <- app_assoc.
Qed.

Lemma assemble_requirements_value software_info mapclient version plugins pkgs specs s :
  Py.getitem software_info "mapclient" = Val mapclient ->
  Py.getitem mapclient "version" = Val version ->
  Py.getitem software_info "packages" = Val (JObj pkgs) ->
  Forall2 describes pkgs specs ->
  Py.getitem software_info "plugins" = Val plugins ->
  assemble_requirements software_info s =
  (Val (requirement_line "mapclient" version :: package_lines specs, plugins),
   State (st_world s) (st_log s ++ advisories specs)).
Proof.
  intros Hmc Hver Hpk Hspecs Hpl.
  unfold assemble_requirements, _map_client_requirements, _package_requirements.
  unfold bind, lift, ret. rewrite Hmc, Hver, Hpk. simpl Py.items. cbv iota beta.
  rewrite (package_requirements_loop_value _ _ Hspecs). now rewrite Hpl.
Qed.

End Requirements.

(** ** The plugin loop *)

Section Plugins.

Context `{host : Host}.

Variables git_exe plugin_dir p : string.
Variable p_data : json.

(** The reuse path runs [echo] and nothing else. *)
Lemma clone_or_reuse_present s res w1 :
  os_path_exists (os_path_join plugin_dir p) (st_world s) = true ->
  subprocess_run (echo_invocation plugin_dir p) (st_world s) = (res, w1) ->
  exists r lines,
    clone_or_reuse git_exe plugin_dir p p_data s =
      (r, State w1 (st_log s ++ ERun (echo_invocation plugin_dir p) res
                             :: map EPrint lines)) /\
    (forall c, res = Some c -> returncode c = 0 -> r = Val tt /\ lines = []).
Proof.
  intros Hpresent Hrun. unfold clone_or_reuse. unfold bind at 1 2. unfold observe.
  rewrite Hpresent. unfold run. rewrite Hrun.
  destruct res as [c |].
  - destruct (returncode c =? 0) eqn:Erc; cbn -[Py.getitem].
    + exists (Val tt), []. split; [reflexivity | auto].
    + unfold bind, lift, print. apply Z.eqb_neq in Erc.
      destruct (Py.getitem p_data "version") as [version | code | e].
      * eexists _, [_]. unfold py_return, emit. cbn [st_world st_log].
        rewrite <- app_assoc. split; [reflexivity |].
        intros c' [= <-] Hz. now destruct Erc.
      * exists (Exit code), []. split; [reflexivity |].
        intros c' [= <-] Hz. now destruct Erc.
      * exists (Raise e), []. split; [reflexivity |].
        intros c' [= <-] Hz. now destruct Erc.
  - exists (Raise OSError), []. split; [reflexivity | discriminate].
Qed.

(** The clone path runs [git clone] and nothing else. *)
Lemma clone_or_reuse_absent s version location res w1 :
  os_path_exists (os_path_join plugin_dir p) (st_world s) = false ->
  Py.getitem p_data "version" = Val version ->
  Py.getitem p_data "location" = Val (JStr location) ->
  subprocess_run (clone_invocation git_exe plugin_dir p version location) (st_world s)
    = (res, w1) ->
  exists r lines,
    clone_or_reuse git_exe plugin_dir p p_data s =
      (r, State w1 (st_log s
                    ++ ERun (clone_invocation git_exe plugin_dir p version location) res
                    :: map EPrint lines)) /\
    (forall c, res = Some c -> returncode c = 0 -> r = Val tt /\ lines = []).
Proof.
  intros Habsent Hv Hl Hrun. unfold clone_or_reuse. unfold bind at 1 2. unfold observe.
  rewrite Habsent. unfold bind at 1 2 3, lift. rewrite Hv, Hl. simpl Py.as_arg. cbv iota beta.
  unfold run. rewrite Hrun.
  destruct res as [c |].
  - destruct (returncode c =? 0) eqn:Erc; cbn -[Py.getitem].
    + exists (Val tt), []. split; [reflexivity | auto].
    + unfold bind, lift, print. rewrite ?Hv. apply Z.eqb_neq in Erc.
      eexists _, [_]. unfold py_return, emit. cbn [st_world st_log].
      rewrite <- app_assoc. split; [reflexivity |].
      intros c' [= <-] Hz. now destruct Erc.
  - exists (Raise OSError), []. split; [reflexivity | discriminate].
Qed.

(** The switch step runs [git switch -c] and nothing else. *)
Lemma switch_branch_runs s version res w2 :
  Py.getitem p_data "version" = Val version ->
  subprocess_run (switch_invocation git_exe plugin_dir p version) (st_world s) = (res, w2) ->
  exists r lines,
    switch_branch git_exe plugin_dir p p_data s =
      (r, State w2 (st_log s ++ ERun (switch_invocation git_exe plugin_dir p version) res
                             :: map EPrint lines)).
Proof.
  intros Hv Hrun. unfold switch_branch. unfold bind at 1 2, lift. rewrite Hv.
  unfold run. rewrite Hrun.
  destruct res as [c |]; [| now exists (Raise OSError), []].
  destruct (returncode c =? 0); cbn -[Py.getitem]; [now exists (Val tt), [] |].
  destruct (stderr c) as [text |]; [| now exists (Raise UnicodeDecodeError), []].
  unfold bind, lift. rewrite ?Hv.
  destruct (String.eqb text (already_exists_message version)); cbn -[Py.getitem].
  - now exists (Val tt), [].
  - rewrite ?Hv. eexists _, [_]. unfold py_return, emit. cbn [st_world st_log].
    now rewrite <- app_assoc.
Qed.

Lemma switch_branch_already_exists s version c w2 :
  Py.getitem p_data "version" = Val version ->
  subprocess_run (switch_invocation git_exe plugin_dir p version) (st_world s)
    = (Some c, w2) ->
  stderr c = Some (already_exists_message version) ->
  switch_branch git_exe plugin_dir p p_data s =
    (Val tt, State w2 (st_log s
                       ++ [ERun (switch_invocation git_exe plugin_dir p version) (Some c)])).
Proof.
  intros Hv Hrun Herr. unfold switch_branch. unfold bind at 1 2, lift. rewrite Hv.
  unfold run. rewrite Hrun.
  destruct (returncode c =? 0); cbn -[Py.getitem]; [reflexivity |].
  rewrite Herr. unfold bind, lift. rewrite ?Hv. now rewrite String.eqb_refl.
Qed.

Lemma switch_branch_done s version c w2 :
  Py.getitem p_data "version" = Val version ->
  subprocess_run (switch_invocation git_exe plugin_dir p version) (st_world s)
    = (Some c, w2) ->
  switched version c ->
  switch_branch git_exe plugin_dir p p_data s =
    (Val tt, State w2 (st_log s
                       ++ [ERun (switch_invocation git_exe plugin_dir p version) (Some c)])).
Proof.
  intros Hv Hrun [Hrc | Herr].
  - unfold switch_branch. unfold bind at 1 2, lift. rewrite Hv.
    unfold run. rewrite Hrun, Hrc. reflexivity.
  - exact (switch_branch_already_exists s version c w2 Hv Hrun Herr).
Qed.

Lemma switch_branch_not_launched s version w2 :
  Py.getitem p_data "version" = Val version ->
  subprocess_run (switch_invocation git_exe plugin_dir p version) (st_world s)
    = (None, w2) ->
  switch_branch git_exe plugin_dir p p_data s =
    (Raise OSError,
     State w2 (st_log s ++ [ERun (switch_invocation git_exe plugin_dir p version) None])).
Proof.
  intros Hv Hrun. unfold switch_branch. unfold bind at 1 2, lift. rewrite Hv.
  unfold run. now rewrite Hrun.
Qed.


Lemma clone_failure s version location c w1 :
  os_path_exists (os_path_join plugin_dir p) (st_world s) = false ->
  Py.getitem p_data "version" = Val version ->
  Py.getitem p_data "location" = Val (JStr location) ->
  let clone := clone_invocation git_exe plugin_dir p version location in
  subprocess_run clone (st_world s) = (Some c, w1) ->
  returncode c <> 0 ->
  clone_or_reuse git_exe plugin_dir p p_data s =
  (Exit 8,
   State w1 (st_log s ++ [ERun clone (Some c);
                          EPrint ("Failed to clone: " +:+ p +:+ " @ v"
                                  +:+ Py.format version +:+ ".")])).
Proof.
  intros Habsent Hv Hl clone Hrun Hrc. apply Z.eqb_neq in Hrc.
  unfold clone_or_reuse. unfold bind at 1 2. unfold observe.
  rewrite Habsent. unfold bind at 1 2 3, lift. rewrite Hv, Hl. simpl Py.as_arg. cbv iota beta.
  unfold run. fold clone. rewrite Hrun, Hrc. cbn -[Py.getitem].
  unfold bind, lift, print, py_return, emit. rewrite ?Hv. cbn [st_world st_log].
  now rewrite <- app_assoc.
Qed.

Lemma switch_failure s version c w2 text :
  Py.getitem p_data "version" = Val version ->
  let switch := switch_invocation git_exe plugin_dir p version in
  subprocess_run switch (st_world s) = (Some c, w2) ->
  returncode c <> 0 ->
  stderr c = Some text ->
  text <> already_exists_message version ->
  switch_branch git_exe plugin_dir p p_data s =
  (Exit 9,
   State w2 (st_log s ++ [ERun switch (Some c);
                          EPrint ("Failed to switch branch to v"
                                  +:+ Py.format version +:+ ".")])).
Proof.
  intros Hv switch Hrun Hrc Herr Htext.
  apply Z.eqb_neq in Hrc. apply String.eqb_neq in Htext.
  unfold switch_branch. unfold bind at 1 2, lift. rewrite Hv.
  unfold run. fold switch. rewrite Hrun, Hrc. cbn -[Py.getitem].
  rewrite Herr. unfold bind, lift. rewrite ?Hv, Htext. cbn -[Py.getitem].
  unfold py_return, emit. rewrite ?Hv. cbn [st_world st_log].
  now rewrite <- app_assoc.
Qed.

Lemma sync_plugins_app done later s s1 :
  sync_plugins git_exe plugin_dir done s = (Val tt, s1) ->
  sync_plugins git_exe plugin_dir (done ++ later) s =
  sync_plugins git_exe plugin_dir later s1.
Proof.
  revert s. induction done as [| [q q_data] rest IH]; intros s E; simpl in *.
  - now injection E as <-.
  - unfold bind in *.
    destruct (sync_plugin git_exe plugin_dir q q_data s) as [[[] | c | e] s0];
      try discriminate.
    now apply IH.
Qed.

(** The loop body on a plugin without an entry: the clone, and after a
    clone that exits 0 the switch, and no other tool. *)
Lemma sync_plugin_clones
    (version : json) (location : string) (s : state) (res1 : option completed) (w1 : world) :
  os_path_exists (os_path_join plugin_dir p) (st_world s) = false ->
  Py.getitem p_data "version" = Val version ->
  Py.getitem p_data "location" = Val (JStr location) ->
  let branch := "v" +:+ Py.format version in
  let clone :=
    Invocation [git_exe; "clone"; "--depth"; "1"; "--branch"; branch; location; p]
               (Some plugin_dir) true in
  let switch :=
    Invocation [git_exe; "switch"; "-c"; branch]
               (Some (os_path_join plugin_dir p)) true in
  subprocess_run clone (st_world s) = (res1, w1) ->
  (exists r s' rest,
     sync_plugin git_exe plugin_dir p p_data s = (r, s') /\
     st_log s' = (st_log s ++ ERun clone res1 :: rest)%list) /\
  (forall c1 res2 w2,
     res1 = Some c1 -> returncode c1 = 0 ->
     subprocess_run switch w1 = (res2, w2) ->
     exists r lines,
       sync_plugin git_exe plugin_dir p p_data s =
       (r, State w2 (st_log s ++ ERun clone res1 :: ERun switch res2
                              :: map EPrint lines))).
Proof.
  intros Habsent Hv Hl branch clone switch Hrun.
  change clone with (clone_invocation git_exe plugin_dir p version location) in *.
  change switch with (switch_invocation git_exe plugin_dir p version) in *.
  clear clone switch branch.
  destruct (clone_or_reuse_absent s version location res1 w1 Habsent Hv Hl Hrun)
    as (r0 & lines0 & E0 & Hok).
  split.
  - unfold sync_plugin, bind. rewrite E0. destruct r0 as [[] | c | e].
    + destruct (subprocess_run (switch_invocation git_exe plugin_dir p version) w1)
        as [res2 w2] eqn:Hrun2.
      match goal with
    | |- context [switch_branch _ _ _ _ ?st] =>
        destruct (switch_branch_runs st version res2 w2 Hv Hrun2) as (r & lines & E)
    end.
      rewrite E. eexists _, _, _. split; [reflexivity |].
      cbn [st_log]. now rewrite <- app_assoc.
    + eexists _, _, _. split; reflexivity.
    + eexists _, _, _. split; reflexivity.
  - intros c1 res2 w2 Hres Hrc Hrun2. destruct (Hok c1 Hres Hrc) as [-> ->].
    unfold sync_plugin, bind. rewrite E0.
    match goal with
    | |- context [switch_branch _ _ _ _ ?st] =>
        destruct (switch_branch_runs st version res2 w2 Hv Hrun2) as (r & lines & E)
    end.
    rewrite E. exists r, lines. cbn [st_log map]. now rewrite <- app_assoc.
Qed.


(** The loop body on a plugin whose entry exists: [echo], and after an
    [echo] that exits 0 the switch, and no other tool. *)
Lemma sync_plugin_reuses
    (version : json) (s : state) (c1 : completed) (w1 : world)
    (res2 : option completed) (w2 : world) :
  os_path_exists (os_path_join plugin_dir p) (st_world s) = true ->
  Py.getitem p_data "version" = Val version ->
  let echo := Invocation ["echo"; os_path_join plugin_dir p] None false in
  let switch :=
    Invocation [git_exe; "switch"; "-c"; "v" +:+ Py.format version]
               (Some (os_path_join plugin_dir p)) true in
  subprocess_run echo (st_world s) = (Some c1, w1) ->
  returncode c1 = 0 ->
  subprocess_run switch w1 = (res2, w2) ->
  exists r lines,
    sync_plugin git_exe plugin_dir p p_data s =
    (r, State w2 (st_log s ++ ERun echo (Some c1) :: ERun switch res2
                           :: map EPrint lines)).
Proof.
  intros Hpresent Hv echo switch Hrun Hrc Hrun2.
  change echo with (echo_invocation plugin_dir p) in *.
  change switch with (switch_invocation git_exe plugin_dir p version) in *.
  clear echo switch.
  destruct (clone_or_reuse_present s (Some c1) w1 Hpresent Hrun)
    as (r0 & lines0 & E0 & Hok).
  destruct (Hok c1 eq_refl Hrc) as [-> ->].
  unfold sync_plugin, bind. rewrite E0.
  match goal with
    | |- context [switch_branch _ _ _ _ ?st] =>
        destruct (switch_branch_runs st version res2 w2 Hv Hrun2) as (r & lines & E)
    end.
  rewrite E. exists r, lines. cbn [st_log map]. now rewrite <- app_assoc.
Qed.

End Plugins.

(** * The statements at work on the POSIX host *)

Section Runs.

Import Posix Example.

(** **** C1
    The editable install of line 236 exits 1 and [main] still returns 0:
    the status of that run is dropped, against the rule that no failing
    tool is passed over. *)
Theorem editable_install_failure_is_dropped :
  fst (outcome "linux" "3.11.10" editable_install_fails) = Exit 0 /\
  In (ERun (editable_install_invocation pip_exe)
           (Some (Completed 1 (Some "ERROR: not a valid editable requirement"))))
     (snd (outcome "linux" "3.11.10" editable_install_fails)).
Proof.
  split.
  - vm_compute. reflexivity.
  - vm_compute. repeat ((left; reflexivity) || right).
Qed.

(** A provenance file that is there and is no JSON: [main] does not
    return 2, the decoder's error escapes. *)
Lemma undecodable_file_escapes :
  isfile "provenance.json" garbled = true /\
  load "provenance.json" garbled = LoadDecodeError /\
  fst (outcome "linux" "3.11.10" garbled) = Raise JSONDecodeError /\
  fst (outcome "linux" "3.11.10" garbled) <> Exit 2.
Proof. repeat split; try (vm_compute; reflexivity). vm_compute. discriminate. Qed.

(** A record without [mapclient], made with an interpreter one patch
    ahead of the host's: [main] returns 4, nothing is raised. *)
Lemma missing_mapclient_behind_the_gate :
  Py.assoc "mapclient"
    [ ("python", JObj [("version", JStr "3.11.11"); ("platform", JStr "linux")]);
      ("packages", packages);
      ("plugins", plugins) ] = None /\
  fst (outcome "linux" "3.11.10" (recorded record_without_mapclient)) = Exit 4.
Proof. split; vm_compute; reflexivity. Qed.

(** No provenance file, another report's file, and a file that is no
    JSON. *)
Lemma provenance_file_invalid_witness :
  fst (outcome "linux" "3.11.10" missing) = Exit 2 /\
  fst (outcome "linux" "3.11.10" (recorded foreign_record)) = Exit 2 /\
  fst (outcome "linux" "3.11.10" garbled) = Raise JSONDecodeError.
Proof.
  unfold outcome. cbn [fst].
  split; [| split].
  - destruct (@provenance_file_invalid (Posix.host "linux" "3.11.10") args
                (start "linux" "3.11.10" missing)) as (Hmissing & _ & _);
      [vm_compute; reflexivity |].
    rewrite Hmissing; [reflexivity | vm_compute; reflexivity].
  - destruct (@provenance_file_invalid (Posix.host "linux" "3.11.10") args
                (start "linux" "3.11.10" (recorded foreign_record))) as (_ & Hrejected & _);
      [vm_compute; reflexivity |].
    erewrite Hrejected; [reflexivity | vm_compute; reflexivity | vm_compute; reflexivity |].
    left. intros id [= <-]. discriminate.
  - destruct (@provenance_file_invalid (Posix.host "linux" "3.11.10") args
                (start "linux" "3.11.10" garbled)) as (_ & _ & Hgarbled);
      [vm_compute; reflexivity |].
    rewrite Hgarbled; [reflexivity | vm_compute; reflexivity | vm_compute; reflexivity].
Defined.

(** One patch apart is a mismatch, whichever way the expected
    interpreter is found: a legacy record on a darwin host running
    3.11.10 against the built-in 3.11.11, and a record of 3.11.11 on
    linux against a host running 3.11.10. *)
Lemma compatibility_needs_equal_version_and_platform_witness :
  fst (outcome "darwin" "3.11.10" (recorded legacy_record)) = Exit 4 /\
  fst (outcome "linux" "3.11.10" (recorded patch_ahead_record)) = Exit 4.
Proof.
  unfold outcome. cbn [fst]. split.
  - edestruct (@compatibility_needs_equal_version_and_platform
                 (Posix.host "darwin" "3.11.10") args
                 (start "darwin" "3.11.10" (recorded legacy_record)))
      as (b & Hmatch & Hiff & _ & Hmismatch);
      [solve [vm_compute; reflexivity
             | left; repeat split; vm_compute; reflexivity] .. |].
    destruct b.
    + destruct Hiff as [Hiff _]. destruct (Hiff eq_refl) as [Hversions _].
      vm_compute in Hversions. discriminate Hversions.
    + rewrite Hmismatch; reflexivity.
  - edestruct (@compatibility_needs_equal_version_and_platform
                 (Posix.host "linux" "3.11.10") args
                 (start "linux" "3.11.10" (recorded patch_ahead_record)))
      as (b & Hmatch & Hiff & _ & Hmismatch);
      [solve [vm_compute; reflexivity
             | right; split; [vm_compute; discriminate | vm_compute; reflexivity]] .. |].
    destruct b.
    + destruct Hiff as [Hiff _]. destruct (Hiff eq_refl) as [Hversions _].
      vm_compute in Hversions. discriminate Hversions.
    + rewrite Hmismatch; reflexivity.
Defined.

(** A legacy record on linux: there is no default interpreter. *)
Lemma legacy_schema_uses_default_table_witness :
  fst (outcome "linux" "3.11.10" (recorded legacy_record)) = Exit 3.
Proof.
  unfold outcome. cbn [fst].
  edestruct (@legacy_schema_uses_default_table
               (Posix.host "linux" "3.11.10") args
               (start "linux" "3.11.10" (recorded legacy_record)))
    as (_ & Hother & _); [vm_compute; reflexivity .. |].
  rewrite Hother; [reflexivity | vm_compute; reflexivity | vm_compute; discriminate].
Defined.

(** The run that ends with code 4 has printed one line and done nothing
    else. *)
Lemma early_codes_leave_no_trace_witness :
  let s := start "linux" "3.11.10" (recorded patch_ahead_record) in
  let s' := snd (@main (Posix.host "linux" "3.11.10") args s) in
  st_world s' = st_world s /\
  exists lines, st_log s' = (st_log s ++ map EPrint lines)%list.
Proof.
  intros s s'.
  apply (@early_codes_leave_no_trace (Posix.host "linux" "3.11.10") args s s' 4).
  - reflexivity.
  - lia.
Defined.


(** A record with nothing but the sentinel and a version raises; one
    without [mapclient], on the host it was made on, raises as well. *)
Lemma missing_entries_raise_witness :
  fst (outcome "linux" "3.11.10" (recorded bare_record))
    = Raise (KeyError "software_info") /\
  fst (outcome "linux" "3.11.11" (recorded record_without_mapclient))
    = Raise (KeyError "mapclient").
Proof.
  unfold outcome. cbn [fst]. split.
  - edestruct (@missing_entries_raise (Posix.host "linux" "3.11.10") args
                 (start "linux" "3.11.10" (recorded bare_record)))
      as (Hbare & _ & _); [vm_compute; reflexivity .. |].
    rewrite Hbare; [reflexivity | vm_compute; reflexivity].
  - edestruct (@missing_entries_raise (Posix.host "linux" "3.11.11") args
                 (start "linux" "3.11.11" (recorded record_without_mapclient)))
      as (_ & _ & Hincomplete); [vm_compute; reflexivity .. |].
    destruct (Hincomplete software_without_mapclient) with
      (r := fst (@main (Posix.host "linux" "3.11.11") args
                   (start "linux" "3.11.11" (recorded record_without_mapclient))))
      (s' := snd (@main (Posix.host "linux" "3.11.11") args
                    (start "linux" "3.11.11" (recorded record_without_mapclient))))
      as [[e He] | [He | [He | He]]].
    + vm_compute. reflexivity.
    + left. intros x. vm_compute. discriminate.
    + reflexivity.
    + vm_compute. reflexivity.
    + vm_compute in He. discriminate He.
    + vm_compute in He. discriminate He.
    + vm_compute in He. discriminate He.
Defined.

End Runs.

(** * Further properties *)

(** ** The tool locator *)

Section Which.

Context `{host : Host}.

Lemma first_accessible_some names w name :
  first_accessible names w = Some name ->
  exists before after,
    names = (before ++ name :: after)%list /\
    _access_check name w = true /\
    forall n, In n before -> _access_check n w = false.
Proof.
  induction names as [| n rest IH]; simpl; [discriminate |].
  destruct (_access_check n w) eqn:Hn.
  - intros [= <-]. exists [], rest. repeat split; [exact Hn | intros ? []].
  - intros E. destruct (IH E) as (before & after & -> & Hacc & Hbefore).
    exists (n :: before), after. repeat split; [exact Hacc |].
    intros n' [<- | Hin]; [exact Hn | now apply Hbefore].
Qed.

Lemma first_accessible_none names w :
  first_accessible names w = None ->
  forall n, In n names -> _access_check n w = false.
Proof.
  induction names as [| n rest IH]; simpl; [intros _ ? [] |].
  destruct (_access_check n w) eqn:Hn; [discriminate |].
  intros E n' [<- | Hin]; [exact Hn | now apply IH].
Qed.

Lemma first_accessible_app a b w :
  first_accessible (a ++ b) w =
  match first_accessible a w with
  | Some name => Some name
  | None => first_accessible b w
  end.
Proof.
  induction a as [| n rest IH]; simpl; [reflexivity |].
  destruct (_access_check n w); [reflexivity | exact IH].
Qed.

Lemma search_path_searched files seen path w :
  search_path files seen path w =
  first_accessible (candidates files (searched seen path)) w.
Proof.
  revert seen. induction path as [| directory rest IH]; intros seen; simpl; [reflexivity |].
  destruct (decide (os_path_normcase directory ∈ seen)); [apply IH |].
  unfold candidates. simpl. rewrite first_accessible_app.
  destruct (first_accessible (map (os_path_join directory) files) w); [reflexivity |].
  apply IH.
Qed.

Lemma searched_sublist seen path : sublist (searched seen path) path.
Proof.
  revert seen. induction path as [| directory rest IH]; intros seen; simpl.
  - constructor.
  - destruct (decide (os_path_normcase directory ∈ seen)); constructor; apply IH.
Qed.

Lemma searched_fresh seen path d :
  In d (searched seen path) -> os_path_normcase d ∉ seen.
Proof.
  revert seen. induction path as [| directory rest IH]; intros seen; simpl; [intros [] |].
  destruct (decide (os_path_normcase directory ∈ seen)) as [Hin | Hout].
  - apply IH.
  - intros [<- | Hd]; [exact Hout |].
    apply IH in Hd. set_solver.
Qed.

Lemma searched_nodup seen path :
  NoDup (map os_path_normcase (searched seen path)).
Proof.
  revert seen. induction path as [| directory rest IH]; intros seen; simpl.
  - constructor.
  - destruct (decide (os_path_normcase directory ∈ seen)); [apply IH |].
    simpl. constructor; [| apply IH].
    intros Hin. apply list_elem_of_In, in_map_iff in Hin.
    destruct Hin as (d & Heq & Hd). apply searched_fresh in Hd. set_solver.
Qed.

Lemma searched_covers seen path d :
  In d path ->
  os_path_normcase d ∈ seen \/
  exists d0, In d0 (searched seen path) /\ os_path_normcase d0 = os_path_normcase d.
Proof.
  revert seen. induction path as [| directory rest IH]; intros seen; simpl; [intros [] |].
  intros [<- | Hd].
  - destruct (decide (os_path_normcase directory ∈ seen)); [now left |].
    right. exists directory. split; [now left | reflexivity].
  - destruct (decide (os_path_normcase directory ∈ seen)) as [Hin | Hout].
    + apply (IH _ Hd).
    + destruct (IH ({[os_path_normcase directory]} ∪ seen) Hd) as [Hseen | (d0 & Hd0 & Heq)].
      * apply elem_of_union in Hseen as [Hsame | Hseen]; [| now left].
        apply elem_of_singleton in Hsame.
        right. exists directory. split; [now left | now symmetry].
      * right. exists d0. split; [now right | exact Heq].
Qed.

(** The result of a search is a file that exists, can be executed and is
    no directory. *)
Lemma search_path_accessible files seen path w name :
  search_path files seen path w = Some name -> _access_check name w = true.
Proof.
  rewrite search_path_searched. intros E.
  now destruct (first_accessible_some _ _ _ E) as (_ & _ & _ & Hacc & _).
Qed.

(** **** X1
    Whatever [_which] returns exists, is executable and is not a
    directory: on every platform, for bare and for directory-qualified
    commands. *)
Theorem which_returns_an_executable_file (cmd : string) (path : option string)
    (w : world) (name : string) :
  _which cmd path w = Some name ->
  os_path_exists name w = true /\
  os_access_x name w = true /\
  os_path_isdir name w = false.
Proof.
  intros E.
  assert (Hacc : _access_check name w = true).
  { unfold _which in E.
    destruct (negb (String.eqb (os_path_dirname cmd) "")).
    - now destruct (first_accessible_some _ _ _ E) as (_ & _ & _ & Hacc & _).
    - destruct (String.eqb _ ""); [discriminate |].
      exact (search_path_accessible _ _ _ _ _ E). }
  unfold _access_check in Hacc.
  apply andb_true_iff in Hacc as [Hacc Hdir]. apply andb_true_iff in Hacc as [Hex Hx].
  apply negb_true_iff in Hdir. auto.
Qed.

(** **** X2
    A bare command off win32: with an empty search path (also when
    [PATH] is set and empty, [os.defpath] is then not used) nothing is
    found; otherwise the directories of the path are tried in their
    order, each normalised form once, and the first candidate that is an
    executable file is the answer. *)
Theorem which_tries_each_directory_once (cmd : string) (path : option string) (w : world) :
  sys_platform <> "win32" ->
  os_path_dirname cmd = "" ->
  let entries := Str.split os_pathsep (effective_path path) in
  (effective_path path = "" -> _which cmd path w = None) /\
  (effective_path path <> "" ->
   exists dirs,
     sublist dirs entries /\
     NoDup (map os_path_normcase dirs) /\
     (forall d, In d entries ->
        exists d0, In d0 dirs /\ os_path_normcase d0 = os_path_normcase d) /\
     _which cmd path w =
     first_accessible (map (fun d => os_path_join d cmd) dirs) w).
Proof.
  intros Hplatform Hbare entries.
  apply String.eqb_neq in Hplatform.
  assert (Hwhich : _which cmd path w =
                   if String.eqb (effective_path path) "" then None
                   else search_path [cmd] ∅ entries w).
  { unfold _which. rewrite Hbare, Hplatform. reflexivity. }
  split.
  - intros Hempty. rewrite Hwhich, Hempty. reflexivity.
  - intros Hsome. apply String.eqb_neq in Hsome. rewrite Hwhich, Hsome.
    exists (searched ∅ entries). split; [apply searched_sublist |].
    split; [apply searched_nodup |]. split.
    + intros d Hd. destruct (searched_covers ∅ entries d Hd) as [Hin | Hex]; [| exact Hex].
      set_solver.
    + rewrite search_path_searched. unfold candidates.
      replace (flat_map (fun directory => map (os_path_join directory) [cmd])
                 (searched ∅ entries))
        with (map (fun d => os_path_join d cmd) (searched ∅ entries)); [reflexivity |].
      induction (searched ∅ entries) as [| d rest IH]; simpl; [reflexivity |].
      now rewrite IH.
Qed.

Lemma search_first_hit cmd w :
  (forall d, os_path_normcase d = d) ->
  forall path (seen : gset string),
    (forall d, d ∈ seen -> _access_check (os_path_join d cmd) w = false) ->
    match search_path [cmd] seen path w with
    | Some name =>
        exists before d after,
          path = (before ++ d :: after)%list /\
          name = os_path_join d cmd /\
          forall d', In d' before -> _access_check (os_path_join d' cmd) w = false
    | None => forall d, In d path -> _access_check (os_path_join d cmd) w = false
    end.
Proof.
  intros Hid. induction path as [| directory rest IH]; intros seen Hseen; simpl.
  - intros d [].
  - rewrite Hid.
    destruct (decide (directory ∈ seen)) as [Hin | Hout].
    + specialize (IH seen Hseen).
      destruct (search_path [cmd] seen rest w) as [name |].
      * destruct IH as (before & d & after & -> & -> & Hbefore).
        exists (directory :: before), d, after. repeat split.
        intros d' [<- | Hd']; [now apply Hseen | now apply Hbefore].
      * intros d [<- | Hd]; [now apply Hseen | now apply IH].
    + destruct (_access_check (os_path_join directory cmd) w) eqn:Hacc.
      * exists [], directory, rest. repeat split. intros d' [].
      * assert (Hseen' : forall d, d ∈ ({[directory]} ∪ seen : gset string) ->
                                   _access_check (os_path_join d cmd) w = false).
        { intros d Hd. apply elem_of_union in Hd as [Hd | Hd]; [| now apply Hseen].
          apply elem_of_singleton in Hd. now subst d. }
        specialize (IH _ Hseen').
        destruct (search_path [cmd] ({[directory]} ∪ seen) rest w) as [name |].
        -- destruct IH as (before & d & after & -> & -> & Hbefore).
           exists (directory :: before), d, after. repeat split.
           intros d' [<- | Hd']; [exact Hacc | now apply Hbefore].
        -- intros d [<- | Hd]; [exact Hacc | now apply IH].
Qed.

(** **** X3
    Where normalising a directory name leaves it as it is (POSIX), a bare
    command is answered by the first directory of the search path that
    holds it as an executable file: every directory before it does not;
    and the answer is [None] only when no directory of the path does. *)
Theorem which_first_directory_wins (cmd : string) (path : option string) (w : world) :
  sys_platform <> "win32" ->
  os_path_dirname cmd = "" ->
  (forall d, os_path_normcase d = d) ->
  effective_path path <> "" ->
  let entries := Str.split os_pathsep (effective_path path) in
  match _which cmd path w with
  | Some name =>
      exists before d after,
        entries = (before ++ d :: after)%list /\
        name = os_path_join d cmd /\
        forall d', In d' before -> _access_check (os_path_join d' cmd) w = false
  | None => forall d, In d entries -> _access_check (os_path_join d cmd) w = false
  end.
Proof.
  intros Hplatform Hbare Hid Hsome entries.
  apply String.eqb_neq in Hplatform. apply String.eqb_neq in Hsome.
  assert (Hwhich : _which cmd path w = search_path [cmd] ∅ entries w).
  { unfold _which. rewrite Hbare, Hplatform. simpl negb. cbv iota.
    fold (effective_path path). now rewrite Hsome. }
  rewrite Hwhich. apply (search_first_hit cmd w Hid entries ∅).
  intros d Hd. set_solver.
Qed.

End Which.

Section WhichWin32.

Context `{host : Host}.

Lemma existsb_eqb_In (x : string) (l : list string) :
  existsb (String.eqb x) l = true <-> In x l.
Proof.
  rewrite existsb_exists. split.
  - intros (y & Hy & Heq). apply String.eqb_eq in Heq. now subst y.
  - intros Hx. exists x. split; [exact Hx | apply String.eqb_refl].
Qed.

Lemma endswith_empty s : Str.endswith "" s = true.
Proof. induction s as [| c s IH]; simpl; [reflexivity | exact IH]. Qed.

Lemma split_go_nonempty sep cur s : Str.split_go sep cur s <> [].
Proof.
  revert cur. induction s as [| c s IH]; intros cur; simpl; [discriminate |].
  destruct (Ascii.eqb c sep); [discriminate | apply IH].
Qed.

(** **** X4
    On win32 a bare command is looked up in the current directory first,
    ahead of every directory of the search path, but only when the search
    path does not name the current directory itself: when it does, the
    directories are searched as they stand and the current directory gets
    no precedence. *)
Theorem which_current_directory_on_win32 (cmd : string) (path : option string) (w : world) :
  sys_platform = "win32" ->
  os_path_dirname cmd = "" ->
  effective_path path <> "" ->
  let entries := Str.split os_pathsep (effective_path path) in
  let files := pathext_files cmd in
  (~ In os_curdir entries ->
   forall name,
     first_accessible (map (os_path_join os_curdir) files) w = Some name ->
     _which cmd path w = Some name) /\
  (In os_curdir entries ->
   _which cmd path w = first_accessible (candidates files (searched ∅ entries)) w).
Proof.
  intros Hplatform Hbare Hsome entries files.
  apply String.eqb_eq in Hplatform. apply String.eqb_neq in Hsome.
  assert (Hwhich : _which cmd path w =
                   search_path files ∅
                     (if negb (existsb (String.eqb os_curdir) entries)
                      then os_curdir :: entries else entries) w).
  { unfold _which. rewrite Hbare, Hplatform. simpl negb. cbv iota.
    fold (effective_path path). rewrite Hsome. reflexivity. }
  split.
  - intros Hnot name Hname.
    assert (Hex : existsb (String.eqb os_curdir) entries = false).
    { destruct (existsb (String.eqb os_curdir) entries) eqn:E; [| reflexivity].
      apply existsb_eqb_In in E. now destruct Hnot. }
    rewrite Hwhich, Hex. simpl.
    destruct (decide (os_path_normcase os_curdir ∈ (∅ : gset string))) as [Hin | _];
      [set_solver |].
    now rewrite Hname.
  - intros Hin. apply existsb_eqb_In in Hin. rewrite Hwhich, Hin. simpl negb. cbv iota.
    apply search_path_searched.
Qed.

(** **** X5
    The candidate names tried on win32 are never none.  An empty entry
    in [PATHEXT] (the variable unset or empty, a doubled or trailing
    separator) matches every command (lower-casing the empty string
    gives the empty string), so the command is then tried as it is and no
    extension is ever appended. *)
Theorem pathext_candidates (cmd : string) :
  pathext_files cmd <> [] /\
  (str_lower "" = "" ->
   In "" (Str.split os_pathsep (default "" (environ_get "PATHEXT"))) ->
   pathext_files cmd = [cmd]).
Proof.
  unfold pathext_files. split.
  - destruct (existsb _ _); [discriminate |].
    pose proof (split_go_nonempty os_pathsep "" (default "" (environ_get "PATHEXT"))) as Hne.
    unfold Str.split. destruct (Str.split_go _ _ _); [now destruct Hne | discriminate].
  - intros Hlower Hin.
    assert (Hex : existsb (fun ext => Str.endswith (str_lower ext) (str_lower cmd))
                    (Str.split os_pathsep (default "" (environ_get "PATHEXT"))) = true).
    { apply existsb_exists. exists "". split; [exact Hin |].
      rewrite Hlower. apply endswith_empty. }
    now rewrite Hex.
Qed.

End WhichWin32.

(** ** What a return code of [main] tells *)

Section Codes.

Context `{host : Host}.

Lemma ends_is_provenance P path :
  ends_in P anything (_is_map_client_provenance_file path).
Proof. unfold _is_map_client_provenance_file. ends_walk ltac:(fail). Qed.

(** [main] past the setup directory check. *)
Lemma ends_past_setup_dir args :
  ends_in (fun c => c = 0 \/ 2 <= c <= 10) nothing
    (let* is_provenance := _is_map_client_provenance_file (provenance_file args) in
     (if negb is_provenance then return_code "PROVENANCE_FILE_INVALID" else ret tt) >>
     let* content := json_load (provenance_file args) in
     reproduce args content).
Proof.
  eapply (ends_bind _ anything); [apply ends_is_provenance | intros is_provenance _].
  eapply (ends_bind _ anything).
  { destruct (negb is_provenance).
    - erewrite return_code_find by reflexivity. apply ends_py_return. right. lia.
    - apply ends_ret. exact I. }
  intros _ _. eapply (ends_bind _ anything); [apply ends_json_load | intros content _].
  unfold reproduce.
  eapply (ends_bind _ anything).
  { eapply ends_weaken; [apply ends_select_python_info | intros c <-; right; lia | ].
    intros a _. exact I. }
  intros [software_info python_info] _.
  eapply (ends_bind _ anything).
  { eapply ends_weaken; [apply ends_check_platform | intros c <-; right; lia | auto]. }
  intros _ _. eapply (ends_bind _ anything).
  { eapply ends_weaken; [apply ends_locate_git | intros c <-; right; lia | auto]. }
  intros git_exe _.
  eapply ends_weaken; [apply late_after_git | | auto].
  intros c [-> | Hc]; [now left | right; lia].
Qed.

Lemma ends_main args : ends_in (fun c => 0 <= c <= 10) nothing (main args).
Proof.
  unfold main.
  eapply (ends_bind _ anything); [apply ends_observe | intros is_dir _].
  eapply (ends_bind _ anything).
  { destruct (negb is_dir).
    - erewrite return_code_find by reflexivity. apply ends_py_return. lia.
    - apply ends_ret. exact I. }
  intros _ _. eapply ends_weaken; [apply ends_past_setup_dir | | auto].
  intros c [-> | Hc]; lia.
Qed.

(** **** X6
    [main] never ends without a return statement: whenever it does not
    raise, it returns one of the eleven codes 0 to 10. *)
Theorem main_returns_a_code_from_0_to_10 (args : Args) (s s' : state) (r : result unit) :
  main args s = (r, s') ->
  (exists c, r = Exit c /\ 0 <= c <= 10) \/ (exists e, r = Raise e).
Proof.
  intros E. pose proof (ends_main args _ _ _ E) as Hend.
  destruct r as [a | c | e]; simpl in Hend.
  - exact (False_ind _ Hend).
  - left. now exists c.
  - right. now exists e.
Qed.

Lemma main_without_setup_dir args s :
  os_path_isdir (setup_dir args) (st_world s) = false ->
  main args s = (Exit 1, s).
Proof. intros Hdir. unfold main, bind at 1 2, observe. now rewrite Hdir. Qed.

(** **** X7
    Code 1 means that the setup directory is missing, and nothing else:
    [main] returns 1 when [setup_dir] is not a directory, whatever the
    provenance file and the rest of the host are, having done nothing;
    and it returns 1 in no other case. *)
Theorem code_1_is_the_setup_directory (args : Args) (s : state) :
  (os_path_isdir (setup_dir args) (st_world s) = false ->
   main args s = (Exit 1, s)) /\
  (forall s', main args s = (Exit 1, s') ->
              os_path_isdir (setup_dir args) (st_world s) = false).
Proof.
  split.
  - apply main_without_setup_dir.
  - intros s' E. destruct (os_path_isdir (setup_dir args) (st_world s)) eqn:Hdir;
      [| reflexivity].
    rewrite (main_setup_dir_ok args s Hdir) in E.
    pose proof (ends_past_setup_dir args _ _ _ E) as Hend. simpl in Hend.
    destruct Hend as [Hend | Hend]; [discriminate Hend | lia].
Qed.

Lemma is_provenance_keeps_state path s r s' :
  _is_map_client_provenance_file path s = (r, s') -> s' = s.
Proof.
  unfold _is_map_client_provenance_file, bind, observe, json_load, lift, ret.
  destruct (negb (os_path_isfile path (st_world s))); [now intros [= _ <-] |].
  destruct (json_load_file path (st_world s)) as [| | content]; try now intros [= _ <-].
  destruct (Py.contains "id" content) as [[] | |]; try now intros [= _ <-].
  simpl negb. cbv iota.
  destruct (Py.getitem content "id") as [id | |]; try now intros [= _ <-].
  destruct (negb (Py.eq_str id _)); now intros [= _ <-].
Qed.

Lemma json_load_keeps_state path s r s' : json_load path s = (r, s') -> s' = s.
Proof.
  unfold json_load. destruct (json_load_file path (st_world s)); now intros [= _ <-].
Qed.

Lemma select_python_info_exit content s c s' :
  select_python_info content s = (Exit c, s') -> c = 3 /\ sys_platform <> "darwin".
Proof.
  unfold select_python_info, bind, lift, ret.
  destruct (Py.getitem content "software_info") as [software_info | c0 | e] eqn:E1;
    [| now destruct (getitem_pure _ _ _ E1) | discriminate].
  destruct (Py.getitem content "version") as [schema | c0 | e] eqn:E2;
    [| now destruct (getitem_pure _ _ _ E2) | discriminate].
  destruct (Py.version schema) as [recorded | c0 | e] eqn:E3;
    [| now destruct (version_pure _ _ E3) | discriminate].
  destruct (Py.version (JStr "0.1.0")) as [legacy | c0 | e] eqn:E4;
    [| now destruct (version_pure _ _ E4) | discriminate].
  destruct (bool_decide (recorded = legacy)).
  - destruct (String.eqb sys_platform "darwin") eqn:Hp; [discriminate |].
    apply String.eqb_neq in Hp. cbn. intros [= <- _]. now split.
  - destruct (Py.getitem software_info "python") as [python_info | c0 | e] eqn:E5;
      [discriminate | now destruct (getitem_pure _ _ _ E5) | discriminate].
Qed.

Lemma locate_git_exit s c s' :
  locate_git s = (Exit c, s') -> c = 5 /\ _which "git" None (st_world s) = None.
Proof.
  unfold locate_git, bind, observe.
  destruct (_which "git" None (st_world s)); [discriminate |].
  cbn. intros [= <- _]. now split.
Qed.

(** **** X8
    What the codes 2, 3 and 5 tell about the host [main] started on.
    Code 2: the setup directory is there and the loader said no.  Code 3:
    the platform is not darwin.  Code 5: the locator finds no [git] in
    the world as it was at the start. *)
Theorem early_codes_name_their_cause (args : Args) (s s' : state) (c : Z) :
  main args s = (Exit c, s') ->
  (c = 2 ->
   os_path_isdir (setup_dir args) (st_world s) = true /\
   _is_map_client_provenance_file (provenance_file args) s = (Val false, s)) /\
  (c = 3 -> sys_platform <> "darwin") /\
  (c = 5 -> _which "git" None (st_world s) = None).
Proof.
  intros E.
  destruct (os_path_isdir (setup_dir args) (st_world s)) eqn:Hdir.
  2: { rewrite (main_without_setup_dir args s Hdir) in E. injection E as <- <-.
       repeat split; discriminate. }
  rewrite (main_setup_dir_ok args s Hdir) in E.
  destruct (bind_inv _ _ _ _ _ E) as [(ok & s1 & E1 & E2) | [(c' & E1 & _) | (e & _ & Habs)]];
    [| now destruct (ends_is_provenance never _ _ _ _ E1) | discriminate].
  pose proof (is_provenance_keeps_state _ _ _ _ E1) as ->.
  destruct ok; simpl in E2.
  2: { unfold bind in E2. cbn in E2. injection E2 as <- <-.
       repeat split; try discriminate. exact E1. }
  unfold bind at 1 in E2. unfold ret at 1 in E2.
  destruct (bind_inv _ _ _ _ _ E2) as [(content & s2 & E3 & E4) | [(c' & E3 & _) | (e & _ & Habs)]];
    [| now destruct (ends_json_load never _ _ _ _ E3) | discriminate].
  pose proof (json_load_keeps_state _ _ _ _ E3) as ->.
  unfold reproduce in E4.
  destruct (bind_inv _ _ _ _ _ E4) as [([sw info] & s3 & E5 & E6) | [(c' & E5 & [= ->]) | (e & _ & Habs)]];
    [| | discriminate].
  2: { destruct (select_python_info_exit _ _ _ _ E5) as [-> Hp].
       repeat split; try discriminate. intros _. exact Hp. }
  destruct (quiet_select_python_info _ _ _ _ E5) as [W3 _].
  destruct (bind_inv _ _ _ _ _ E6) as [([] & s4 & E7 & E8) | [(c' & E7 & [= ->]) | (e & _ & Habs)]];
    [| | discriminate].
  2: { pose proof (ends_check_platform _ _ _ _ E7) as Hc. simpl in Hc. subst.
       repeat split; discriminate. }
  destruct (quiet_check_platform _ _ _ _ E7) as [W4 _].
  destruct (bind_inv _ _ _ _ _ E8) as [(git & s5 & E9 & E10) | [(c' & E9 & [= ->]) | (e & _ & Habs)]];
    [| | discriminate].
  2: { destruct (locate_git_exit _ _ _ E9) as [-> Hgit].
       repeat split; try discriminate. intros _. now rewrite W4, W3 in Hgit. }
  pose proof (late_after_git args git sw _ _ _ E10) as Hlate. simpl in Hlate.
  unfold late in Hlate. split; [| split]; intros ->; lia.
Qed.

End Codes.

(** ** The code and the last tool *)

Section LastTool.

Context `{host : Host}.

Lemma traced_bind {A B} (m : M A) (k : A -> M B) :
  traced m -> (forall a, traced (k a)) -> traced (bind m k).
Proof.
  intros Hm Hk s c s' E Hc.
  destruct (bind_inv _ _ _ _ _ E) as [(a & s1 & E1 & E2) | [(c' & E1 & [= ->]) | (e & _ & Habs)]].
  - exact (Hk a _ _ _ E2 Hc).
  - exact (Hm _ _ _ E1 Hc).
  - discriminate.
Qed.

Lemma traced_of_ends {A} (P : Z -> Prop) (V : A -> Prop) (m : M A) :
  ends_in P V m -> (forall c, P c -> ~ late c) -> traced m.
Proof.
  intros Hm HP s c s' E Hc. now destruct (HP c (Hm _ _ _ E)).
Qed.

Lemma traced_silent {A} (V : A -> Prop) (m : M A) : ends_in never V m -> traced m.
Proof. intros Hm. apply (traced_of_ends never V m Hm). intros c Hn. exact (False_ind _ Hn). Qed.

End LastTool.

(** Closes a stage that has ended with a code after the tool [done]. *)
Ltac traced_close E s lines :=
  injection E as <- <-;
  exists (st_log s); eexists _, _, lines; split;
  [cbn [st_log st_world emit map]; try rewrite <- app_assoc; reflexivity |];
  match goal with
  | Erc : (returncode _ =? 0) = false |- _ =>
      apply Z.eqb_neq in Erc; split; [discriminate | intros Hz; now destruct Erc]
  | Erc : (returncode _ =? 0) = true |- _ =>
      apply Z.eqb_eq in Erc; split; [intros _; exact Erc | reflexivity]
  end.

(** Takes the next [lift] of a stage apart: a value, or an exception;
    [pure_r] says that it is no return of [main]. *)
Ltac lifted E r pure_r v Hr :=
  destruct r as [v | ? | ?] eqn:Hr;
  [ | exfalso; exact (pure_r _ Hr) | discriminate E ].

Section LastToolStages.

Context `{host : Host}.

Lemma traced_create_virtualenv args : traced (create_virtualenv args).
Proof.
  intros s c s' E _. unfold create_virtualenv, bind, run in E.
  erewrite return_code_find in E by reflexivity. unfold py_return, ret in E.
  destruct (subprocess_run _ (st_world s)) as [[done |] w'] eqn:Hrun; [| discriminate E].
  destruct (returncode done =? 0) eqn:Erc; cbn [negb] in E; [discriminate E |].
  traced_close E s (@nil string).
Qed.

Lemma traced_install_requirements args : traced (install_requirements args).
Proof.
  intros s c s' E _. unfold install_requirements, bind, lift, run in E.
  erewrite return_code_find in E by reflexivity. unfold py_return, ret in E.
  lifted E (_get_virtual_environment_pip (setup_dir args) venv_directory_name)
    (get_exe_part_pure (setup_dir args) venv_directory_name "pip") pip Hpip.
  destruct (subprocess_run _ (st_world s)) as [[done |] w'] eqn:Hrun; [| discriminate E].
  destruct (returncode done =? 0) eqn:Erc; cbn [negb] in E; [discriminate E |].
  traced_close E s (@nil string).
Qed.

Lemma traced_activate args plugin_dir : traced (activate args plugin_dir).
Proof.
  intros s c s' E _. unfold activate, bind, lift, run in E.
  erewrite return_code_find in E by reflexivity. unfold py_return in E.
  lifted E (_get_virtual_environment_map_client_use (setup_dir args) venv_directory_name)
    (get_exe_part_pure (setup_dir args) venv_directory_name "mapclient_use") exe Hexe.
  destruct (subprocess_run _ (st_world s)) as [[done |] w'] eqn:Hrun; [| discriminate E].
  destruct (returncode done =? 0) eqn:Erc; cbn [negb] in E;
    traced_close E s (@nil string).
Qed.

Lemma traced_clone_or_reuse git_exe plugin_dir p p_data :
  traced (clone_or_reuse git_exe plugin_dir p p_data).
Proof.
  intros s c s' E _. unfold clone_or_reuse in E. unfold bind at 1 2 in E.
  unfold observe in E.
  erewrite return_code_find in E by reflexivity.
  destruct (os_path_exists (os_path_join plugin_dir p) (st_world s)).
  - unfold run in E.
    destruct (subprocess_run _ (st_world s)) as [[done |] w'] eqn:Hrun; [| discriminate E].
    destruct (returncode done =? 0) eqn:Erc; cbn [negb] in E; [discriminate E |].
    unfold bind, lift, print, py_return in E.
    lifted E (Py.getitem p_data "version") (getitem_pure p_data "version") version Hv.
    traced_close E s [("Failed to clone: " +:+ p +:+ " @ v" +:+ Py.format version +:+ ".")].
  - unfold bind at 1 2 3 in E. unfold lift at 1 2 3 in E.
    lifted E (Py.getitem p_data "version") (getitem_pure p_data "version") version Hv.
    lifted E (Py.getitem p_data "location") (getitem_pure p_data "location") location Hl.
    lifted E (Py.as_arg location) (as_arg_pure location) url Hurl.
    unfold run in E.
    destruct (subprocess_run _ (st_world s)) as [[done |] w'] eqn:Hrun; [| discriminate E].
    destruct (returncode done =? 0) eqn:Erc; cbn [negb] in E; [discriminate E |].
    unfold bind, lift, print, py_return in E. rewrite ?Hv in E.
    traced_close E s [("Failed to clone: " +:+ p +:+ " @ v" +:+ Py.format version +:+ ".")].
Qed.

Lemma traced_switch_branch git_exe plugin_dir p p_data :
  traced (switch_branch git_exe plugin_dir p p_data).
Proof.
  intros s c s' E _. unfold switch_branch in E. unfold bind at 1 2 in E.
  unfold lift at 1 in E.
  erewrite return_code_find in E by reflexivity.
  lifted E (Py.getitem p_data "version") (getitem_pure p_data "version") version Hv.
  unfold run in E.
  destruct (subprocess_run _ (st_world s)) as [[done |] w'] eqn:Hrun; [| discriminate E].
  destruct (returncode done =? 0) eqn:Erc; cbn [negb] in E; [discriminate E |].
  destruct (stderr done) as [text |]; [| discriminate E].
  unfold bind, lift, print, py_return, ret in E. rewrite ?Hv in E.
  destruct (negb (String.eqb text (already_exists_message version))); [| discriminate E].
  traced_close E s [("Failed to switch branch to v" +:+ Py.format version +:+ ".")].
Qed.

Lemma traced_sync_plugins git_exe plugin_dir items :
  traced (sync_plugins git_exe plugin_dir items).
Proof.
  induction items as [| [p p_data] rest IH]; simpl.
  - apply (traced_silent anything). apply ends_ret. exact I.
  - apply traced_bind; [| intros _; exact IH].
    unfold sync_plugin. apply traced_bind;
      [apply traced_clone_or_reuse | intros _; apply traced_switch_branch].
Qed.

Lemma traced_provision args git_exe requirements plugin_requirements :
  traced (provision args git_exe requirements plugin_requirements).
Proof.
  unfold provision.
  apply traced_bind; [apply traced_create_virtualenv | intros _].
  apply traced_bind;
    [apply (traced_silent anything), ends_write_requirements | intros _].
  apply traced_bind; [apply traced_install_requirements | intros pip].
  apply traced_bind;
    [apply (traced_silent anything), ends_ensure_plugin_dir | intros plugin_dir].
  apply traced_bind;
    [apply (traced_silent anything), ends_lift; auto with ends | intros items].
  apply traced_bind; [apply traced_sync_plugins | intros _].
  apply traced_bind;
    [apply (traced_silent anything), ends_temporary_install | intros _].
  apply traced_activate.
Qed.

(** **** X9
    When [main] returns 0 or one of the codes 6 to 10, the last thing it
    did, apart from printing, was to run a tool that could be launched;
    and the code is 0 exactly when that tool exited with status 0.  So 0
    is never returned after a failing last tool, and 6 to 10 never after
    a last tool that succeeded. *)
Theorem late_code_reflects_last_tool (args : Args) (s s' : state) (c : Z) :
  main args s = (Exit c, s') ->
  c = 0 \/ 6 <= c <= 10 ->
  exists before inv done lines,
    st_log s' = (before ++ ERun inv (Some done) :: map EPrint lines)%list /\
    (c = 0 <-> returncode done = 0).
Proof.
  revert s c s'. change (traced (main args)). unfold main, reproduce.
  apply traced_bind; [apply (traced_silent anything), ends_observe | intros is_dir].
  apply traced_bind.
  { destruct (negb is_dir).
    - erewrite return_code_find by reflexivity.
      apply (traced_of_ends (eq 1) anything); [now apply ends_py_return |].
      intros c <- [Hc | Hc]; [discriminate | lia].
    - apply (traced_silent anything), ends_ret. exact I. }
  intros _. apply traced_bind;
    [apply (traced_silent anything), ends_is_provenance | intros is_provenance].
  apply traced_bind.
  { destruct (negb is_provenance).
    - erewrite return_code_find by reflexivity.
      apply (traced_of_ends (eq 2) anything); [now apply ends_py_return |].
      intros c <- [Hc | Hc]; [discriminate | lia].
    - apply (traced_silent anything), ends_ret. exact I. }
  intros _. apply traced_bind;
    [apply (traced_silent anything), ends_json_load | intros content].
  apply traced_bind.
  { eapply traced_of_ends; [apply ends_select_python_info |].
    intros c <- [Hc | Hc]; [discriminate | lia]. }
  intros [software_info python_info]. apply traced_bind.
  { eapply traced_of_ends; [apply ends_check_platform |].
    intros c <- [Hc | Hc]; [discriminate | lia]. }
  intros _. apply traced_bind.
  { eapply traced_of_ends; [apply ends_locate_git |].
    intros c <- [Hc | Hc]; [discriminate | lia]. }
  intros git_exe. apply traced_bind.
  { apply (traced_silent anything), ends_assemble_requirements. }
  intros [requirements plugin_requirements]. apply traced_provision.
Qed.

End LastToolStages.

(** ** What [main] itself writes and creates *)

Section Emits.

Context `{host : Host}.

Variable P : event -> Prop.

Lemma emits_bind {A B} (m : M A) (k : A -> M B) :
  emits P m -> (forall a, emits P (k a)) -> emits P (bind m k).
Proof.
  intros Hm Hk s r s' E.
  destruct (bind_inv _ _ _ _ _ E) as [(a & s1 & E1 & E2) | [(c & E1 & ->) | (e & E1 & ->)]].
  - destruct (Hm _ _ _ E1) as (ev1 & L1 & F1). destruct (Hk a _ _ _ E2) as (ev2 & L2 & F2).
    exists (ev1 ++ ev2)%list. split; [| now apply Forall_app].
    rewrite L2, L1. now rewrite <- app_assoc.
  - apply (Hm _ _ _ E1).
  - apply (Hm _ _ _ E1).
Qed.

Lemma emits_nothing {A} (m : M A) :
  (forall s r s', m s = (r, s') -> s' = s) -> emits P m.
Proof.
  intros Hm s r s' E. rewrite (Hm _ _ _ E). exists []. split; [now rewrite app_nil_r | constructor].
Qed.

Lemma emits_ret {A} (a : A) : emits P (ret a).
Proof. apply emits_nothing. now intros s r s' [= _ <-]. Qed.

Lemma emits_py_return {A} c : emits P (@py_return host A c).
Proof. apply emits_nothing. now intros s r s' [= _ <-]. Qed.

Lemma emits_raise {A} e : emits P (@raise host A e).
Proof. apply emits_nothing. now intros s r s' [= _ <-]. Qed.

Lemma emits_lift {A} (r : result A) : emits P (lift r).
Proof. apply emits_nothing. now intros s r' s' [= _ <-]. Qed.

Lemma emits_observe {A} (f : world -> A) : emits P (observe f).
Proof. apply emits_nothing. now intros s r s' [= _ <-]. Qed.

Lemma emits_json_load path : emits P (json_load path).
Proof. apply emits_nothing. apply json_load_keeps_state. Qed.

Lemma emits_return_code {A} name : emits P (@return_code host A name).
Proof.
  unfold return_code.
  destruct (List.find _ RETURN_CODES) as [[? code] |];
    [apply emits_py_return | apply emits_raise].
Qed.

Lemma emits_print line : P (EPrint line) -> emits P (print line).
Proof.
  intros HP s r s' [= _ <-]. exists [EPrint line]. split; [reflexivity | now constructor].
Qed.

Lemma emits_run inv : (forall res, P (ERun inv res)) -> emits P (run inv).
Proof.
  intros HP s r s' E. unfold run in E.
  destruct (subprocess_run inv (st_world s)) as [[c |] w']; injection E as <- <-;
    (eexists [_]; split; [reflexivity | constructor; [apply HP | constructor]]).
Qed.

Lemma emits_open_write path text : P (EWrite path text) -> emits P (open_write path text).
Proof.
  intros HP s r s' E. unfold open_write in E.
  destruct (write_text path text (st_world s)); injection E as <- <-.
  - exists [EWrite path text]. split; [reflexivity | now constructor].
  - exists []. split; [now rewrite app_nil_r | constructor].
Qed.

Lemma emits_makedirs path : P (EMakedirs path) -> emits P (makedirs path).
Proof.
  intros HP s r s' E. unfold makedirs in E.
  destruct (os_makedirs path (st_world s)); injection E as <- <-.
  - exists [EMakedirs path]. split; [reflexivity | now constructor].
  - exists []. split; [now rewrite app_nil_r | constructor].
Qed.

End Emits.

Ltac emits_walk :=
  repeat match goal with
    | |- emits _ (ret _) => apply emits_ret
    | |- emits _ (py_return _) => apply emits_py_return
    | |- emits _ (raise _) => apply emits_raise
    | |- emits _ (lift _) => apply emits_lift
    | |- emits _ (observe _) => apply emits_observe
    | |- emits _ (json_load _) => apply emits_json_load
    | |- emits _ (return_code _) => apply emits_return_code
    | |- emits _ (print _) => apply emits_print; exact I
    | |- emits _ (run _) => apply emits_run; intros ?; exact I
    | |- emits _ (bind _ _) => apply emits_bind; [ | intros ? ]
    | |- emits _ (if ?b then _ else _) => destruct b
    | |- emits _ (match ?x with _ => _ end) => destruct x
    end.

Section OwnEffects.

Context `{host : Host}.

Lemma emits_package_requirements_loop args items :
  emits (own_effect args) (package_requirements_loop items).
Proof.
  induction items as [| [package package_data] rest IH]; simpl.
  - apply emits_ret.
  - unfold package_requirement. emits_walk. exact IH.
Qed.

Lemma emits_sync_plugins args git_exe plugin_dir items :
  emits (own_effect args) (sync_plugins git_exe plugin_dir items).
Proof.
  induction items as [| [p p_data] rest IH]; simpl.
  - apply emits_ret.
  - apply emits_bind; [| intros _; exact IH].
    unfold sync_plugin, clone_or_reuse, switch_branch. emits_walk.
Qed.

(** **** X10
    In any run, whatever the record holds, the only file [main] itself
    opens for writing is [requirements.txt] in the setup directory and
    the only directory it creates is [plugins] in the setup directory;
    everything else it does is printing and running tools, and its log
    only grows. *)
Theorem main_writes_only_its_two_paths (args : Args) (s s' : state) (r : result unit) :
  main args s = (r, s') ->
  exists events,
    st_log s' = (st_log s ++ events)%list /\
    Forall (fun e =>
              match e with
              | EWrite path _ => path = os_path_join (setup_dir args) "requirements.txt"
              | EMakedirs path => path = os_path_join (setup_dir args) "plugins"
              | EPrint _ | ERun _ _ => True
              end) events.
Proof.
  revert s r s'. change (emits (own_effect args) (main args)).
  unfold main, reproduce.
  apply emits_bind; [apply emits_observe | intros is_dir].
  apply emits_bind; [emits_walk | intros _].
  apply emits_bind; [unfold _is_map_client_provenance_file; emits_walk | intros ok].
  apply emits_bind; [emits_walk | intros _].
  apply emits_bind; [apply emits_json_load | intros content].
  apply emits_bind; [unfold select_python_info; emits_walk | intros [software_info python_info]].
  apply emits_bind; [unfold check_platform, _platform_match; emits_walk | intros _].
  apply emits_bind; [unfold locate_git; emits_walk | intros git_exe].
  apply emits_bind.
  { unfold assemble_requirements, _map_client_requirements, _package_requirements.
    emits_walk. apply emits_package_requirements_loop. }
  intros [requirements plugin_requirements]. unfold provision.
  apply emits_bind; [unfold create_virtualenv; emits_walk | intros _].
  apply emits_bind; [apply emits_open_write; reflexivity | intros _].
  apply emits_bind; [unfold install_requirements; emits_walk | intros pip].
  apply emits_bind.
  { unfold ensure_plugin_dir. apply emits_bind; [apply emits_makedirs; reflexivity |].
    intros _. apply emits_ret. }
  intros plugin_dir.
  apply emits_bind; [apply emits_lift | intros items].
  apply emits_bind; [apply emits_sync_plugins | intros _].
  apply emits_bind; [unfold temporary_install; emits_walk | intros _].
  unfold activate. emits_walk.
Qed.

End OwnEffects.

(** ** Incomplete records fail early *)

Section FailEarly.

Context `{host : Host}.

Lemma quiet_bind_dead {A B} P (m : M A) (k : A -> M B) :
  quiet m -> ends_in P nothing m -> quiet (bind m k).
Proof.
  intros Hq Hdead s r s' E.
  destruct (bind_inv _ _ _ _ _ E) as [(a & s1 & E1 & _) | [(c & E1 & _) | (e & E1 & _)]].
  - exact (False_ind _ (Hdead _ _ _ E1)).
  - apply (Hq _ _ _ E1).
  - apply (Hq _ _ _ E1).
Qed.

Lemma quiet_package_requirements_loop items : quiet (package_requirements_loop items).
Proof.
  induction items as [| [package package_data] rest IH]; simpl.
  - apply quiet_ret.
  - unfold package_requirement. quiet_walk. exact IH.
Qed.

Lemma quiet_assemble_requirements software_info :
  quiet (assemble_requirements software_info).
Proof.
  unfold assemble_requirements, _map_client_requirements, _package_requirements.
  quiet_walk. apply quiet_package_requirements_loop.
Qed.

Lemma quiet_reproduce_incomplete args content software_info :
  Py.getitem content "software_info" = Val software_info ->
  incomplete software_info ->
  quiet (reproduce args content).
Proof.
  intros Hsw Hinc s r s' E. unfold reproduce in E.
  destruct (bind_inv _ _ _ _ _ E) as [([sw info] & s1 & E1 & E2) | [(c & E1 & _) | (e & E1 & _)]];
    [| exact (quiet_select_python_info _ _ _ _ E1) | exact (quiet_select_python_info _ _ _ _ E1)].
  pose proof (ends_select_python_info _ _ _ _ E1) as Hsame. simpl in Hsame.
  rewrite Hsw in Hsame. injection Hsame as <-.
  eapply silent_trans; [exact (quiet_select_python_info _ _ _ _ E1) |].
  revert E2. generalize s1 r s'.
  change (quiet (check_platform info >>
                 let* git_exe := locate_git in
                 let* '(requirements, plugin_requirements) :=
                   assemble_requirements software_info in
                 provision args git_exe requirements plugin_requirements)).
  apply quiet_bind; [apply quiet_check_platform | intros _].
  apply quiet_bind; [apply quiet_locate_git | intros git_exe].
  apply (quiet_bind_dead never);
    [apply quiet_assemble_requirements | now apply assemble_requirements_raises].
Qed.

(** **** X11
    A record that cannot be turned into a requirement list (no
    [mapclient], no [packages], or a package without [version] or
    [location]) ends the run before anything is touched: however [main]
    ends on it, the world is the one it started in and the log has grown
    by printed lines only.  No environment is created and no file
    written for such a record. *)
Theorem incomplete_record_leaves_no_trace
    (args : Args) (s s' : state) (r : result unit) (content software_info : json) :
  json_load_file (provenance_file args) (st_world s) = Loaded content ->
  Py.getitem content "software_info" = Val software_info ->
  incomplete software_info ->
  main args s = (r, s') ->
  st_world s' = st_world s /\
  exists lines, st_log s' = (st_log s ++ map EPrint lines)%list.
Proof.
  intros Hload Hsw Hinc E. change (silent s s').
  destruct (os_path_isdir (setup_dir args) (st_world s)) eqn:Hdir.
  2: { rewrite (main_without_setup_dir args s Hdir) in E. injection E as _ <-.
       apply silent_refl. }
  rewrite (main_setup_dir_ok args s Hdir) in E.
  destruct (bind_inv _ _ _ _ _ E) as [(ok & s1 & E1 & E2) | [(c & E1 & _) | (e & E1 & _)]];
    [| rewrite (is_provenance_keeps_state _ _ _ _ E1); apply silent_refl
     | rewrite (is_provenance_keeps_state _ _ _ _ E1); apply silent_refl].
  pose proof (is_provenance_keeps_state _ _ _ _ E1) as ->.
  destruct ok; simpl in E2.
  2: { unfold bind in E2. cbn in E2. injection E2 as _ <-. apply silent_refl. }
  unfold bind at 1 in E2. unfold ret at 1 in E2.
  unfold bind at 1 in E2. unfold json_load in E2. rewrite Hload in E2.
  exact (quiet_reproduce_incomplete args content software_info Hsw Hinc _ _ _ E2).
Qed.

End FailEarly.

(** ** The plugin loop when its tools succeed *)

Section PluginLoop.

Context `{host : Host}.

(** What stays true of the world from one plugin to the next. *)
Variable steady : world -> Prop.
Variables git_exe plugin_dir : string.
Variable items : list (string * json).

Hypothesis entries_clonable : Forall clonable items.
Hypothesis plugin_tools_succeed :
  forall p p_data version location w,
    In (p, p_data) items ->
    Py.getitem p_data "version" = Val version ->
    Py.getitem p_data "location" = Val (JStr location) ->
    steady w ->
    exists c1 w1 c2 w2,
      subprocess_run (first_tool git_exe plugin_dir p version location w) w
        = (Some c1, w1) /\
      returncode c1 = 0 /\
      subprocess_run (switch_invocation git_exe plugin_dir p version) w1 = (Some c2, w2) /\
      switched version c2 /\
      steady w2.

Lemma clone_or_reuse_done p p_data version location s c1 w1 :
  Py.getitem p_data "version" = Val version ->
  Py.getitem p_data "location" = Val (JStr location) ->
  subprocess_run (first_tool git_exe plugin_dir p version location (st_world s)) (st_world s)
    = (Some c1, w1) ->
  returncode c1 = 0 ->
  clone_or_reuse git_exe plugin_dir p p_data s =
  (Val tt,
   State w1 (st_log s
             ++ [ERun (first_tool git_exe plugin_dir p version location (st_world s))
                      (Some c1)])).
Proof.
  intros Hv Hl Hrun Hrc. unfold first_tool in *.
  destruct (os_path_exists (os_path_join plugin_dir p) (st_world s)) eqn:Hpresent.
  - destruct (clone_or_reuse_present git_exe plugin_dir p p_data s (Some c1) w1 Hpresent Hrun)
      as (r & lines & E & Hok).
    destruct (Hok c1 eq_refl Hrc) as [-> ->]. exact E.
  - destruct (clone_or_reuse_absent git_exe plugin_dir p p_data s version location
                (Some c1) w1 Hpresent Hv Hl Hrun) as (r & lines & E & Hok).
    destruct (Hok c1 eq_refl Hrc) as [-> ->]. exact E.
Qed.

Lemma sync_plugin_done p p_data s :
  In (p, p_data) items ->
  steady (st_world s) ->
  exists version location c1 c2 w2,
    Py.getitem p_data "version" = Val version /\
    Py.getitem p_data "location" = Val (JStr location) /\
    returncode c1 = 0 /\
    switched version c2 /\
    steady w2 /\
    sync_plugin git_exe plugin_dir p p_data s =
    (Val tt,
     State w2 (st_log s
               ++ [ERun (first_tool git_exe plugin_dir p version location (st_world s))
                        (Some c1);
                   ERun (switch_invocation git_exe plugin_dir p version) (Some c2)])).
Proof.
  intros Hin Hs.
  destruct (proj1 (List.Forall_forall _ _) entries_clonable _ Hin)
    as (version & location & Hv & Hl).
  simpl in Hv, Hl.
  destruct (plugin_tools_succeed p p_data version location _ Hin Hv Hl Hs)
    as (c1 & w1 & c2 & w2 & Hrun1 & Hrc1 & Hrun2 & Hsw & Hw2).
  exists version, location, c1, c2, w2. repeat (split; [assumption |]).
  unfold sync_plugin. unfold bind at 1.
  rewrite (clone_or_reuse_done p p_data version location s c1 w1 Hv Hl Hrun1 Hrc1).
  match goal with
  | |- context [switch_branch _ _ _ _ ?st] =>
      rewrite (switch_branch_done git_exe plugin_dir p p_data st version c2 w2 Hv Hrun2 Hsw)
  end.
  cbn [st_log]. now rewrite <- app_assoc.
Qed.

Lemma sync_plugins_done l :
  (forall entry, In entry l -> In entry items) ->
  forall s, steady (st_world s) ->
    exists s' events,
      sync_plugins git_exe plugin_dir l s = (Val tt, s') /\
      steady (st_world s') /\
      st_log s' = (st_log s ++ events)%list /\
      length events = (2 * length l)%nat.
Proof.
  induction l as [| [p p_data] rest IH]; intros Hsub s Hs.
  - exists s, []. simpl. rewrite app_nil_r. auto.
  - destruct (sync_plugin_done p p_data s (Hsub _ (or_introl eq_refl)) Hs)
      as (version & location & c1 & c2 & w2 & _ & _ & _ & _ & Hw2 & E).
    match type of E with
    | _ = (_, ?st) =>
        destruct (IH (fun entry H => Hsub entry (or_intror H)) st Hw2)
          as (s' & events & E' & Hs' & Hlog & Hlen)
    end.
    exists s'. eexists (_ :: _ :: events). split; [| split; [exact Hs' | split]].
    + simpl. unfold bind at 1. rewrite E. exact E'.
    + rewrite Hlog. cbn [st_log]. rewrite <- app_assoc. reflexivity.
    + simpl. rewrite Hlen. lia.
Qed.

(** **** X13
    Let every entry of the plugin mapping have a version and a string
    location, and let the two tools of each plugin succeed from any
    steady world: the first launches and exits 0, and the switch after
    it launches and exits 0 or says that the branch is there already.
    Then the loop completes and has run two tools per plugin.  For each
    plugin, in the order of the mapping, the first is [echo] of the
    plugin's path when that path exists in the world the plugins before
    it have left, and else [git clone] on the branch of the entry's
    version from the entry's location; the second is [git switch -c] on
    that branch. *)
Theorem plugin_loop_runs_two_tools_per_plugin (s : state) :
  steady (st_world s) ->
  (exists s' events,
     sync_plugins git_exe plugin_dir items s = (Val tt, s') /\
     steady (st_world s') /\
     st_log s' = (st_log s ++ events)%list /\
     length events = (2 * length items)%nat) /\
  (forall done p p_data later,
     items = (done ++ (p, p_data) :: later)%list ->
     exists s1 version location c1 c2 w2,
       sync_plugins git_exe plugin_dir done s = (Val tt, s1) /\
       Py.getitem p_data "version" = Val version /\
       Py.getitem p_data "location" = Val (JStr location) /\
       returncode c1 = 0 /\
       switched version c2 /\
       sync_plugins git_exe plugin_dir (done ++ [(p, p_data)]) s =
       (Val tt,
        State w2 (st_log s1
                  ++ [ERun (if os_path_exists (os_path_join plugin_dir p) (st_world s1)
                            then echo_invocation plugin_dir p
                            else clone_invocation git_exe plugin_dir p version location)
                           (Some c1);
                      ERun (switch_invocation git_exe plugin_dir p version) (Some c2)]))).
Proof.
  intros Hs. split.
  - apply sync_plugins_done; auto.
  - intros done p p_data later Hitems.
    destruct (sync_plugins_done done) with (s := s) as (s1 & ev & E1 & Hs1 & _ & _).
    { intros entry Hin. rewrite Hitems. apply in_or_app. now left. }
    { exact Hs. }
    destruct (sync_plugin_done p p_data s1)
      as (version & location & c1 & c2 & w2 & Hv & Hl & Hrc & Hsw & _ & E).
    { rewrite Hitems. apply in_or_app. right. now left. }
    { exact Hs1. }
    exists s1, version, location, c1, c2, w2. repeat (split; [assumption |]).
    rewrite (sync_plugins_app git_exe plugin_dir done [(p, p_data)] s s1 E1).
    simpl. unfold bind. rewrite E. reflexivity.
Qed.

End PluginLoop.

(** ** A run that passes the gates *)

Section Tails.

Context `{host : Host}.

Lemma bind_extends {A B} (m : M A) (k : A -> M B) s r0 s0 :
  m s = (r0, s0) ->
  (forall a, growing (k a)) ->
  exists r s', bind m k s = (r, s') /\ extends s0 s'.
Proof.
  intros E Hk. unfold bind. rewrite E. destruct r0 as [a | c | e].
  - destruct (k a s0) as [r s'] eqn:E'. exists r, s'.
    split; [reflexivity | exact (Hk a _ _ _ E')].
  - eexists _, _. split; [reflexivity | apply extends_refl].
  - eexists _, _. split; [reflexivity | apply extends_refl].
Qed.

(** Lines 235-243 *)
Lemma growing_last_tools args pip plugin_dir :
  growing (temporary_install pip >> activate args plugin_dir).
Proof.
  apply growing_bind; [unfold temporary_install; growing_walk | intros _].
  unfold activate. growing_walk.
Qed.

Lemma growing_later_plugins args git_exe pip plugin_dir later :
  growing (sync_plugins git_exe plugin_dir later >>
           temporary_install pip >>
           activate args plugin_dir).
Proof.
  apply growing_bind; [apply growing_sync_plugins | intros _].
  apply growing_last_tools.
Qed.

Lemma no_write_sync_plugins git_exe plugin_dir items :
  emits no_write (sync_plugins git_exe plugin_dir items).
Proof.
  induction items as [| [p p_data] rest IH]; simpl.
  - apply emits_ret.
  - apply emits_bind; [| intros _; exact IH].
    unfold sync_plugin, clone_or_reuse, switch_branch. emits_walk.
Qed.

(** Lines 211-243: past the write of line 209 no file is written. *)
Lemma no_write_after_write args git_exe plugin_requirements :
  emits no_write
    (let* virtual_environment_pip_exe := install_requirements args in
     let* plugin_dir := ensure_plugin_dir args in
     let* plugin_items := lift (Py.items plugin_requirements) in
     sync_plugins git_exe plugin_dir plugin_items >>
     temporary_install virtual_environment_pip_exe >>
     activate args plugin_dir).
Proof.
  apply emits_bind; [unfold install_requirements; emits_walk | intros pip].
  apply emits_bind.
  { unfold ensure_plugin_dir. apply emits_bind; [apply emits_makedirs; exact I |].
    intros _. apply emits_ret. }
  intros plugin_dir.
  apply emits_bind; [apply emits_lift | intros items].
  apply emits_bind; [apply no_write_sync_plugins | intros _].
  apply emits_bind; [unfold temporary_install; emits_walk | intros _].
  unfold activate. emits_walk.
Qed.

End Tails.

Section Passing.

Context `{host : Host}.

Variable args : Args.
Variable s : state.
Variable fields : list (string * json).
Variable schema : json.
Variables software_info python_info : json.
Variable git_exe : string.

(** The record passes the loader, an expected interpreter is found and
    is the host's, and [git] is on the search path. *)
Hypothesis setup_dir_exists : os_path_isdir (setup_dir args) (st_world s) = true.
Hypothesis is_file : os_path_isfile (provenance_file args) (st_world s) = true.
Hypothesis loads :
  json_load_file (provenance_file args) (st_world s) = Loaded (JObj fields).
Hypothesis has_id :
  Py.assoc "id" fields = Some (JStr "map-client-provenance-record-report").
Hypothesis has_version : Py.assoc "version" fields = Some schema.
Hypothesis selected :
  select_python_info (JObj fields) s = (Val (software_info, python_info), s).
Hypothesis compatible : check_platform python_info s = (Val tt, s).
Hypothesis git_found : _which "git" None (st_world s) = Some git_exe.

Lemma main_passed :
  main args s =
  (let* '(requirements, plugin_requirements) := assemble_requirements software_info in
   provision args git_exe requirements plugin_requirements) s.
Proof.
  rewrite (main_loaded args s setup_dir_exists fields schema is_file loads has_id has_version).
  unfold reproduce. unfold bind at 1. rewrite selected.
  unfold bind at 1. rewrite compatible.
  unfold bind at 1. unfold locate_git, bind at 1, observe. now rewrite git_found.
Qed.

(** The software section is complete. *)
Variables mapclient version plugins : json.
Variable pkgs : list (string * json).
Variable specs : list (string * json * json).

Hypothesis has_mapclient : Py.getitem software_info "mapclient" = Val mapclient.
Hypothesis has_mapclient_version : Py.getitem mapclient "version" = Val version.
Hypothesis has_packages : Py.getitem software_info "packages" = Val (JObj pkgs).
Hypothesis packages_described : Forall2 describes pkgs specs.
Hypothesis has_plugins : Py.getitem software_info "plugins" = Val plugins.

Local Abbreviation pins := (requirement_line "mapclient" version :: package_lines specs).
Local Abbreviation requirements_txt := (os_path_join (setup_dir args) "requirements.txt").
Local Abbreviation pinned_text := (Str.join Str.LF pins).
Local Abbreviation venv_run :=
  (Invocation [sys_executable; "-m"; "venv"; "venv_map_client"] (Some (setup_dir args)) false).

Lemma main_assembled :
  main args s =
  provision args git_exe pins plugins
    (State (st_world s) (st_log s ++ advisories specs)).
Proof.
  rewrite main_passed. unfold bind at 1.
  now rewrite (assemble_requirements_value _ _ _ _ _ _ s has_mapclient has_mapclient_version
                 has_packages packages_described has_plugins).
Qed.

(** The environment is created and the file can be written. *)
Variable c0 : completed.
Variables w1 w2 : world.

Hypothesis venv_runs : subprocess_run venv_run (st_world s) = (Some c0, w1).
Hypothesis venv_ok : returncode c0 = 0.
Hypothesis file_written : write_text requirements_txt pinned_text w1 = Some w2.

Lemma main_written :
  main args s =
  (let* virtual_environment_pip_exe := install_requirements args in
   let* plugin_dir := ensure_plugin_dir args in
   let* plugin_items := lift (Py.items plugins) in
   sync_plugins git_exe plugin_dir plugin_items >>
   temporary_install virtual_environment_pip_exe >>
   activate args plugin_dir)
    (State w2 (st_log s ++ advisories specs
               ++ [ERun venv_run (Some c0); EWrite requirements_txt pinned_text])).
Proof.
  rewrite main_assembled. unfold provision. unfold bind at 1.
  rewrite (create_virtualenv_status args (State (st_world s) (st_log s ++ advisories specs))
             c0 w1 venv_runs), venv_ok. cbn [Z.eqb].
  unfold bind at 1. unfold write_requirements, open_write.
  cbn [st_world st_log]. rewrite file_written.
  now rewrite <- !app_assoc.
Qed.

(** **** C6
    On a record that passes the gates and has its [mapclient] and
    [packages] entries, the requirement list is the application pin
    [mapclient == version] followed by one line [name == version] per
    recorded package, in the order of the record; a package that is not
    from PyPI only adds a printed advisory, its line is there.  Once the
    environment is created, [main] writes [requirements.txt] in the
    setup directory with these lines separated by line feeds, directly
    after the run that created the environment, and writes no file after
    that. *)
Theorem requirements_file_lists_pins :
  assemble_requirements software_info s =
    (Val (pins, plugins), State (st_world s) (st_log s ++ advisories specs)) /\
  exists r s' rest,
    main args s = (r, s') /\
    st_log s' =
      (st_log s ++ advisories specs
       ++ ERun venv_run (Some c0) :: EWrite requirements_txt pinned_text :: rest)%list /\
    Forall (fun e => forall path' text', e <> EWrite path' text') rest.
Proof.
  split.
  - exact (assemble_requirements_value _ _ _ _ _ _ s has_mapclient has_mapclient_version
             has_packages packages_described has_plugins).
  - rewrite main_written.
    match goal with
    | |- context [bind ?m ?k ?st] =>
        destruct (bind m k st) as [r s'] eqn:E;
        destruct (no_write_after_write args git_exe plugins _ _ _ E) as (rest & Hrest & Hno)
    end.
    exists r, s', rest. split; [reflexivity |]. split.
    + rewrite Hrest. cbn [st_log]. now rewrite <- !app_assoc.
    + eapply List.Forall_impl; [| exact Hno].
      intros e He path' text' ->. exact He.
Qed.

(** The requirements are installed and the plugins directory is made. *)
Variable items : list (string * json).
Variable pip : string.
Variable c2 : completed.
Variables w3 w4 : world.

Local Abbreviation plugins_dir := (os_path_join (setup_dir args) "plugins").
Local Abbreviation install_run :=
  (Invocation [pip; "install"; "-r"; "requirements.txt"] (Some (setup_dir args)) true).

Hypothesis plugins_listed : plugins = JObj items.
Hypothesis pip_derived :
  _get_virtual_environment_pip (setup_dir args) venv_directory_name = Val pip.
Hypothesis install_runs : subprocess_run install_run w2 = (Some c2, w3).
Hypothesis install_ok : returncode c2 = 0.
Hypothesis dir_made : os_makedirs plugins_dir w3 = Some w4.

(** The state in which the plugin loop is entered. *)
Local Abbreviation loop_entry :=
  (State w4 (st_log s ++ advisories specs
             ++ [ERun venv_run (Some c0); EWrite requirements_txt pinned_text;
                 ERun install_run (Some c2); EMakedirs plugins_dir])).

Lemma main_at_loop :
  main args s =
  (sync_plugins git_exe plugins_dir items >>
   temporary_install pip >>
   activate args plugins_dir) loop_entry.
Proof.
  rewrite main_written. unfold bind at 1.
  match goal with
  | |- context [install_requirements args ?st] =>
      rewrite (install_requirements_status args st pip c2 w3 pip_derived install_runs)
  end.
  rewrite install_ok.
  cbn [Z.eqb]. unfold bind at 1. unfold ensure_plugin_dir, bind at 1, makedirs.
  cbn [st_world st_log]. rewrite dir_made. unfold ret at 1.
  unfold bind at 1. rewrite plugins_listed. unfold lift at 1. simpl Py.items. cbv iota beta.
  now rewrite <- !app_assoc.
Qed.

(** **** X12
    On a record that passes the gates and is complete, whose plugin
    entries each have a version and a string location: if the
    environment is created, [requirements.txt] written, the requirements
    installed and the plugins directory made, if from then on the two
    tools of each plugin succeed (the first launches and exits 0, the
    switch exits 0 or says the branch is there), and if after the loop the
    editable install can be launched and the activation exits 0, then
    [main] returns 0.  Its log is then the four steps before the loop,
    two tool runs per plugin, the editable install, whatever its status,
    and the activation. *)
Theorem main_succeeds_when_nothing_fails
    (steady : world -> Prop) (exe : string) :
  Forall clonable items ->
  (forall p p_data version location w,
     In (p, p_data) items ->
     Py.getitem p_data "version" = Val version ->
     Py.getitem p_data "location" = Val (JStr location) ->
     steady w ->
     exists c1 w1 c2 w2,
       subprocess_run (first_tool git_exe plugins_dir p version location w) w
         = (Some c1, w1) /\
       returncode c1 = 0 /\
       subprocess_run (switch_invocation git_exe plugins_dir p version) w1 = (Some c2, w2) /\
       switched version c2 /\
       steady w2) ->
  steady w4 ->
  _get_virtual_environment_map_client_use (setup_dir args) venv_directory_name = Val exe ->
  (forall w, steady w ->
     exists c6 w6 c7 w7,
       subprocess_run (editable_install_invocation pip) w = (Some c6, w6) /\
       subprocess_run (Invocation [exe; setup_dir args; "-d"; plugins_dir] None false) w6
         = (Some c7, w7) /\
       returncode c7 = 0) ->
  exists s' loop_events c6 c7,
    main args s = (Exit 0, s') /\
    length loop_events = (2 * length items)%nat /\
    st_log s' =
      (st_log s ++ advisories specs
       ++ [ERun venv_run (Some c0); EWrite requirements_txt pinned_text;
           ERun install_run (Some c2); EMakedirs plugins_dir]
       ++ loop_events
       ++ [ERun (editable_install_invocation pip) (Some c6);
           ERun (Invocation [exe; setup_dir args; "-d"; plugins_dir] None false)
                (Some c7)])%list.
Proof.
  intros Hclonable Htools Hsteady Hexe Hlast.
  destruct (sync_plugins_done steady git_exe plugins_dir items Hclonable Htools items
              (fun entry H => H) loop_entry Hsteady)
    as (s5 & loop_events & E5 & Hs5 & Hlog5 & Hlen).
  destruct (Hlast _ Hs5) as (c6 & w6 & c7 & w7 & Hrun6 & Hrun7 & Hrc7).
  eexists _, loop_events, c6, c7. split; [| split; [exact Hlen |]].
  - rewrite main_at_loop. unfold bind at 1. rewrite E5.
    unfold bind at 1. rewrite (temporary_install_status pip s5 c6 w6 Hrun6).
    match goal with
    | |- activate _ _ ?st = _ =>
        rewrite (activate_status args plugins_dir st exe c7 w7 Hexe Hrun7)
    end.
    rewrite Hrc7. reflexivity.
  - cbn [st_log]. rewrite Hlog5. cbn [st_log].
    now rewrite <- !app_assoc.
Qed.

(** The loop has done the plugins before [p] and comes to [p]. *)
Variables done later : list (string * json).
Variable p : string.
Variable p_data : json.
Variable s5 : state.

Hypothesis position : items = (done ++ (p, p_data) :: later)%list.
Hypothesis synced : sync_plugins git_exe plugins_dir done loop_entry = (Val tt, s5).

Lemma main_at_plugin :
  main args s =
  ((sync_plugin git_exe plugins_dir p p_data >>
    sync_plugins git_exe plugins_dir later) >>
   temporary_install pip >>
   activate args plugins_dir) s5.
Proof.
  rewrite main_at_loop, position. unfold bind at 1.
  rewrite (sync_plugins_app git_exe plugins_dir done _ _ _ synced). reflexivity.
Qed.

(** The run from plugin [p] on: what the loop body logs is in the log of
    [main], right after what was logged before. *)
Lemma main_logs_plugin r0 s6 events :
  sync_plugin git_exe plugins_dir p p_data s5 = (r0, s6) ->
  st_log s6 = (st_log s5 ++ events)%list ->
  exists r s' rest,
    main args s = (r, s') /\
    st_log s' = (st_log s5 ++ events ++ rest)%list /\
    (forall e, r0 = Raise e -> r = Raise e /\ s' = s6).
Proof.
  intros E Hlog. rewrite main_at_plugin.
  assert (Hbody : exists r1 s7,
             (sync_plugin git_exe plugins_dir p p_data >>
              sync_plugins git_exe plugins_dir later) s5 = (r1, s7) /\
             extends s6 s7 /\
             (forall e, r0 = Raise e -> r1 = Raise e /\ s7 = s6)).
  { destruct (bind_extends (sync_plugin git_exe plugins_dir p p_data)
                (fun _ => sync_plugins git_exe plugins_dir later) s5 r0 s6 E
                (fun _ => growing_sync_plugins git_exe plugins_dir later))
      as (r1 & s7 & E1 & Hext).
    exists r1, s7. split; [exact E1 |]. split; [exact Hext |].
    intros e ->. unfold bind in E1. rewrite E in E1. now injection E1 as <- <-. }
  destruct Hbody as (r1 & s7 & E1 & [ev1 Hev1] & Hraise1).
  destruct (bind_extends _ (fun _ => temporary_install pip >> activate args plugins_dir)
              s5 r1 s7 E1 (fun _ => growing_last_tools args pip plugins_dir))
    as (r & s' & E2 & [ev2 Hev2]).
  exists r, s', (ev1 ++ ev2)%list. split; [exact E2 |]. split.
  - rewrite Hev2, Hev1, Hlog. now rewrite <- !app_assoc.
  - intros e He. destruct (Hraise1 e He) as [-> ->].
    unfold bind at 1 in E2. rewrite E1 in E2. now injection E2 as <- <-.
Qed.

(** **** C7
    In a run that has created the environment, installed the
    requirements and done the plugins before it, a plugin entry with
    version [V] and location [L] that has no entry under the plugins
    directory makes [main] run, as its next tool,
    [git clone --depth 1 --branch vV L name] with [setup_dir/plugins] as
    working directory and with the [git] found on the search path.  When
    the clone exits 0 the tool [main] runs next is [git switch -c vV]
    with [setup_dir/plugins/name] as working directory.  The branch is
    the letter [v] followed by the recorded version, the same text in
    both. *)
Theorem clone_then_switch_on_version_branch
    (V : json) (L : string) (res1 : option completed) (w6 : world) :
  os_path_exists (os_path_join plugins_dir p) (st_world s5) = false ->
  Py.getitem p_data "version" = Val V ->
  Py.getitem p_data "location" = Val (JStr L) ->
  let branch := "v" +:+ Py.format V in
  let clone :=
    Invocation [git_exe; "clone"; "--depth"; "1"; "--branch"; branch; L; p]
               (Some plugins_dir) true in
  let switch :=
    Invocation [git_exe; "switch"; "-c"; branch]
               (Some (os_path_join plugins_dir p)) true in
  subprocess_run clone (st_world s5) = (res1, w6) ->
  (exists r s' rest,
     main args s = (r, s') /\
     st_log s' = (st_log s5 ++ ERun clone res1 :: rest)%list) /\
  (forall c1 res2 w7,
     res1 = Some c1 -> returncode c1 = 0 ->
     subprocess_run switch w6 = (res2, w7) ->
     exists r s' rest,
       main args s = (r, s') /\
       st_log s' = (st_log s5 ++ ERun clone res1 :: ERun switch res2 :: rest)%list).
Proof.
  intros Habsent Hv Hl branch clone switch Hrun.
  destruct (sync_plugin_clones git_exe plugins_dir p p_data V L s5 res1 w6
              Habsent Hv Hl Hrun) as [(r0 & s6 & rest0 & E & Hlog) Hswitch].
  split.
  - destruct (main_logs_plugin r0 s6 _ E Hlog) as (r & s' & rest & Hmain & Hlog' & _).
    exists r, s', (rest0 ++ rest)%list. split; [exact Hmain |].
    rewrite Hlog'. reflexivity.
  - intros c1 res2 w7 Hres Hrc Hrun2.
    destruct (Hswitch c1 res2 w7 Hres Hrc Hrun2) as (r0' & lines0 & E').
    destruct (main_logs_plugin r0' _ _ E' eq_refl) as (r & s' & rest & Hmain & Hlog' & _).
    exists r, s', (map EPrint lines0 ++ rest)%list. split; [exact Hmain |].
    rewrite Hlog'. reflexivity.
Qed.

(** **** C10
    The reuse test is mere existence.  In a run that has come to a
    plugin whose path [setup_dir/plugins/name] is a regular file and not
    a directory, [main] runs [echo] in place of the clone, and when that
    exits 0 the tool it runs next is [git switch -c vV] with the path of
    that file as its working directory.  A switch that cannot be
    launched there makes [main] raise, with these two runs the last of
    its log. *)
Theorem regular_file_counts_as_checkout
    (V : json) (c1 : completed) (w6 : world) (res2 : option completed) (w7 : world) :
  os_path_exists (os_path_join plugins_dir p) (st_world s5) = true ->
  os_path_isfile (os_path_join plugins_dir p) (st_world s5) = true ->
  os_path_isdir (os_path_join plugins_dir p) (st_world s5) = false ->
  Py.getitem p_data "version" = Val V ->
  let echo := Invocation ["echo"; os_path_join plugins_dir p] None false in
  let switch :=
    Invocation [git_exe; "switch"; "-c"; "v" +:+ Py.format V]
               (Some (os_path_join plugins_dir p)) true in
  subprocess_run echo (st_world s5) = (Some c1, w6) ->
  returncode c1 = 0 ->
  subprocess_run switch w6 = (res2, w7) ->
  (exists r s' rest,
     main args s = (r, s') /\
     st_log s' = (st_log s5 ++ ERun echo (Some c1) :: ERun switch res2 :: rest)%list) /\
  (res2 = None ->
   main args s =
   (Raise OSError, State w7 (st_log s5 ++ [ERun echo (Some c1); ERun switch None]))).
Proof.
  intros Hpresent _ _ Hv echo switch Hrun Hrc Hrun2.
  destruct (sync_plugin_reuses git_exe plugins_dir p p_data V s5 c1 w6 res2 w7
              Hpresent Hv Hrun Hrc Hrun2) as (r0 & lines0 & E).
  split.
  - destruct (main_logs_plugin r0 _ _ E eq_refl) as (r & s' & rest & Hmain & Hlog' & _).
    exists r, s', (map EPrint lines0 ++ rest)%list. split; [exact Hmain |].
    rewrite Hlog'. reflexivity.
  - intros ->.
    assert (E' : sync_plugin git_exe plugins_dir p p_data s5 =
                 (Raise OSError,
                  State w7 (st_log s5 ++ [ERun echo (Some c1); ERun switch None]))).
    { destruct (clone_or_reuse_present git_exe plugins_dir p p_data s5 (Some c1) w6
                  Hpresent Hrun) as (r1 & lines1 & E1 & Hok).
      destruct (Hok c1 eq_refl Hrc) as [-> ->].
      unfold sync_plugin. unfold bind at 1. rewrite E1.
      match goal with
      | |- switch_branch _ _ _ _ ?st = _ =>
          rewrite (switch_branch_not_launched git_exe plugins_dir p p_data st V w7 Hv Hrun2)
      end.
      cbn [st_log map]. now rewrite <- app_assoc. }
    destruct (main_logs_plugin _ _ _ E' eq_refl) as (r & s' & rest & Hmain & _ & Hraise).
    destruct (Hraise OSError eq_refl) as [-> ->]. exact Hmain.
Qed.

End Passing.

(** ** The loader on JSON that is no object *)

(** **** X14
    A provenance file whose JSON value is not an object is never
    accepted.  An array without the string [id] among its elements and a
    string that does not contain [id] give code 2; an array that holds
    [id], a string that contains it, a number, a truth value and [null]
    make [main] raise [TypeError]. *)
Theorem non_object_provenance_is_refused `{host : Host}
    (args : Args) (s : state) (content : json) :
  os_path_isdir (setup_dir args) (st_world s) = true ->
  os_path_isfile (provenance_file args) (st_world s) = true ->
  json_load_file (provenance_file args) (st_world s) = Loaded content ->
  match content with
  | JObj _ => True
  | JArr items =>
      main args s =
      if existsb (fun x => Py.eq_str x "id") items
      then (Raise TypeError, s) else (Exit 2, s)
  | JStr text =>
      main args s =
      if Str.contains "id" text then (Raise TypeError, s) else (Exit 2, s)
  | JNull | JBool _ | JNumber _ => main args s = (Raise TypeError, s)
  end.
Proof.
  intros Hdir Hfile Hload.
  assert (Hmain : main args s =
            (let* is_provenance := _is_map_client_provenance_file (provenance_file args) in
             (if negb is_provenance then return_code "PROVENANCE_FILE_INVALID" else ret tt) >>
             let* content := json_load (provenance_file args) in
             reproduce args content) s) by exact (main_setup_dir_ok args s Hdir).
  unfold bind at 1 2 in Hmain.
  unfold _is_map_client_provenance_file, bind, observe, json_load, lift in Hmain.
  rewrite Hfile in Hmain. cbn [negb] in Hmain. rewrite Hload in Hmain.
  destruct content as [| b | text | text | items | fields]; try exact Hmain; try exact I.
  - cbn [Py.contains] in Hmain. rewrite Hmain.
    destruct (Str.contains "id" text); reflexivity.
  - cbn [Py.contains] in Hmain. rewrite Hmain.
    destruct (existsb _ items); reflexivity.
Qed.

(** ** The text of the requirements file *)

Section RoundTrip.

Context `{host : Host}.

Lemma append_nil (b : string) : "" +:+ b = b.
Proof. reflexivity. Qed.

Lemma append_cons (x : Ascii.ascii) (a b : string) :
  String x a +:+ b = String x (a +:+ b).
Proof. reflexivity. Qed.

Lemma append_cons_assoc (a : string) (c : Ascii.ascii) (b : string) :
  (a +:+ String c EmptyString) +:+ b = a +:+ String c b.
Proof.
  induction a as [| x a IH]; [reflexivity |].
  rewrite !append_cons. now rewrite IH.
Qed.

Lemma append_empty_r (a : string) : a +:+ "" = a.
Proof.
  induction a as [| x a IH]; [reflexivity |]. rewrite append_cons. now rewrite IH.
Qed.

Lemma split_go_line sep l : forall cur rest,
  free_of sep l = true ->
  Str.split_go sep cur (l +:+ String sep rest) = (cur +:+ l) :: Str.split_go sep "" rest.
Proof.
  induction l as [| c l IH]; intros cur rest Hfree.
  - rewrite append_nil. cbn [Str.split_go]. rewrite Ascii.eqb_refl.
    now rewrite append_empty_r.
  - cbn [free_of] in Hfree. apply andb_true_iff in Hfree as [Hc Hl].
    apply negb_true_iff in Hc. rewrite append_cons. cbn [Str.split_go]. rewrite Hc.
    rewrite (IH _ _ Hl). now rewrite append_cons_assoc.
Qed.

Lemma split_go_last sep l : forall cur,
  free_of sep l = true -> Str.split_go sep cur l = [cur +:+ l].
Proof.
  induction l as [| c l IH]; intros cur Hfree.
  - cbn [Str.split_go]. now rewrite append_empty_r.
  - cbn [free_of] in Hfree. apply andb_true_iff in Hfree as [Hc Hl].
    apply negb_true_iff in Hc. cbn [Str.split_go]. rewrite Hc.
    rewrite (IH _ Hl). now rewrite append_cons_assoc.
Qed.

Lemma split_join sep lines :
  lines <> [] ->
  Forall (fun l => free_of sep l = true) lines ->
  Str.split sep (Str.join (String sep EmptyString) lines) = lines.
Proof.
  intros Hne Hfree. unfold Str.split.
  induction Hfree as [| l rest Hl Hrest IH]; [now destruct Hne |].
  destruct rest as [| l' rest'].
  - cbn [Str.join]. rewrite (split_go_last sep l "" Hl). now rewrite append_nil.
  - change (Str.join (String sep "") (l :: l' :: rest'))
      with (l +:+ (String sep "" +:+ Str.join (String sep "") (l' :: rest'))).
    rewrite append_cons, append_nil.
    rewrite (split_go_line sep l "" _ Hl). rewrite append_nil.
    rewrite IH by discriminate. reflexivity.
Qed.

(** **** X15
    The requirements file can be read back line by line: when no
    requirement line holds a line feed, splitting the text that is
    written at line feeds gives exactly the requirement lines, in order,
    with no empty line added at the end. *)
Theorem requirements_text_splits_into_its_lines
    (args : Args) (lines : list string) (s : state) (w' : world) :
  lines <> [] ->
  Forall (fun l => free_of LF_char l = true) lines ->
  write_text (os_path_join (setup_dir args) "requirements.txt")
             (Str.join Str.LF lines) (st_world s) = Some w' ->
  exists text,
    write_requirements args lines s =
    (Val tt, State w' (st_log s
                       ++ [EWrite (os_path_join (setup_dir args) "requirements.txt") text])) /\
    Str.split LF_char text = lines.
Proof.
  intros Hne Hfree Hw. exists (Str.join Str.LF lines). split.
  - unfold write_requirements, open_write. now rewrite Hw.
  - exact (split_join LF_char lines Hne Hfree).
Qed.

End RoundTrip.

(** ** Tool paths when the interpreter is not called python *)

Section ExePart.

Context `{host : Host}.

Lemma replace_go_absent old new s : forall count,
  Str.contains old s = false -> Str.replace_go old new count 0 s = s.
Proof.
  induction s as [| c s IH]; intros count Habsent.
  - destruct old; [simpl in Habsent; discriminate |]. simpl. now destruct count.
  - destruct old as [| a old']; [simpl in Habsent; discriminate |].
    cbn [Str.contains] in Habsent. apply orb_false_iff in Habsent as [Hstart Hrest].
    cbn [Str.replace_go]. destruct count as [| n].
    + now rewrite (IH 0%nat Hrest).
    + rewrite Hstart. now rewrite (IH (S n) Hrest).
Qed.

(** **** X16
    The installer and the activation tool are found by replacing the
    first [python] in the interpreter's path below its prefix.  When that
    path does not contain [python] (an interpreter called [pypy3], say)
    nothing is replaced: both derived paths are the interpreter's own
    path under the new environment, and they are equal. *)
Theorem tool_paths_without_python (base_dir name common : string) :
  os_path_commonpath [sys_executable; sys_prefix] = Some common ->
  let end_part := Str.replace (common +:+ os_sep) "" sys_executable in
  Str.contains "python" end_part = false ->
  _get_virtual_environment_pip base_dir name
    = Val (os_path_join (os_path_join base_dir name) end_part) /\
  _get_virtual_environment_map_client_use base_dir name
    = _get_virtual_environment_pip base_dir name.
Proof.
  intros Hcommon end_part Habsent.
  unfold _get_virtual_environment_pip, _get_virtual_environment_map_client_use,
    _get_exe_part.
  rewrite Hcommon. fold end_part. unfold Str.replace_n.
  rewrite !(replace_go_absent "python" _ end_part 1%nat Habsent). now split.
Qed.

End ExePart.

(** * The further statements at work *)

Section FurtherRuns.

Import Posix Example Hosts.

Lemma which_returns_an_executable_file_witness :
  exists_ "/usr/bin/git" missing = true /\
  bool_decide ("/usr/bin/git" ∈ executables missing) = true /\
  isdir "/usr/bin/git" missing = false.
Proof.
  apply (@which_returns_an_executable_file (Posix.host "linux" "3.11.10")
           "git" None missing "/usr/bin/git").
  vm_compute. reflexivity.
Defined.

(** [PATH] set and empty: nothing is found, though [/bin/git] is there
    and [os.defpath] names [/bin]. *)
Lemma which_tries_each_directory_once_witness :
  @_which empty_path "git" None (programs ["/bin/git"]) = None.
Proof.
  destruct (@which_tries_each_directory_once empty_path "git" None (programs ["/bin/git"]))
    as [Hempty _]; [vm_compute; discriminate | reflexivity |].
  apply Hempty. reflexivity.
Defined.

(** [/a:/b:/a:/c] with [git] in [/b] and [/c]: [/b] wins. *)
Lemma which_first_directory_wins_witness :
  let entries := Str.split ":" "/a:/b:/a:/c" in
  match @_which repeated_path "git" None two_gits with
  | Some name =>
      exists before d after,
        entries = (before ++ d :: after)%list /\
        name = Posix.join d "git" /\
        forall d', In d' before ->
                   @_access_check repeated_path (Posix.join d' "git") two_gits = false
  | None =>
      forall d, In d entries ->
                @_access_check repeated_path (Posix.join d "git") two_gits = false
  end.
Proof.
  apply (@which_first_directory_wins repeated_path "git" None two_gits).
  - vm_compute. discriminate.
  - reflexivity.
  - reflexivity.
  - vm_compute. discriminate.
Defined.

(** [git.BAT] in the current directory is preferred to [git.EXE] on the
    search path. *)
Lemma which_current_directory_on_win32_witness :
  @_which windows "git" None git_here_and_there = Some (win_join "." "git.BAT").
Proof.
  destruct (@which_current_directory_on_win32 windows "git" None git_here_and_there)
    as [Hfirst _]; [reflexivity | reflexivity | vm_compute; discriminate |].
  apply Hfirst.
  - vm_compute. intros [H | [H | []]]; discriminate H.
  - vm_compute. reflexivity.
Defined.

Lemma pathext_candidates_witness :
  @pathext_files windows_trailing_separator "git" = ["git"].
Proof.
  destruct (@pathext_candidates windows_trailing_separator "git") as [_ Hempty].
  apply Hempty; [reflexivity |]. vm_compute. auto.
Defined.

Lemma main_returns_a_code_from_0_to_10_witness :
  (exists c, fst (outcome "linux" "3.11.10" (recorded linux_record)) = Exit c /\
             0 <= c <= 10) \/
  (exists e, fst (outcome "linux" "3.11.10" (recorded linux_record)) = Raise e).
Proof.
  unfold outcome. cbn [fst].
  apply (@main_returns_a_code_from_0_to_10 (Posix.host "linux" "3.11.10") args
           (start "linux" "3.11.10" (recorded linux_record))
           (snd (@main (Posix.host "linux" "3.11.10") args
                   (start "linux" "3.11.10" (recorded linux_record))))).
  apply surjective_pairing.
Defined.

Lemma code_1_is_the_setup_directory_witness :
  fst (outcome "linux" "3.11.10" bare) = Exit 1.
Proof.
  unfold outcome. cbn [fst].
  destruct (@code_1_is_the_setup_directory (Posix.host "linux" "3.11.10") args
              (start "linux" "3.11.10" bare)) as [Hmissing _].
  rewrite Hmissing; [reflexivity | vm_compute; reflexivity].
Defined.

Lemma early_codes_name_their_cause_witness :
  @_is_map_client_provenance_file (Posix.host "linux" "3.11.10") "provenance.json"
    (start "linux" "3.11.10" missing)
  = (Val false, start "linux" "3.11.10" missing).
Proof.
  destruct (@early_codes_name_their_cause (Posix.host "linux" "3.11.10") args
              (start "linux" "3.11.10" missing) (start "linux" "3.11.10" missing) 2)
    as (Hloader & _ & _); [reflexivity |].
  now apply Hloader.
Defined.

(** The run of C1: code 0, and the last tool (the activation) exited 0. *)
Lemma late_code_reflects_last_tool_witness :
  exists before inv done lines,
    snd (outcome "linux" "3.11.10" editable_install_fails)
    = (before ++ ERun inv (Some done) :: map EPrint lines)%list /\
    (0 = 0 <-> returncode done = 0).
Proof.
  unfold outcome. cbn [snd].
  apply (@late_code_reflects_last_tool (Posix.host "linux" "3.11.10") args
           (start "linux" "3.11.10" editable_install_fails)).
  - reflexivity.
  - now left.
Defined.

Lemma main_writes_only_its_two_paths_witness :
  exists events,
    snd (outcome "linux" "3.11.10" (recorded linux_record)) = ([] ++ events)%list /\
    Forall (fun e =>
              match e with
              | EWrite path _ => path = "/work/requirements.txt"
              | EMakedirs path => path = "/work/plugins"
              | EPrint _ | ERun _ _ => True
              end) events.
Proof.
  unfold outcome. cbn [snd].
  apply (@main_writes_only_its_two_paths (Posix.host "linux" "3.11.10") args
           (start "linux" "3.11.10" (recorded linux_record)) _
           (fst (@main (Posix.host "linux" "3.11.10") args
                   (start "linux" "3.11.10" (recorded linux_record))))).
  symmetry. apply surjective_pairing.
Defined.

(** The record without [mapclient] on the host it was made on: it
    raises, and only the advisory lines have been printed. *)
Lemma incomplete_record_leaves_no_trace_witness :
  let s := start "linux" "3.11.11" (recorded record_without_mapclient) in
  let s' := snd (@main (Posix.host "linux" "3.11.11") args s) in
  st_world s' = st_world s /\
  exists lines, st_log s' = (st_log s ++ map EPrint lines)%list.
Proof.
  intros s s'.
  apply (@incomplete_record_leaves_no_trace (Posix.host "linux" "3.11.11") args s s'
           (fst (@main (Posix.host "linux" "3.11.11") args s))
           record_without_mapclient software_without_mapclient).
  - vm_compute. reflexivity.
  - reflexivity.
  - left. intros x. vm_compute. discriminate.
  - apply surjective_pairing.
Defined.

(** The linux record on the host it was made on: the advisory for the
    package that is not from PyPI, the environment, then the file with
    the three pins. *)
Lemma requirements_file_lists_pins_witness :
  exists rest,
    snd (outcome "linux" "3.11.10" (recorded linux_record)) =
    EPrint "Package: cmlibs.zinc is not installed from PyPI!"
    :: ERun (Invocation ["/usr/bin/python"; "-m"; "venv"; "venv_map_client"]
                        (Some "/work") false)
            (Some (Completed 0 (Some "")))
    :: EWrite "/work/requirements.txt"
              ("mapclient == 0.21.0" +:+ Str.LF +:+ "numpy == 1.26.4" +:+ Str.LF
               +:+ "cmlibs.zinc == 4.1.2")
    :: rest.
Proof.
  unfold outcome. cbn [snd].
  edestruct (@requirements_file_lists_pins (Posix.host "linux" "3.11.10") args
               (start "linux" "3.11.10" (recorded linux_record)))
    with (specs := [ ("numpy", JStr "1.26.4", JStr "PyPI");
                     ("cmlibs.zinc", JStr "4.1.2", JStr "local") ])
    as (_ & r & s' & rest & Hmain & Hlog & _);
    [solve [reflexivity | vm_compute; reflexivity | repeat constructor] .. |].
  rewrite Hmain. cbn [snd]. rewrite Hlog. exists rest. reflexivity.
Defined.

(** The [fitting] plugin, version 1.3.0, second in the record, on a
    fresh setup directory: cloned on [v1.3.0] in [/work/plugins], then
    switched to [v1.3.0] in [/work/plugins/fitting]. *)
Lemma clone_then_switch_on_version_branch_witness :
  exists before rest,
    snd (outcome "linux" "3.11.10" (recorded linux_record)) =
    (before
     ++ ERun (Invocation ["/usr/bin/git"; "clone"; "--depth"; "1"; "--branch"; "v1.3.0";
                          "https://example.org/fitting.git"; "fitting"]
                         (Some "/work/plugins") true)
             (Some (Completed 0 (Some "")))
     :: ERun (Invocation ["/usr/bin/git"; "switch"; "-c"; "v1.3.0"]
                         (Some "/work/plugins/fitting") true)
             (Some (Completed 0 (Some "")))
     :: rest)%list.
Proof.
  unfold outcome. cbn [snd].
  edestruct (@clone_then_switch_on_version_branch (Posix.host "linux" "3.11.10") args
               (start "linux" "3.11.10" (recorded linux_record)))
    with (specs := [ ("numpy", JStr "1.26.4", JStr "PyPI");
                     ("cmlibs.zinc", JStr "4.1.2", JStr "local") ])
         (done := [("segmentation", segmentation)])
         (p := "fitting") (p_data := fitting) (later := @nil (string * json))
    as [_ Hswitch];
    [solve [reflexivity | vm_compute; reflexivity | repeat constructor] .. |].
  edestruct Hswitch as (r & s' & rest & Hmain & Hlog); [reflexivity .. |].
  rewrite Hmain. cbn [snd]. rewrite Hlog. eexists _, rest. reflexivity.
Defined.

(** [plugins/segmentation] is a regular file: [echo], then the switch
    with that file as working directory, which cannot be launched. *)
Lemma regular_file_counts_as_checkout_witness :
  fst (outcome "linux" "3.11.10" stray_file) = Raise OSError /\
  exists before,
    snd (outcome "linux" "3.11.10" stray_file) =
    (before
     ++ [ERun (Invocation ["echo"; "/work/plugins/segmentation"] None false)
              (Some (Completed 0 (Some "")));
         ERun (Invocation ["/usr/bin/git"; "switch"; "-c"; "v2.0.0"]
                          (Some "/work/plugins/segmentation") true)
              None])%list.
Proof.
  unfold outcome.
  edestruct (@regular_file_counts_as_checkout (Posix.host "linux" "3.11.10") args
               (start "linux" "3.11.10" stray_file))
    with (specs := [ ("numpy", JStr "1.26.4", JStr "PyPI");
                     ("cmlibs.zinc", JStr "4.1.2", JStr "local") ])
         (done := @nil (string * json))
         (p := "segmentation") (p_data := segmentation) (later := [("fitting", fitting)])
    as [_ Hraise];
    [solve [reflexivity | vm_compute; reflexivity | repeat constructor] .. |].
  rewrite Hraise by reflexivity. cbn [fst snd st_log].
  split; [reflexivity | eexists; reflexivity].
Defined.

Lemma underway_plugin_tools :
  forall p p_data version location w,
    In (p, p_data) [("segmentation", segmentation); ("fitting", fitting)] ->
    Py.getitem p_data "version" = Val version ->
    Py.getitem p_data "location" = Val (JStr location) ->
    plugins_underway w ->
    exists c1 w1 c2 w2,
      @subprocess_run (Posix.host "linux" "3.11.10")
        (@first_tool (Posix.host "linux" "3.11.10") "/usr/bin/git" "/work/plugins"
           p version location w) w = (Some c1, w1) /\
      returncode c1 = 0 /\
      @subprocess_run (Posix.host "linux" "3.11.10")
        (@switch_invocation (Posix.host "linux" "3.11.10") "/usr/bin/git" "/work/plugins"
           p version) w1 = (Some c2, w2) /\
      @switched (Posix.host "linux" "3.11.10") version c2 /\
      plugins_underway w2.
Proof.
  intros p p_data version location w Hin Hv Hl (a & b & ->).
  destruct Hin as [[= <- <-] | [[= <- <-] | []]];
    cbv in Hv; cbv in Hl;
    injection Hv as <-; injection Hl as <-;
    destruct a, b;
    eexists _, _, _, _;
    (split; [reflexivity |]);
    (split; [reflexivity |]);
    (split; [reflexivity |]);
    (split; [left; reflexivity |]);
    first [ exists true, true; reflexivity
          | exists true, false; reflexivity
          | exists false, true; reflexivity
          | exists false, false; reflexivity ].
Qed.

Lemma underway_last_tools :
  forall w, plugins_underway w ->
    exists c6 w6 c7 w7,
      @subprocess_run (Posix.host "linux" "3.11.10")
        (editable_install_invocation pip_exe) w = (Some c6, w6) /\
      @subprocess_run (Posix.host "linux" "3.11.10")
        (Invocation ["/work/venv_map_client/bin/mapclient_use"; "/work"; "-d"; "/work/plugins"]
                    None false) w6 = (Some c7, w7) /\
      returncode c7 = 0.
Proof.
  intros w (a & b & ->).
  destruct a, b; eexists _, _, _, _;
    (split; [reflexivity |]);
    (split; [reflexivity |]); reflexivity.
Qed.

(** The run in which the editable install exits 1 and every other tool
    succeeds: [main] returns 0 with eleven events logged. *)
Lemma main_succeeds_when_nothing_fails_witness :
  exists s',
    @main (Posix.host "linux" "3.11.10") args
      (start "linux" "3.11.10" editable_install_fails) = (Exit 0, s') /\
    length (st_log s') = 11%nat.
Proof.
  edestruct (@main_succeeds_when_nothing_fails (Posix.host "linux" "3.11.10") args
               (start "linux" "3.11.10" editable_install_fails))
    with (specs := [ ("numpy", JStr "1.26.4", JStr "PyPI");
                     ("cmlibs.zinc", JStr "4.1.2", JStr "local") ])
         (steady := plugins_underway)
    as (s' & loop_events & c6 & c7 & Hmain & Hlen & Hlog);
    [solve [ reflexivity
           | repeat constructor; eexists _, _; split; reflexivity
           | repeat constructor
           | exact underway_plugin_tools
           | exists false, false; reflexivity
           | exact underway_last_tools ] .. |].
  exists s'. split; [exact Hmain |].
  rewrite Hlog. rewrite !length_app, Hlen. reflexivity.
Defined.

(** A second run, the [segmentation] checkout in place: [echo] and the
    switch for it, then the clone of [fitting] and its switch. *)
Lemma plugin_loop_runs_two_tools_per_plugin_witness :
  exists s1 c1 c2 w2,
    @sync_plugins (Posix.host "linux" "3.11.10") "/usr/bin/git" "/work/plugins"
      [("segmentation", segmentation)]
      (@State (Posix.host "linux" "3.11.10") (underway true false) []) = (Val tt, s1) /\
    st_log s1 =
      [ERun (Invocation ["echo"; "/work/plugins/segmentation"] None false)
            (Some (Completed 0 (Some "")));
       ERun (Invocation ["/usr/bin/git"; "switch"; "-c"; "v2.0.0"]
                        (Some "/work/plugins/segmentation") true)
            (Some (Completed 0 (Some "")))] /\
    @sync_plugins (Posix.host "linux" "3.11.10") "/usr/bin/git" "/work/plugins"
      [("segmentation", segmentation); ("fitting", fitting)]
      (@State (Posix.host "linux" "3.11.10") (underway true false) []) =
    (Val tt,
     @State (Posix.host "linux" "3.11.10") w2
       (st_log s1
        ++ [ERun (Invocation ["/usr/bin/git"; "clone"; "--depth"; "1"; "--branch"; "v1.3.0";
                              "https://example.org/fitting.git"; "fitting"]
                             (Some "/work/plugins") true)
                 (Some c1);
            ERun (Invocation ["/usr/bin/git"; "switch"; "-c"; "v1.3.0"]
                             (Some "/work/plugins/fitting") true)
                 (Some c2)])).
Proof.
  destruct (@plugin_loop_runs_two_tools_per_plugin (Posix.host "linux" "3.11.10")
              plugins_underway "/usr/bin/git" "/work/plugins"
              [("segmentation", segmentation); ("fitting", fitting)])
    with (s := @State (Posix.host "linux" "3.11.10") (underway true false) [])
    as [_ Hsplit].
  - repeat constructor; eexists _, _; split; reflexivity.
  - exact underway_plugin_tools.
  - exists true, false. reflexivity.
  - destruct (Hsplit [("segmentation", segmentation)] "fitting" fitting [] eq_refl)
      as (s1 & version & location & c1 & c2 & w2 & E1 & Hv & Hl & _ & _ & E).
    cbv in Hv. cbv in Hl. injection Hv as <-. injection Hl as <-.
    assert (Hs1 : s1 = snd (@sync_plugins (Posix.host "linux" "3.11.10")
                              "/usr/bin/git" "/work/plugins"
                              [("segmentation", segmentation)]
                              (@State (Posix.host "linux" "3.11.10")
                                 (underway true false) [])))
      by now rewrite E1.
    exists s1, c1, c2, w2. split; [exact E1 |]. split.
    + rewrite Hs1. reflexivity.
    + rewrite Hs1 in E. rewrite Hs1. exact E.
Defined.

(** An array that holds other strings than [id]: code 2. *)
Lemma non_object_provenance_is_refused_witness :
  fst (outcome "linux" "3.11.10" array_file) = Exit 2.
Proof.
  unfold outcome. cbn [fst].
  pose proof (@non_object_provenance_is_refused (Posix.host "linux" "3.11.10") args
                (start "linux" "3.11.10" array_file)
                (JArr [JStr "map-client-provenance-record-report"; JStr "0.2.0"])) as H.
  cbv beta iota in H. rewrite H; [reflexivity | vm_compute; reflexivity ..].
Defined.

Lemma requirements_text_splits_into_its_lines_witness :
  let lines := ["mapclient == 0.21.0"; "numpy == 1.26.4"; "cmlibs.zinc == 4.1.2"] in
  exists text w',
    @write_requirements (Posix.host "linux" "3.11.10") args lines
      (start "linux" "3.11.10" (recorded linux_record))
    = (Val tt, @State (Posix.host "linux" "3.11.10") w'
                 [EWrite "/work/requirements.txt" text]) /\
    Str.split LF_char text = lines.
Proof.
  intros lines.
  edestruct (@requirements_text_splits_into_its_lines (Posix.host "linux" "3.11.10") args
               lines (start "linux" "3.11.10" (recorded linux_record)))
    as (text & Hwrite & Hsplit).
  - discriminate.
  - repeat constructor.
  - vm_compute. reflexivity.
  - exists text. eexists. split; [exact Hwrite | exact Hsplit].
Defined.

(** PyPy: the installer and the activation tool are both taken to be
    [bin/pypy3] of the new environment. *)
Lemma tool_paths_without_python_witness :
  @_get_virtual_environment_pip pypy "/work" "venv_map_client"
    = Val "/work/venv_map_client/bin/pypy3" /\
  @_get_virtual_environment_map_client_use pypy "/work" "venv_map_client"
    = @_get_virtual_environment_pip pypy "/work" "venv_map_client".
Proof.
  apply (@tool_paths_without_python pypy "/work" "venv_map_client" "/opt/pypy");
    reflexivity.
Defined.

End FurtherRuns.
